(** * money_manager: the Salt Edge synchronisation core

    A shallow embedding of the signed API client
    (services/saltedge_client.py), the status probe
    (services/status_checker.py), the webhook endpoints (api/callbacks.py)
    and the synchronisation service (services/sync_service.py), with the
    properties of the design document stated over it; then the requests
    of the client, the other endpoints and handlers, the probe of the
    account status and the endpoints of api/sync.py, api/status.py and
    api/connections.py that call them, with properties read off the
    code. *)

From Stdlib Require Import ZArith String Ascii Bool Lia Arith.
From Stdlib Require Import DecimalString DecimalZ Decimal.
From Stdlib Require Import List FinFun.
Import ListNotations.

Local Open Scope string_scope.
Local Open Scope Z_scope.
Local Open Scope list_scope.
Set Warnings "-register-all".

(* ================================================================== *)
(** * StatusProbe: services/status_checker.py *)

Module StatusChecker.

(** The entries of [status_info] that [_estimate_status] reads. *)
Record status_info := {
  api_accessible : bool;
  can_create_customers : bool;
  can_list_providers : bool;
  can_access_real_providers : bool;
  fake_providers_available : bool
}.

Inductive tier := invalid_credentials | pending | test | live | unknown.

(** The string each tier is returned as. *)
Definition tier_name (t : tier) : string :=
  match t with
  | invalid_credentials => "invalid_credentials"
  | pending => "pending"
  | test => "test"
  | live => "live"
  | unknown => "unknown"
  end.

(** [SaltEdgeStatusChecker._estimate_status]: four guarded returns and a
    default. *)
Definition _estimate_status (info : status_info) : tier :=
  if negb (api_accessible info) then invalid_credentials
  else if negb (can_create_customers info) then pending
  else if fake_providers_available info && negb (can_access_real_providers info) then test
  else if can_access_real_providers info then live
  else unknown.

(** C9. The classification has the stated priority:
    not api_accessible gives invalid_credentials; otherwise not
    can_create_customers gives pending; otherwise fake providers without
    real ones gives test; otherwise real providers give live; otherwise
    unknown.  Every outcome is one of the five tiers by the type of
    [_estimate_status]. *)
Theorem estimate_status_priority (info : status_info) :
  _estimate_status info =
    match api_accessible info, can_create_customers info,
          fake_providers_available info, can_access_real_providers info with
    | false, _, _, _ => invalid_credentials
    | true, false, _, _ => pending
    | true, true, true, false => test
    | true, true, _, true => live
    | true, true, false, false => unknown
    end
  /\ In (tier_name (_estimate_status info))
        ["invalid_credentials"; "pending"; "test"; "live"; "unknown"].
Proof.
  unfold _estimate_status.
  destruct info as [a c l r f]; simpl.
  destruct a, c, f, r; simpl; split; auto 10.
Qed.

End StatusChecker.

(* ================================================================== *)
(** * Python values shared by the components *)

Module Py.

(** Exceptions, with the text [str(e)] gives.  [ClientError] stands for
    whatever the HTTP layer raises (requests.exceptions.RequestException,
    a JSON decoding error of the response), [DatabaseError] for what the
    session raises when the database refuses a statement
    (sqlalchemy.exc.IntegrityError and the like). *)
Inductive exn :=
| ValueError (msg : string)
| KeyError (key : string)
| TypeError (msg : string)
| AttributeError (msg : string)
| UnicodeError (msg : string)
| JSONDecodeError
| HTTPException (status_code : Z) (detail : string)
| ClientError (msg : string)
| DatabaseError (msg : string).

(** A computation that returns or raises. *)
Inductive result (A : Type) :=
| Ok (a : A)
| Raise (e : exn).
Arguments Ok {A} a.
Arguments Raise {A} e.

Definition bind {A B} (r : result A) (k : A -> result B) : result B :=
  match r with
  | Ok a => k a
  | Raise e => Raise e
  end.

(** [try: r except Exception as e: handler(e)]. *)
Definition try_except {A} (r : result A) (handler : exn -> result A) : result A :=
  match r with
  | Ok a => Ok a
  | Raise e => handler e
  end.

(** Values produced by [json.loads] / [response.json()].  Numbers are
    integers: fractional numbers are binary floats in Python and no
    operation modelled here computes with them.  An object keeps its
    entries in order; [json.loads] produces no duplicate key. *)
Inductive json :=
| JNull
| JBool (b : bool)
| JNum (n : Z)
| JStr (s : string)
| JArr (l : list json)
| JObj (kvs : list (string * json)).

(** Python's [==] on loaded values. *)
Fixpoint json_eqb (a b : json) {struct a} : bool :=
  match a, b with
  | JNull, JNull => true
  | JBool x, JBool y => Bool.eqb x y
  | JNum x, JNum y => Z.eqb x y
  | JStr x, JStr y => String.eqb x y
  | JArr xs, JArr ys =>
      (fix go (xs ys : list json) {struct xs} : bool :=
         match xs, ys with
         | [], [] => true
         | x :: xs', y :: ys' => json_eqb x y && go xs' ys'
         | _, _ => false
         end) xs ys
  | JObj xs, JObj ys =>
      (fix go (xs ys : list (string * json)) {struct xs} : bool :=
         match xs, ys with
         | [], [] => true
         | (k, x) :: xs', (k', y) :: ys' =>
             String.eqb k k' && json_eqb x y && go xs' ys'
         | _, _ => false
         end) xs ys
  | _, _ => false
  end.

(** [d.get(key)] on a dict's entries: [None] when the key is absent. *)
Fixpoint lookup (key : string) (kvs : list (string * json)) : option json :=
  match kvs with
  | [] => None
  | (k, v) :: rest => if String.eqb k key then Some v else lookup key rest
  end.

(** [key in d]. *)
Definition has_key (key : string) (kvs : list (string * json)) : bool :=
  match lookup key kvs with Some _ => true | None => false end.

(** [obj.get(key, default)]: only a dict has [get]. *)
Definition get (obj : json) (key : string) (default : json) : result json :=
  match obj with
  | JObj kvs =>
      match lookup key kvs with Some v => Ok v | None => Ok default end
  | _ => Raise (AttributeError "object has no attribute 'get'")
  end.

(** [obj[key]] with a string key. *)
Definition getitem (obj : json) (key : string) : result json :=
  match obj with
  | JObj kvs =>
      match lookup key kvs with Some v => Ok v | None => Raise (KeyError key) end
  | _ => Raise (TypeError "indices must be integers or the object is not subscriptable")
  end.

(** Truth value of a loaded value. *)
Definition truthy (j : json) : bool :=
  match j with
  | JNull => false
  | JBool b => b
  | JNum n => negb (Z.eqb n 0)
  | JStr s => negb (String.eqb s "")
  | JArr l => match l with [] => false | _ => true end
  | JObj kvs => match kvs with [] => false | _ => true end
  end.

(** What a [for] loop iterates over: the items of a list, the keys of a
    dict, the characters of a string (here: its bytes, one string each);
    other values are not iterable. *)
Definition iterate (j : json) : result (list json) :=
  match j with
  | JArr l => Ok l
  | JObj kvs => Ok (map (fun kv => JStr (fst kv)) kvs)
  | JStr s => Ok (map (fun c => JStr (String c EmptyString)) (list_ascii_of_string s))
  | _ => Raise (TypeError "object is not iterable")
  end.

End Py.

(* ================================================================== *)
(** * Library functions the client and the callbacks call:
      hashlib.sha256, hmac.new(...).digest(), base64.b64encode *)

Module Bytes.

Definition bytes := list Byte.byte.

Definition byte_val (b : Byte.byte) : Z := Z.of_N (Byte.to_N b).

Definition byte_of (z : Z) : Byte.byte :=
  match Byte.of_N (Z.to_N (z mod 256)) with
  | Some b => b
  | None => Byte.x00
  end.

(** [n] bytes, most significant first, of [z]. *)
Fixpoint be_bytes (n : nat) (z : Z) : bytes :=
  match n with
  | O => []
  | S n' => byte_of (Z.shiftr z (8 * Z.of_nat n')) :: be_bytes n' z
  end.

(** The big-endian value of a byte string. *)
Definition be_val (bs : bytes) : Z :=
  fold_left (fun acc b => acc * 256 + byte_val b) bs 0.

End Bytes.

Module Sha256.
Import Bytes.

Definition mask32 : Z := 0xFFFFFFFF.
Definition add32 (x y : Z) : Z := Z.land (x + y) mask32.
Definition rotr (n x : Z) : Z :=
  Z.lor (Z.shiftr x n) (Z.land (Z.shiftl x (32 - n)) mask32).
Definition shr (n x : Z) : Z := Z.shiftr x n.
Definition not32 (x : Z) : Z := Z.lxor x mask32.

Definition Ch (x y z : Z) := Z.lxor (Z.land x y) (Z.land (not32 x) z).
Definition Maj (x y z : Z) :=
  Z.lxor (Z.lxor (Z.land x y) (Z.land x z)) (Z.land y z).
Definition Sigma0 (x : Z) := Z.lxor (Z.lxor (rotr 2 x) (rotr 13 x)) (rotr 22 x).
Definition Sigma1 (x : Z) := Z.lxor (Z.lxor (rotr 6 x) (rotr 11 x)) (rotr 25 x).
Definition sigma0 (x : Z) := Z.lxor (Z.lxor (rotr 7 x) (rotr 18 x)) (shr 3 x).
Definition sigma1 (x : Z) := Z.lxor (Z.lxor (rotr 17 x) (rotr 19 x)) (shr 10 x).

(** The first 64 primes. *)
Definition primes : list Z :=
  [2; 3; 5; 7; 11; 13; 17; 19; 23; 29; 31; 37; 41; 43; 47; 53;
   59; 61; 67; 71; 73; 79; 83; 89; 97; 101; 103; 107; 109; 113; 127; 131;
   137; 139; 149; 151; 157; 163; 167; 173; 179; 181; 191; 193; 197; 199; 211; 223;
   227; 229; 233; 239; 241; 251; 257; 263; 269; 271; 277; 281; 283; 293; 307; 311].

(** The integer cube root, bit by bit from bit [k] down. *)
Fixpoint cube_root_bits (k : nat) (n r : Z) : Z :=
  match k with
  | O => r
  | S k' =>
      let r' := r + 2 ^ Z.of_nat k' in
      cube_root_bits k' n (if r' * r' * r' <=? n then r' else r)
  end.

(** FIPS 180-4, 4.2.2: the first 32 bits of the fractional parts of the
    cube roots of the first 64 primes. *)
Definition K : list Z :=
  Eval vm_compute in
    map (fun p => Z.land (cube_root_bits 36 (p * 2 ^ 96) 0) mask32) primes.

(** FIPS 180-4, 5.3.3: the first 32 bits of the fractional parts of the
    square roots of the first 8 primes. *)
Definition H0 : list Z :=
  Eval vm_compute in
    map (fun p => Z.land (Z.sqrt (p * 2 ^ 64)) mask32) (firstn 8 primes).

(** Padding: the bit 1, zeros up to 56 mod 64, the bit length on 8 bytes. *)
Definition pad (msg : bytes) : bytes :=
  let len := Z.of_nat (length msg) in
  msg ++ [Byte.x80]
      ++ repeat Byte.x00 (Z.to_nat ((55 - len) mod 64))
      ++ be_bytes 8 (8 * len).

(** The 16 big-endian words of a 64-byte block. *)
Fixpoint words (n : nat) (block : bytes) : list Z :=
  match n with
  | O => []
  | S n' => be_val (firstn 4 block) :: words n' (skipn 4 block)
  end.

(** The message schedule: [n] more words after the ones in [w]. *)
Fixpoint schedule (n : nat) (w : list Z) : list Z :=
  match n with
  | O => w
  | S n' =>
      let j := length w in
      let at_ k := nth (j - k) w 0 in
      schedule n'
        (w ++ [add32 (add32 (add32 (sigma1 (at_ 2%nat)) (at_ 7%nat))
                            (sigma0 (at_ 15%nat))) (at_ 16%nat)])
  end.

Definition regs := (Z * Z * Z * Z * Z * Z * Z * Z)%type.

Definition round (s : regs) (kw : Z * Z) : regs :=
  let '(a, b, c, d, e, f, g, h) := s in
  let t1 := add32 (add32 (add32 (add32 h (Sigma1 e)) (Ch e f g)) (fst kw)) (snd kw) in
  let t2 := add32 (Sigma0 a) (Maj a b c) in
  (add32 t1 t2, a, b, c, add32 d t1, e, f, g).

Definition compress (s : regs) (block : bytes) : regs :=
  let w := schedule 48 (words 16 block) in
  let '(a, b, c, d, e, f, g, h) := fold_left round (combine K w) s in
  let '(a0, b0, c0, d0, e0, f0, g0, h0) := s in
  (add32 a0 a, add32 b0 b, add32 c0 c, add32 d0 d,
   add32 e0 e, add32 f0 f, add32 g0 g, add32 h0 h).

Fixpoint blocks (n : nat) (s : regs) (msg : bytes) : regs :=
  match n with
  | O => s
  | S n' => blocks n' (compress s (firstn 64 msg)) (skipn 64 msg)
  end.

Definition init : regs :=
  match H0 with
  | [a; b; c; d; e; f; g; h] => (a, b, c, d, e, f, g, h)
  | _ => (0, 0, 0, 0, 0, 0, 0, 0)
  end.

(** [hashlib.sha256(msg).digest()]. *)
Definition digest (msg : bytes) : bytes :=
  let p := pad msg in
  let '(a, b, c, d, e, f, g, h) := blocks (length p / 64) init p in
  be_bytes 4 a ++ be_bytes 4 b ++ be_bytes 4 c ++ be_bytes 4 d ++
  be_bytes 4 e ++ be_bytes 4 f ++ be_bytes 4 g ++ be_bytes 4 h.

End Sha256.

Module Hmac.
Import Bytes.

Definition block_size : nat := 64.

Definition xor_with (c : Z) (bs : bytes) : bytes :=
  map (fun b => byte_of (Z.lxor (byte_val b) c)) bs.

(** The key as HMAC uses it: hashed when longer than a block, then padded
    with zero bytes to the block size. *)
Definition block_key (key : bytes) : bytes :=
  let k := if Nat.ltb block_size (length key) then Sha256.digest key else key in
  k ++ repeat Byte.x00 (block_size - length k).

(** [hmac.new(key, msg, hashlib.sha256).digest()]. *)
Definition hmac_sha256 (key msg : bytes) : bytes :=
  let k := block_key key in
  Sha256.digest (xor_with 0x5c k ++ Sha256.digest (xor_with 0x36 k ++ msg)).

End Hmac.

Module Base64.
Import Bytes.

Definition alphabet : string :=
  "ABCDEFGHIJKLMNOPQRSTUVWXYZabcdefghijklmnopqrstuvwxyz0123456789+/".

Definition sextet (z : Z) : ascii :=
  match String.get (Z.to_nat (Z.land z 63)) alphabet with
  | Some c => c
  | None => "="%char
  end.

(** [base64.b64encode(bs).decode('utf-8')]: three bytes give four
    characters; one or two trailing bytes are padded with [=]. *)
Fixpoint b64encode (bs : bytes) : string :=
  match bs with
  | [] => ""
  | [a] =>
      let n := Z.shiftl (byte_val a) 16 in
      String (sextet (Z.shiftr n 18)) (String (sextet (Z.shiftr n 12)) "==")
  | [a; b] =>
      let n := Z.shiftl (byte_val a) 16 + Z.shiftl (byte_val b) 8 in
      String (sextet (Z.shiftr n 18)) (String (sextet (Z.shiftr n 12))
        (String (sextet (Z.shiftr n 6)) "="))
  | a :: b :: c :: rest =>
      let n := Z.shiftl (byte_val a) 16 + Z.shiftl (byte_val b) 8 + byte_val c in
      String (sextet (Z.shiftr n 18)) (String (sextet (Z.shiftr n 12))
        (String (sextet (Z.shiftr n 6)) (String (sextet n) (b64encode rest))))
  end.

End Base64.

Module LibraryVectors.
Import Bytes.

Definition hex (bs : bytes) : string :=
  let digit z := match String.get (Z.to_nat z) "0123456789abcdef" with
                 | Some c => c | None => "?"%char end in
  fold_right (fun b acc =>
    String (digit (Z.shiftr (byte_val b) 4)) (String (digit (Z.land (byte_val b) 15)) acc))
    "" bs.

(** FIPS 180-4, the one-block message abc. *)
Example sha256_abc :
  hex (Sha256.digest (list_byte_of_string "abc")) =
  "ba7816bf8f01cfea414140de5dae2223b00361a396177a9cb410ff61f20015ad".
Proof. vm_compute. reflexivity. Qed.

(** FIPS 180-4, the two-block message. *)
Example sha256_two_blocks :
  hex (Sha256.digest (list_byte_of_string
         "abcdbcdecdefdefgefghfghighijhijkijkljklmklmnlmnomnopnopq")) =
  "248d6a61d20638b8e5c026930c3e6039a33ce45964ff2167f6ecedd419db06c1".
Proof. vm_compute. reflexivity. Qed.

(** RFC 4231, test case 2. *)
Example hmac_rfc4231_2 :
  hex (Hmac.hmac_sha256 (list_byte_of_string "Jefe")
         (list_byte_of_string "what do ya want for nothing?")) =
  "5bdcc146bf60754e6a042426089575c75a003f089d2739839dec58b964ec3843".
Proof. vm_compute. reflexivity. Qed.

(** RFC 4648, section 10. *)
Example b64_rfc4648 :
  map (fun s => Base64.b64encode (list_byte_of_string s))
      [""; "f"; "fo"; "foo"; "foob"; "fooba"; "foobar"] =
  [""; "Zg=="; "Zm8="; "Zm9v"; "Zm9vYg=="; "Zm9vYmE="; "Zm9vYmFy"].
Proof. vm_compute. reflexivity. Qed.

End LibraryVectors.

(* ================================================================== *)
(** * Text: Python [str] values

    A [str] is represented by its UTF-8 encoding, as a Rocq [string] (a
    list of bytes).  [s.encode('utf-8')] is then the list of its bytes,
    and [b.decode('utf-8')] checks that the bytes are well-formed UTF-8. *)

Module Text.
Import Bytes Py.

Definition encode_utf8 (s : string) : bytes := list_byte_of_string s.

(** [str(n)] for an [int]. *)
Definition str_of_int (n : Z) : string := NilEmpty.string_of_int (Z.to_int n).

Definition is_cont (b : Byte.byte) : bool :=
  (0x80 <=? byte_val b) && (byte_val b <=? 0xBF).

Definition in_range (lo hi : Z) (b : Byte.byte) : bool :=
  (lo <=? byte_val b) && (byte_val b <=? hi).

(** Well-formed UTF-8 (Unicode, table 3-7): no overlong form, no
    surrogate, nothing above U+10FFFF.  [fuel] bounds the number of
    characters. *)
Fixpoint valid_utf8 (fuel : nat) (bs : bytes) : bool :=
  match fuel with
  | O => match bs with [] => true | _ => false end
  | S fuel' =>
      match bs with
      | [] => true
      | b0 :: r0 =>
          if byte_val b0 <=? 0x7F then valid_utf8 fuel' r0
          else if in_range 0xC2 0xDF b0 then
            match r0 with
            | b1 :: r1 => is_cont b1 && valid_utf8 fuel' r1
            | _ => false
            end
          else if in_range 0xE0 0xEF b0 then
            match r0 with
            | b1 :: b2 :: r2 =>
                in_range (if byte_val b0 =? 0xE0 then 0xA0 else 0x80)
                         (if byte_val b0 =? 0xED then 0x9F else 0xBF) b1
                && is_cont b2 && valid_utf8 fuel' r2
            | _ => false
            end
          else if in_range 0xF0 0xF4 b0 then
            match r0 with
            | b1 :: b2 :: b3 :: r3 =>
                in_range (if byte_val b0 =? 0xF0 then 0x90 else 0x80)
                         (if byte_val b0 =? 0xF4 then 0x8F else 0xBF) b1
                && is_cont b2 && is_cont b3 && valid_utf8 fuel' r3
            | _ => false
            end
          else false
      end
  end.

(** [bs.decode('utf-8')]. *)
Definition decode_utf8 (bs : bytes) : result string :=
  if valid_utf8 (length bs) bs then Ok (string_of_list_byte bs)
  else Raise (UnicodeError "'utf-8' codec can't decode bytes").

(** [s.isascii()]. *)
Definition is_ascii (s : string) : bool :=
  forallb (fun b => byte_val b <=? 0x7F) (list_byte_of_string s).

End Text.

(* ================================================================== *)
(** * SignedApiClient: services/saltedge_client.py *)

Module SaltEdgeClient.
Import Bytes Py Text.

(** The attributes [__init__] copies from the settings. *)
Record client := {
  base_url : string;
  app_id : string;
  secret_key : string;
  client_id : option string
}.

(** The string that is signed: [f"{expires_at}|{method}|{url}|{body}"]. *)
Definition string_to_sign (method url : string) (expires_at : Z) (body : string) : string :=
  (str_of_int expires_at ++ "|" ++ method ++ "|" ++ url ++ "|" ++ body)%string.

(** [SaltEdgeClient._generate_signature]. *)
Definition _generate_signature (self : client) (method url : string)
    (expires_at : Z) (body : string) : string :=
  let signature :=
    Hmac.hmac_sha256 (encode_utf8 (secret_key self))
                     (encode_utf8 (string_to_sign method url expires_at body)) in
  Base64.b64encode signature.

(** [SaltEdgeClient._get_headers]; [now] is the value of
    [int(time.time())] when it runs.  The dict is given by its entries. *)
Definition _get_headers (self : client) (now : Z) (method url body : string)
    : list (string * string) :=
  let expires_at := now + 60 in
  let signature := _generate_signature self method url expires_at body in
  [("Accept", "application/json");
   ("Content-Type", "application/json");
   ("App-id", app_id self);
   ("Secret", secret_key self);
   ("Signature", signature);
   ("Expires-at", str_of_int expires_at)]
  ++ match client_id self with
     | Some c => if negb (String.eqb c "") then [("Client-id", c)] else []
     | None => []
     end.

(** A header of the dict. *)
Fixpoint header (name : string) (hs : list (string * string)) : option string :=
  match hs with
  | [] => None
  | (k, v) :: rest => if String.eqb k name then Some v else header name rest
  end.

End SaltEdgeClient.

(** ** Facts about text *)

Module TextFacts.
Import Text.

Lemma append_length (a b : string) :
  String.length (a ++ b) = (String.length a + String.length b)%nat.
Proof. induction a as [|c a IH]; simpl; [reflexivity | now rewrite IH]. Qed.

Lemma append_inj_l (a b c : string) : (a ++ b)%string = (a ++ c)%string -> b = c.
Proof.
  induction a as [|x a IH]; simpl; intros H; [assumption|].
  injection H as H. now apply IH.
Qed.

Lemma append_inj_r (a b c : string) : (a ++ c)%string = (b ++ c)%string -> a = b.
Proof.
  revert b. induction a as [|x a IH]; intros [|y b] H; simpl in H.
  - reflexivity.
  - apply (f_equal String.length) in H. simpl in H.
    rewrite append_length in H. lia.
  - apply (f_equal String.length) in H. simpl in H.
    rewrite append_length in H. lia.
  - injection H as Hx H. subst y. f_equal. now apply IH.
Qed.

(** [str] of an [int] determines the [int]. *)
Lemma str_of_int_inj (m n : Z) : str_of_int m = str_of_int n -> m = n.
Proof.
  unfold str_of_int. intros H.
  apply (f_equal NilEmpty.int_of_string) in H.
  rewrite !NilEmpty.isi in H. injection H as H.
  apply (f_equal Z.of_int) in H. now rewrite !DecimalZ.of_to in H.
Qed.

End TextFacts.

(** ** Finiteness of the digests *)

Module DigestFacts.
Import Bytes.

Lemma be_bytes_length (n : nat) (z : Z) : length (be_bytes n z) = n.
Proof. induction n as [|n IH]; simpl; [reflexivity | now rewrite IH]. Qed.

Lemma digest_length (msg : bytes) : length (Sha256.digest msg) = 32%nat.
Proof.
  unfold Sha256.digest.
  destruct (Sha256.blocks _ _ _) as [[[[[[[a b] c] d] e] f] g] h].
  rewrite !length_app, !be_bytes_length. reflexivity.
Qed.

Lemma hmac_length (key msg : bytes) : length (Hmac.hmac_sha256 key msg) = 32%nat.
Proof. unfold Hmac.hmac_sha256. apply digest_length. Qed.

(** Every byte, and every byte string of a given length. *)
Definition all_bytes : list Byte.byte :=
  map (fun n => byte_of (Z.of_nat n)) (seq 0 256).

Fixpoint all_strings (n : nat) : list bytes :=
  match n with
  | O => [[]]
  | S n' => flat_map (fun l => map (fun b => b :: l) all_bytes) (all_strings n')
  end.

Lemma byte_of_val (b : Byte.byte) : byte_of (byte_val b) = b.
Proof.
  unfold byte_of, byte_val.
  pose proof (Byte.to_N_bounded b) as Hb.
  rewrite Z.mod_small by lia.
  rewrite N2Z.id, Byte.of_to_N. reflexivity.
Qed.

Lemma all_bytes_complete (b : Byte.byte) : In b all_bytes.
Proof.
  unfold all_bytes. apply in_map_iff.
  exists (N.to_nat (Byte.to_N b)). split.
  - rewrite <- (byte_of_val b) at 2. f_equal.
    unfold byte_val. now rewrite N_nat_Z.
  - apply in_seq. pose proof (Byte.to_N_bounded b). lia.
Qed.

Lemma all_strings_complete (l : bytes) : In l (all_strings (length l)).
Proof.
  induction l as [|b l IH]; cbn [Datatypes.length all_strings]; [now left|].
  apply in_flat_map. exists l. split; [assumption|].
  apply (in_map (fun b => b :: l)). apply all_bytes_complete.
Qed.

(** No function from the naturals into a finite list of values is
    injective. *)
Lemma pigeonhole {B : Type} (f : nat -> B) (univ : list B) :
  (forall i, In (f i) univ) -> ~ (forall i j, i <> j -> f i <> f j).
Proof.
  intros Hin Hinj.
  assert (Hnd : NoDup (map f (seq 0 (S (length univ))))).
  { apply Injective_map_NoDup; [|apply seq_NoDup].
    intros i j Hij. destruct (Nat.eq_dec i j) as [|Hne]; [assumption|].
    now destruct (Hinj i j Hne). }
  assert (Hincl : incl (map f (seq 0 (S (length univ)))) univ).
  { intros y Hy. apply in_map_iff in Hy as [i [<- _]]. apply Hin. }
  pose proof (NoDup_incl_length Hnd Hincl) as Hlen.
  rewrite length_map, length_seq in Hlen. lia.
Qed.

End DigestFacts.

(** ** The request signature *)

Module SignatureProps.
Import Bytes Py Text SaltEdgeClient TextFacts DigestFacts.

(** The signature in the words of the design document: base64 of the raw
    HMAC-SHA256 digest, under the secret key, of E|M|U|B. *)
Definition reference_signature (key : string) (E : Z) (M U B : string) : string :=
  Base64.b64encode
    (Hmac.hmac_sha256 (list_byte_of_string key)
       (list_byte_of_string
          (str_of_int E ++ "|" ++ M ++ "|" ++ U ++ "|" ++ B)%string)).

(** Bodies of every length. *)
Fixpoint filler (n : nat) : string :=
  match n with
  | O => ""
  | S n' => String "a" (filler n')
  end.

Lemma filler_length (n : nat) : String.length (filler n) = n.
Proof. induction n as [|n IH]; simpl; [reflexivity | now rewrite IH]. Qed.

Lemma filler_inj (i j : nat) : i <> j -> filler i <> filler j.
Proof.
  intros Hne Heq. apply Hne.
  rewrite <- (filler_length i), <- (filler_length j). now rewrite Heq.
Qed.

(** Every signature is the base64 text of one of the 32-byte strings. *)
Lemma signature_in_range (self : client) (M U : string) (E : Z) (B : string) :
  In (_generate_signature self M U E B) (map Base64.b64encode (all_strings 32)).
Proof.
  unfold _generate_signature. apply in_map.
  pose proof (all_strings_complete
                (Hmac.hmac_sha256 (encode_utf8 (secret_key self))
                                  (encode_utf8 (string_to_sign M U E B)))) as H.
  now rewrite hmac_length in H.
Qed.

(** C1, as stated, fails: a change of the body does not always change the
    signature, because the bodies are infinitely many and the signatures
    are the base64 texts of 32-byte digests. *)
Lemma signature_not_injective :
  ~ (forall (self : client) (M U : string) (E : Z) (B B' : string),
       B <> B' ->
       _generate_signature self M U E B <> _generate_signature self M U E B').
Proof.
  intros Hclaim.
  pose (self := {| base_url := "https://www.saltedge.com/api/v6";
                   app_id := "app"; secret_key := "secret"; client_id := None |}).
  apply (pigeonhole
           (fun i => _generate_signature self "POST" "https://www.saltedge.com/api/v6/customers" 60 (filler i))
           (map Base64.b64encode (all_strings 32))).
  - intros i. apply signature_in_range.
  - intros i j Hne. apply Hclaim. now apply filler_inj.
Qed.

(** The HMAC key is padded with zero bytes to the block size, so two keys
    that differ by a trailing zero byte sign alike. *)
Example signature_key_padding :
  let c1 := {| base_url := ""; app_id := "app"; secret_key := "k"; client_id := None |} in
  let c2 := {| base_url := ""; app_id := "app";
               secret_key := String "k" (String Ascii.zero ""); client_id := None |} in
  secret_key c1 <> secret_key c2 /\
  _generate_signature c1 "GET" "u" 60 "" = "hMGeKcHtMu8QtT+cO9oYc5YLF2NmF8LBfPGyG2ZooVY=" /\
  _generate_signature c2 "GET" "u" 60 "" = "hMGeKcHtMu8QtT+cO9oYc5YLF2NmF8LBfPGyG2ZooVY=".
Proof.
  cbv zeta. split; [discriminate|]. split; vm_compute; reflexivity.
Qed.

(** C1, amended.  The signature is the base64 text of the raw HMAC-SHA256
    digest of E|M|U|B under the secret key; it is a function of these
    inputs alone, sent in the Signature header with E = now + 60 in the
    Expires-at header; and a change of any one of E, M, U, B changes the
    string that is signed. *)
Theorem signature_reference (self : client) (now E : Z) (M U B : string) :
  _generate_signature self M U E B = reference_signature (secret_key self) E M U B
  /\ header "Signature" (_get_headers self now M U B)
     = Some (reference_signature (secret_key self) (now + 60) M U B)
  /\ header "Expires-at" (_get_headers self now M U B) = Some (str_of_int (now + 60))
  /\ (forall E', string_to_sign M U E' B = string_to_sign M U E B -> E' = E)
  /\ (forall M', string_to_sign M' U E B = string_to_sign M U E B -> M' = M)
  /\ (forall U', string_to_sign M U' E B = string_to_sign M U E B -> U' = U)
  /\ (forall B', string_to_sign M U E B' = string_to_sign M U E B -> B' = B).
Proof.
  repeat split.
  - intros E' H. unfold string_to_sign in H.
    apply append_inj_r in H. now apply str_of_int_inj.
  - intros M' H. unfold string_to_sign in H.
    apply append_inj_l in H. simpl in H. injection H as H.
    now apply append_inj_r in H.
  - intros U' H. unfold string_to_sign in H.
    apply append_inj_l in H. simpl in H. injection H as H.
    apply append_inj_l in H. simpl in H. injection H as H.
    now apply append_inj_r in H.
  - intros B' H. unfold string_to_sign in H.
    apply append_inj_l in H. simpl in H. injection H as H.
    apply append_inj_l in H. simpl in H. injection H as H.
    apply append_inj_l in H. simpl in H. now injection H as H.
Qed.

End SignatureProps.

(* ================================================================== *)
(** * CallbackProcessor: api/callbacks.py *)

Module Callbacks.
Import Bytes Py Text.

(** [settings.SALTEDGE_SECRET_KEY]: what [os.getenv] returned. *)
Definition secret_setting := option string.

(** Truth value of the setting: unset and empty are both false. *)
Definition configured (key : secret_setting) : bool :=
  match key with
  | Some k => negb (String.eqb k "")
  | None => false
  end.

(** [hmac.compare_digest] on two [str]: both must be ASCII. *)
Definition compare_digest (a b : string) : result bool :=
  if is_ascii a && is_ascii b then Ok (String.eqb a b)
  else Raise (TypeError "comparing strings with non-ASCII characters is not supported").

(** The signature the verification expects for a decoded body. *)
Definition expected_signature (key expires_at body : string) : string :=
  let string_to_sign :=
    (expires_at ++ "|POST|/api/v1/callbacks/salt-edge|" ++ body)%string in
  Base64.b64encode
    (Hmac.hmac_sha256 (encode_utf8 key) (encode_utf8 string_to_sign)).

(** The [try] block of [verify_salt_edge_signature]. *)
Definition verify_try (key : string) (request_body : bytes)
    (signature expires_at : string) : result bool :=
  bind (decode_utf8 request_body) (fun body =>
  compare_digest (expected_signature key expires_at body) signature).

(** [verify_salt_edge_signature]. *)
Definition verify_salt_edge_signature (key : secret_setting)
    (request_body : bytes) (signature expires_at : string) : result bool :=
  match key with
  | Some k =>
      if negb (String.eqb k "") then
        try_except (verify_try k request_body signature expires_at)
                   (fun _ => Ok false)
      else Ok true
  | None => Ok true
  end.

(** The background processors an endpoint can schedule or await. *)
Inductive processor :=
| process_success_callback
| process_failure_callback
| process_notify_callback
| process_legacy_callback_task.

(** What a processor prints. *)
Inductive line :=
| ProcessingLegacy (stage : json)
| UnknownLegacyStage (stage : json)
| LegacyProcessingError (e : exn).

Inductive event :=
| Print (l : line)
| Await (p : processor) (callback_data : json).

(** ['error' in data], for the dict [data.get] was called on. *)
Definition error_in (data : json) : bool :=
  match data with
  | JObj kvs => has_key "error" kvs
  | _ => false
  end.

(** The [try] block of [process_legacy_callback]. *)
Definition legacy_try (callback_data : json) : result (list event) :=
  bind (get callback_data "data" (JObj [])) (fun data =>
  bind (get data "stage" (JStr "unknown")) (fun stage =>
  Ok (Print (ProcessingLegacy stage) ::
      if json_eqb stage (JStr "finish") then
        [Await process_success_callback callback_data]
      else if json_eqb stage (JStr "error") || error_in data then
        [Await process_failure_callback callback_data]
      else if json_eqb stage (JStr "notify") then
        [Await process_notify_callback callback_data]
      else [Print (UnknownLegacyStage stage)]))).

(** [process_legacy_callback]: what it prints and awaits, in order. *)
Definition process_legacy_callback (callback_data : json) : list event :=
  match legacy_try callback_data with
  | Ok evs => evs
  | Raise e => [Print (LegacyProcessingError e)]
  end.

(** The processors a run awaited. *)
Definition awaited (evs : list event) : list processor :=
  flat_map (fun ev => match ev with Await p _ => [p] | Print _ => [] end) evs.

Section Endpoints.

(** [json.loads] on a decoded body; [None] is [json.JSONDecodeError]. *)
Variable json_loads : string -> option json.

(** An endpoint's effect on [background_tasks]. *)
Definition task := (processor * json)%type.

(** [ais_success_callback]: the acknowledgement (or the exception FastAPI
    turns into an error response) and the tasks added.  The timestamp of
    the acknowledgement is left out. *)
Definition ais_success_try (key : secret_setting)
    (hdr_signature hdr_expires_at : option string) (body : bytes)
    : result string * list task :=
  let signature := match hdr_signature with Some s => s | None => "" end in
  let expires_at := match hdr_expires_at with Some s => s | None => "" end in
  let rejected :=
    if negb (String.eqb signature "") then
      bind (verify_salt_edge_signature key body signature expires_at)
           (fun ok => Ok (negb ok))
    else Ok false in
  match rejected with
  | Raise e => (Raise e, [])
  | Ok true => (Raise (HTTPException 401 "Invalid signature"), [])
  | Ok false =>
      match decode_utf8 body with
      | Raise e => (Raise e, [])
      | Ok text =>
          match json_loads text with
          | None => (Raise (HTTPException 400 "Invalid JSON payload"), [])
          | Some callback_data =>
              (Ok "success_received", [(process_success_callback, callback_data)])
          end
      end
  end.

Definition ais_success_callback (key : secret_setting)
    (hdr_signature hdr_expires_at : option string) (body : bytes)
    : result string * list task :=
  let '(r, tasks) := ais_success_try key hdr_signature hdr_expires_at body in
  match r with
  | Ok ack => (Ok ack, tasks)
  | Raise (HTTPException c d) => (Raise (HTTPException c d), tasks)
  | Raise _ =>
      (Raise (HTTPException 500 "Success callback processing failed"), tasks)
  end.

(** The status code of the response. *)
Definition status_code_of (r : result string) : Z :=
  match r with
  | Ok _ => 200
  | Raise (HTTPException c _) => c
  | Raise _ => 500
  end.

End Endpoints.

End Callbacks.

(** ** Properties of the callbacks *)

Module CallbackProps.
Import Bytes Py Text Callbacks.

Lemma json_eqb_str (a : json) (s : string) :
  json_eqb a (JStr s) = true <-> a = JStr s.
Proof.
  destruct a; simpl; split; intros H; try discriminate.
  - apply String.eqb_eq in H. now subst.
  - injection H as ->. apply String.eqb_refl.
Qed.

Lemma json_eqb_str_false (a : json) (s : string) :
  a <> JStr s -> json_eqb a (JStr s) = false.
Proof.
  intros H. destruct (json_eqb a (JStr s)) eqn:E; [|reflexivity].
  apply json_eqb_str in E. contradiction.
Qed.

(** C10. [verify_salt_edge_signature] always returns a boolean and never
    raises; without a configured secret key it returns true whatever the
    body, signature and expiry are; with one, a failure of any step of its
    [try] block (a body that is not UTF-8, a signature that
    [compare_digest] refuses) makes it return false. *)
Theorem verify_never_raises (key : secret_setting) (body : bytes)
    (signature expires_at : string) :
  (exists b, verify_salt_edge_signature key body signature expires_at = Ok b)
  /\ (configured key = false ->
      verify_salt_edge_signature key body signature expires_at = Ok true)
  /\ (forall k e, key = Some k -> k <> "" ->
      verify_try k body signature expires_at = Raise e ->
      verify_salt_edge_signature key body signature expires_at = Ok false)
  /\ (forall k, key = Some k -> k <> "" ->
      valid_utf8 (length body) body = false ->
      verify_salt_edge_signature key body signature expires_at = Ok false).
Proof.
  unfold verify_salt_edge_signature, configured.
  destruct key as [k|].
  - destruct (String.eqb_spec k "") as [->|Hk]; simpl.
    + repeat split; eauto; intros; congruence.
    + split; [|split; [discriminate|split]].
      * destruct (verify_try k body signature expires_at); simpl; eauto.
      * intros k' e [= <-] _ ->. reflexivity.
      * intros k' [= <-] _ Hbad.
        unfold verify_try, decode_utf8. rewrite Hbad. reflexivity.
  - repeat split; eauto; intros; congruence.
Qed.

(** A body that is not UTF-8 under a configured key. *)
Example verify_rejects_undecodable :
  verify_salt_edge_signature (Some "secret") [Byte.xff] "c2ln" "1700000000" = Ok false.
Proof. vm_compute. reflexivity. Qed.

(** *** The legacy dispatcher *)

(** C7, as stated, fails: a payload at stage finish that also carries an
    error key goes to the success processor, not to the failure one. *)
Lemma legacy_finish_with_error_key :
  let data := JObj [("stage", JStr "finish"); ("error", JStr "timeout")] in
  let callback_data := JObj [("data", data)] in
  error_in data = true
  /\ awaited (process_legacy_callback callback_data) = [process_success_callback]
  /\ ~ In process_failure_callback (awaited (process_legacy_callback callback_data)).
Proof.
  cbv zeta. split; [reflexivity|]. split; [reflexivity|].
  simpl. intros [H|[]]. discriminate.
Qed.

(** C7, amended: the routing is by priority.  Stage finish goes to the
    success processor; otherwise stage error or an error key goes to the
    failure processor; otherwise stage notify goes to the notify processor;
    otherwise the stage is printed as unknown and nothing is awaited. *)
Theorem legacy_routing_priority (callback_data data stage : json)
    (Hdata : get callback_data "data" (JObj []) = Ok data)
    (Hstage : get data "stage" (JStr "unknown") = Ok stage) :
  (stage = JStr "finish" ->
   awaited (process_legacy_callback callback_data) = [process_success_callback])
  /\ (stage <> JStr "finish" -> stage = JStr "error" \/ error_in data = true ->
      awaited (process_legacy_callback callback_data) = [process_failure_callback])
  /\ (stage <> JStr "finish" -> stage <> JStr "error" -> error_in data = false ->
      stage = JStr "notify" ->
      awaited (process_legacy_callback callback_data) = [process_notify_callback])
  /\ (stage <> JStr "finish" -> stage <> JStr "error" -> error_in data = false ->
      stage <> JStr "notify" ->
      process_legacy_callback callback_data =
        [Print (ProcessingLegacy stage); Print (UnknownLegacyStage stage)]).
Proof.
  unfold process_legacy_callback, legacy_try.
  rewrite Hdata. simpl. rewrite Hstage. simpl.
  repeat split.
  - intros ->. reflexivity.
  - intros Hf [->|He].
    + reflexivity.
    + rewrite (json_eqb_str_false _ _ Hf), He, orb_true_r. reflexivity.
  - intros Hf He Hk ->. rewrite Hk. reflexivity.
  - intros Hf He Hk Hn.
    rewrite (json_eqb_str_false _ _ Hf), (json_eqb_str_false _ _ He), Hk,
      (json_eqb_str_false _ _ Hn).
    reflexivity.
Qed.

Lemma legacy_routing_priority_witness :
  let data := JObj [("stage", JStr "notify"); ("error", JNull)] in
  let callback_data := JObj [("data", data); ("meta", JObj [("version", JStr "6")])] in
  awaited (process_legacy_callback callback_data) = [process_failure_callback].
Proof.
  cbv zeta.
  refine (proj1 (proj2 (legacy_routing_priority _ _ (JStr "notify") _ _)) _ _).
  - reflexivity.
  - reflexivity.
  - discriminate.
  - right. reflexivity.
Defined.

(** A payload that is not an object, or whose data is not one, is printed
    as an error and dropped. *)
Lemma legacy_malformed_dropped (callback_data : json) (e : exn) :
  legacy_try callback_data = Raise e ->
  process_legacy_callback callback_data = [Print (LegacyProcessingError e)].
Proof. unfold process_legacy_callback. now intros ->. Qed.

(** *** The signature gate of an endpoint *)

(** C6, as stated, fails: with a secret key configured, a request without
    a Signature header is acknowledged and its task scheduled. *)
Lemma unsigned_request_accepted :
  let json_loads := fun s : string =>
    if String.eqb s "{}" then Some (JObj []) else None in
  configured (Some "secret") = true
  /\ ais_success_callback json_loads (Some "secret") None None
       (list_byte_of_string "{}")
     = (Ok "success_received", [(process_success_callback, JObj [])]).
Proof. cbv zeta. split; vm_compute; reflexivity. Qed.

(** What the endpoint does once the signature check is passed or skipped. *)
Definition after_gate (json_loads : string -> option json) (body : bytes)
    : result string * list task :=
  match decode_utf8 body with
  | Raise _ => (Raise (HTTPException 500 "Success callback processing failed"), [])
  | Ok text =>
      match json_loads text with
      | None => (Raise (HTTPException 400 "Invalid JSON payload"), [])
      | Some callback_data =>
          (Ok "success_received", [(process_success_callback, callback_data)])
      end
  end.

(** C6, amended.  With a secret key configured, a non-empty Signature
    header that differs from the expected HMAC of the body (or a body
    that has no expected HMAC because it is not UTF-8) is rejected with
    401, whatever parsing the body would give, and nothing is scheduled.
    A request whose Signature header is absent or empty skips the
    verification, with or without a secret key: it is acknowledged as
    soon as its body parses. *)
Theorem signature_gate (json_loads : string -> option json)
    (key : secret_setting) (hdr_signature hdr_expires_at : option string)
    (body : bytes) :
  (forall k signature,
     key = Some k -> k <> "" ->
     hdr_signature = Some signature -> signature <> "" ->
     (forall text, decode_utf8 body = Ok text ->
        signature <> expected_signature k
                       (match hdr_expires_at with Some s => s | None => "" end) text) ->
     ais_success_callback json_loads key hdr_signature hdr_expires_at body
     = (Raise (HTTPException 401 "Invalid signature"), []))
  /\ (hdr_signature = None \/ hdr_signature = Some "" ->
      ais_success_callback json_loads key hdr_signature hdr_expires_at body
      = after_gate json_loads body).
Proof.
  split.
  - intros k signature -> Hk -> Hs Hne.
    unfold ais_success_callback, ais_success_try, verify_salt_edge_signature.
    destruct (String.eqb_spec signature "") as [|_]; [contradiction|].
    destruct (String.eqb_spec k "") as [|_]; [contradiction|].
    simpl. unfold verify_try.
    destruct (decode_utf8 body) as [text|e] eqn:Hdec; simpl; [|reflexivity].
    unfold compare_digest.
    destruct (is_ascii _ && is_ascii _); simpl; [|reflexivity].
    destruct (String.eqb_spec (expected_signature k
                (match hdr_expires_at with Some s => s | None => "" end) text) signature)
      as [Heq|_]; [|reflexivity].
    exfalso. now apply (Hne text eq_refl).
  - intros H.
    assert (Hsig : match hdr_signature with Some s => s | None => "" end = "")
      by (destruct H as [->| ->]; reflexivity).
    unfold ais_success_callback, ais_success_try, after_gate.
    rewrite Hsig. simpl.
    unfold decode_utf8. destruct (valid_utf8 _ _); [|reflexivity].
    destruct (json_loads _); reflexivity.
Qed.

(** A signed request, and the same signature on a tampered body. *)
Example tampered_body_rejected :
  let json_loads := fun s : string =>
    if String.eqb s "{}" then Some (JObj []) else Some (JObj [("data", JObj [])]) in
  let signature := "Lww6Gsd6y3AuOoiPMdh0QBs9ocBBipSkPkjUOT3oa3E=" in
  let quote := String (ascii_of_nat 34) "" in
  let body := ("{" ++ quote ++ "data" ++ quote ++ ":{}}")%string in
  let tampered := ("{" ++ quote ++ "data" ++ quote ++ ":{ }}")%string in
  ais_success_callback json_loads (Some "secret") (Some signature) (Some "1700000000")
    (list_byte_of_string body)
  = (Ok "success_received", [(process_success_callback, JObj [("data", JObj [])])])
  /\ ais_success_callback json_loads (Some "secret") (Some signature) (Some "1700000000")
       (list_byte_of_string tampered)
     = (Raise (HTTPException 401 "Invalid signature"), []).
Proof. cbv zeta. split; vm_compute; reflexivity. Qed.

End CallbackProps.

(* ================================================================== *)
(** * Library functions of the sync service: datetime.fromisoformat,
      datetime.strptime with the format %Y-%m-%d, str.replace, [in]

    The parsers follow Lib/datetime.py and Lib/_strptime.py of Python 3.7
    to 3.10, on ASCII text, with [int] reading decimal digits only. *)

Module DateTime.
Import Py.

(** A [datetime]; [tzinfo] is the UTC offset in microseconds of an aware
    value and [None] for a naive one. *)
Record datetime := {
  year : Z; month : Z; day : Z;
  hour : Z; minute : Z; second : Z; microsecond : Z;
  tzinfo : option Z
}.

Definition chars := list ascii.

Definition digit_of_char (c : ascii) : option Z :=
  let n := Z.of_nat (nat_of_ascii c) in
  if (48 <=? n) && (n <=? 57) then Some (n - 48) else None.

(** [int(s)] for a string of decimal digits. *)
Fixpoint int_acc (acc : Z) (cs : chars) : option Z :=
  match cs with
  | [] => Some acc
  | c :: cs' =>
      match digit_of_char c with
      | Some d => int_acc (acc * 10 + d) cs'
      | None => None
      end
  end.

Definition int_of (cs : chars) : option Z :=
  match cs with
  | [] => None
  | _ => int_acc 0 cs
  end.

Definition is_leap (y : Z) : bool :=
  (y mod 4 =? 0) && (negb (y mod 100 =? 0) || (y mod 400 =? 0)).

Definition days_in_month (y m : Z) : Z :=
  if m =? 2 then (if is_leap y then 29 else 28)
  else if (m =? 4) || (m =? 6) || (m =? 9) || (m =? 11) then 30
  else 31.

(** The checks of the [datetime] constructor. *)
Definition valid_date (y m d : Z) : bool :=
  (1 <=? y) && (y <=? 9999) && (1 <=? m) && (m <=? 12)
  && (1 <=? d) && (d <=? days_in_month y m).

Definition valid_time (h mi s us : Z) : bool :=
  (0 <=? h) && (h <=? 23) && (0 <=? mi) && (mi <=? 59)
  && (0 <=? s) && (s <=? 59) && (0 <=? us) && (us <=? 999999).

Definition make (y m d h mi s us : Z) (tz : option Z) : result datetime :=
  if valid_date y m d && valid_time h mi s us then
    Ok {| year := y; month := m; day := d; hour := h; minute := mi;
          second := s; microsecond := us; tzinfo := tz |}
  else Raise (ValueError "value is out of range").

Definition invalid (what : string) : exn := ValueError ("Invalid isoformat string: " ++ what).

(** [_parse_isoformat_date] on the first ten characters. *)
Definition parse_isoformat_date (d : chars) : result (Z * Z * Z) :=
  match d with
  | [y1; y2; y3; y4; s1; m1; m2; s2; d1; d2] =>
      match int_of [y1; y2; y3; y4], int_of [m1; m2], int_of [d1; d2] with
      | Some y, Some m, Some dd =>
          if Ascii.eqb s1 "-" && Ascii.eqb s2 "-" then Ok (y, m, dd)
          else Raise (invalid "date separator")
      | _, _, _ => Raise (invalid "date")
      end
  | _ => Raise (invalid "date")
  end.

(** The fraction after the seconds: three or six digits. *)
Definition parse_fraction (f : chars) : result Z :=
  match int_of f with
  | Some v =>
      if Nat.eqb (length f) 3 then Ok (v * 1000)
      else if Nat.eqb (length f) 6 then Ok v
      else Raise (invalid "microsecond component")
  | None => Raise (invalid "microsecond component")
  end.

(** [_parse_hh_mm_ss_ff]: HH[:MM[:SS[.fff[fff]]]]. *)
Definition parse_hh_mm_ss_ff (t : chars) : result (Z * Z * Z * Z) :=
  match t with
  | h1 :: h2 :: r0 =>
      match int_of [h1; h2] with
      | None => Raise (invalid "time")
      | Some hh =>
          match r0 with
          | [] => Ok (hh, 0, 0, 0)
          | c0 :: m1 :: m2 :: r1 =>
              if negb (Ascii.eqb c0 ":") then Raise (invalid "time separator")
              else
                match int_of [m1; m2] with
                | None => Raise (invalid "time")
                | Some mm =>
                    match r1 with
                    | [] => Ok (hh, mm, 0, 0)
                    | c1 :: s1 :: s2 :: r2 =>
                        if negb (Ascii.eqb c1 ":") then Raise (invalid "time separator")
                        else
                          match int_of [s1; s2] with
                          | None => Raise (invalid "time")
                          | Some ss =>
                              match r2 with
                              | [] => Ok (hh, mm, ss, 0)
                              | dot :: frac =>
                                  if Ascii.eqb dot "." then
                                    bind (parse_fraction frac) (fun us => Ok (hh, mm, ss, us))
                                  else Raise (invalid "microsecond component")
                              end
                          end
                    | c1 :: _ =>
                        if negb (Ascii.eqb c1 ":") then Raise (invalid "time separator")
                        else Raise (invalid "incomplete time component")
                    end
                end
          | c0 :: _ =>
              if negb (Ascii.eqb c0 ":") then Raise (invalid "time separator")
              else Raise (invalid "incomplete time component")
          end
      end
  | _ => Raise (invalid "incomplete time component")
  end.

(** [s.find(c)]: the text before the first [c] and the text after it. *)
Fixpoint split_at (c : ascii) (t : chars) : option (chars * chars) :=
  match t with
  | [] => None
  | x :: t' =>
      if Ascii.eqb x c then Some ([], t')
      else match split_at c t' with
           | Some (before, after) => Some (x :: before, after)
           | None => None
           end
  end.

Definition microseconds (h mi s us : Z) : Z :=
  ((h * 60 + mi) * 60 + s) * 1000000 + us.

(** The UTC offset after the sign. *)
Definition parse_offset (sign : Z) (tzstr : chars) : result Z :=
  if negb (Nat.eqb (length tzstr) 5 || Nat.eqb (length tzstr) 8
           || Nat.eqb (length tzstr) 15)
  then Raise (invalid "malformed time zone string")
  else
    bind (parse_hh_mm_ss_ff tzstr) (fun '(h, mi, s, us) =>
    let off := sign * microseconds h mi s us in
    if Z.abs off <? microseconds 24 0 0 0 then Ok off
    else Raise (ValueError "offset must be strictly between -24h and 24h")).

(** [_parse_isoformat_time]: the offset starts at the first minus sign,
    or else at the first plus sign. *)
Definition parse_isoformat_time (t : chars) : result (Z * Z * Z * Z * option Z) :=
  if Nat.ltb (length t) 2 then Raise (invalid "isoformat time too short")
  else
    let cut :=
      match split_at "-" t with
      | Some (timestr, tzstr) => Some (timestr, -1, tzstr)
      | None =>
          match split_at "+" t with
          | Some (timestr, tzstr) => Some (timestr, 1, tzstr)
          | None => None
          end
      end in
    match cut with
    | None =>
        bind (parse_hh_mm_ss_ff t) (fun '(h, mi, s, us) => Ok (h, mi, s, us, None))
    | Some (timestr, sign, tzstr) =>
        bind (parse_hh_mm_ss_ff timestr) (fun '(h, mi, s, us) =>
        bind (parse_offset sign tzstr) (fun off => Ok (h, mi, s, us, Some off)))
    end.

(** [datetime.fromisoformat]: ten characters of date, one separator of
    any kind, the time. *)
Definition fromisoformat (s : string) : result datetime :=
  let cs := list_ascii_of_string s in
  bind (parse_isoformat_date (firstn 10 cs)) (fun '(y, m, d) =>
  match skipn 11 cs with
  | [] => make y m d 0 0 0 0 None
  | t =>
      bind (parse_isoformat_time t) (fun '(h, mi, sec, us, tz) =>
      make y m d h mi sec us tz)
  end).

(** *** [datetime.strptime(s, "%Y-%m-%d")]

    The format compiles to the regular expression
    (\d\d\d\d)-(1[0-2]|0[1-9]|[1-9])-(3[01]|[12]\d|0[1-9]|[1-9]| [1-9]),
    matched at the start of the text; text left over is an error. *)

Definition in_chars (c : ascii) (lo hi : ascii) : bool :=
  (nat_of_ascii lo <=? nat_of_ascii c)%nat && (nat_of_ascii c <=? nat_of_ascii hi)%nat.

(** The month group followed by the dash. *)
Definition match_month (cs : chars) : option (Z * chars) :=
  match cs with
  | a :: b :: c :: rest =>
      if Ascii.eqb a "1" && in_chars b "0" "2" && Ascii.eqb c "-" then
        option_map (fun v => (v, rest)) (int_of [a; b])
      else if Ascii.eqb a "0" && in_chars b "1" "9" && Ascii.eqb c "-" then
        option_map (fun v => (v, rest)) (int_of [a; b])
      else if in_chars a "1" "9" && Ascii.eqb b "-" then
        option_map (fun v => (v, c :: rest)) (int_of [a])
      else None
  | [a; b] =>
      if in_chars a "1" "9" && Ascii.eqb b "-" then
        option_map (fun v => (v, [])) (int_of [a])
      else None
  | _ => None
  end.

(** The day group: the first alternative that matches. *)
Definition match_day (cs : chars) : option (Z * chars) :=
  match cs with
  | a :: b :: rest =>
      if Ascii.eqb a "3" && in_chars b "0" "1" then
        option_map (fun v => (v, rest)) (int_of [a; b])
      else if in_chars a "1" "2" && in_chars b "0" "9" then
        option_map (fun v => (v, rest)) (int_of [a; b])
      else if Ascii.eqb a "0" && in_chars b "1" "9" then
        option_map (fun v => (v, rest)) (int_of [a; b])
      else if in_chars a "1" "9" then
        option_map (fun v => (v, b :: rest)) (int_of [a])
      else if Ascii.eqb a " " && in_chars b "1" "9" then
        option_map (fun v => (v, rest)) (int_of [b])
      else None
  | [a] =>
      if in_chars a "1" "9" then option_map (fun v => (v, [])) (int_of [a])
      else None
  | [] => None
  end.

Definition no_match (s : string) : exn :=
  ValueError ("time data does not match format '%Y-%m-%d': " ++ s).

Definition strptime_ymd (s : string) : result datetime :=
  match list_ascii_of_string s with
  | y1 :: y2 :: y3 :: y4 :: dash :: rest =>
      match int_of [y1; y2; y3; y4] with
      | Some y =>
          if negb (Ascii.eqb dash "-") then Raise (no_match s)
          else
            match match_month rest with
            | Some (m, rest') =>
                match match_day rest' with
                | Some (d, []) => make y m d 0 0 0 0 None
                | Some (_, _ :: _) => Raise (ValueError "unconverted data remains")
                | None => Raise (no_match s)
                end
            | None => Raise (no_match s)
            end
      | None => Raise (no_match s)
      end
  | _ => Raise (no_match s)
  end.

(** *** Text operations of the sync service *)

(** [s.replace('Z', '+00:00')]: every Z is replaced. *)
Fixpoint replace_Z (s : string) : string :=
  match s with
  | EmptyString => EmptyString
  | String c rest =>
      if Ascii.eqb c "Z" then ("+00:00" ++ replace_Z rest)%string
      else String c (replace_Z rest)
  end.

(** ["T" in s]. *)
Fixpoint contains_T (s : string) : bool :=
  match s with
  | EmptyString => false
  | String c rest => Ascii.eqb c "T" || contains_T rest
  end.

(** *** Canonical texts *)

Definition char_of_digit (d : Z) : ascii := ascii_of_nat (48 + Z.to_nat d).

(** Two and four digits, zero-padded. *)
Definition fmt2 (n : Z) : chars := [char_of_digit (n / 10); char_of_digit (n mod 10)].
Definition fmt4 (n : Z) : chars :=
  [char_of_digit (n / 1000); char_of_digit (n / 100 mod 10);
   char_of_digit (n / 10 mod 10); char_of_digit (n mod 10)].

(** YYYY-MM-DD. *)
Definition date_text (y m d : Z) : string :=
  string_of_list_ascii (fmt4 y ++ "-"%char :: fmt2 m ++ "-"%char :: fmt2 d).

(** YYYY-MM-DDTHH:MM:SSZ. *)
Definition datetime_text (y m d h mi s : Z) : string :=
  string_of_list_ascii
    (fmt4 y ++ "-"%char :: fmt2 m ++ "-"%char :: fmt2 d ++ "T"%char ::
     fmt2 h ++ ":"%char :: fmt2 mi ++ ":"%char :: fmt2 s ++ ["Z"%char]).

Example date_text_sample : date_text 2024 1 15 = "2024-01-15".
Proof. reflexivity. Qed.

Example datetime_text_sample :
  datetime_text 2024 1 15 10 30 0 = "2024-01-15T10:30:00Z".
Proof. reflexivity. Qed.

Example fromisoformat_samples :
  fromisoformat "2024-01-15T10:30:00+00:00"
  = Ok {| year := 2024; month := 1; day := 15; hour := 10; minute := 30;
          second := 0; microsecond := 0; tzinfo := Some 0 |}
  /\ fromisoformat "2024-02-29 23:59:59.123-05:30"
  = Ok {| year := 2024; month := 2; day := 29; hour := 23; minute := 59;
          second := 59; microsecond := 123000; tzinfo := Some (-19800000000) |}
  /\ fromisoformat "2023-02-29T00:00:00" = Raise (ValueError "value is out of range")
  /\ fromisoformat "2024-01-15T10:30:00Z" = Raise (invalid "microsecond component").
Proof. repeat split; vm_compute; reflexivity. Qed.

Example strptime_samples :
  strptime_ymd "2024-01-15"
  = Ok {| year := 2024; month := 1; day := 15; hour := 0; minute := 0;
          second := 0; microsecond := 0; tzinfo := None |}
  /\ strptime_ymd "2024-1-5"
  = Ok {| year := 2024; month := 1; day := 5; hour := 0; minute := 0;
          second := 0; microsecond := 0; tzinfo := None |}
  /\ strptime_ymd "2024-01-15 10:30:00" = Raise (ValueError "unconverted data remains")
  /\ strptime_ymd "2024-13-01" = Raise (no_match "2024-13-01").
Proof. repeat split; vm_compute; reflexivity. Qed.

End DateTime.

(* ================================================================== *)
(** * Formatting values in f-strings: [str] and [repr] *)

Module PyFormat.
Import Py Text.

Fixpoint mentions (c : ascii) (s : string) : bool :=
  match s with
  | EmptyString => false
  | String x rest => Ascii.eqb x c || mentions c rest
  end.

Definition hex_digit (n : nat) : ascii :=
  match String.get n "0123456789abcdef" with Some c => c | None => "0"%char end.

(** The escapes of [repr] for ASCII text; bytes of other characters are
    kept as they are. *)
Fixpoint escape (q : ascii) (s : string) : string :=
  match s with
  | EmptyString => EmptyString
  | String c rest =>
      let n := nat_of_ascii c in
      let tail := escape q rest in
      if Ascii.eqb c "\" then String "\" (String "\" tail)
      else if Ascii.eqb c q then String "\" (String c tail)
      else if Nat.eqb n 9 then String "\" (String "t" tail)
      else if Nat.eqb n 10 then String "\" (String "n" tail)
      else if Nat.eqb n 13 then String "\" (String "r" tail)
      else if Nat.ltb n 32 || Nat.eqb n 127 then
        String "\" (String "x" (String (hex_digit (n / 16)) (String (hex_digit (n mod 16)) tail)))
      else String c tail
  end.

(** [repr(s)]: single quotes, unless the text has one and no double quote. *)
Definition repr_str (s : string) : string :=
  let dq := ascii_of_nat 34 in
  let q := if mentions "'" s && negb (mentions dq s) then dq else "'"%char in
  String q (escape q s ++ String q "").

Definition join (sep : string) (parts : list string) : string :=
  match parts with
  | [] => ""
  | p :: rest => fold_left (fun acc x => (acc ++ sep ++ x)%string) rest p
  end.

(** [repr(v)] of a loaded value. *)
Fixpoint repr (v : json) : string :=
  match v with
  | JNull => "None"
  | JBool true => "True"
  | JBool false => "False"
  | JNum n => str_of_int n
  | JStr s => repr_str s
  | JArr l => ("[" ++ join ", " (map repr l) ++ "]")%string
  | JObj kvs =>
      ("{" ++ join ", " (map (fun kv => match kv with
                                        | (k, x) => (repr_str k ++ ": " ++ repr x)%string
                                        end) kvs) ++ "}")%string
  end.

(** [str(v)], as an f-string formats it. *)
Definition str (v : json) : string :=
  match v with
  | JStr s => s
  | _ => repr v
  end.

(** [str(e)] of an exception. *)
Definition str_exn (e : exn) : string :=
  match e with
  | ValueError msg => msg
  | KeyError key => repr_str key
  | TypeError msg => msg
  | AttributeError msg => msg
  | UnicodeError msg => msg
  | JSONDecodeError => "Expecting value"
  | HTTPException c d => (str_of_int c ++ ": " ++ d)%string
  | ClientError msg => msg
  | DatabaseError msg => msg
  end.

Example repr_samples :
  repr (JObj [("id", JStr "conn_1"); ("n", JArr [JNum 1; JNull; JBool true])])
  = "{'id': 'conn_1', 'n': [1, None, True]}"
  /\ str (JStr "conn_1") = "conn_1"
  /\ str_exn (KeyError "id") = "'id'".
Proof. repeat split; vm_compute; reflexivity. Qed.

End PyFormat.

(* ================================================================== *)
(** * SyncEngine: services/sync_service.py, models/*.py

    The store is the SQLAlchemy session reduced to what the service uses:
    tables of rows in insertion order, [query(...).filter(...).first()],
    [add], attribute assignment on the row a query returned, [commit]
    and [rollback].  A row added to the session is visible to the
    queries that follow.  [commit] here takes every row; the constraints
    of the columns are checked by the commit of module [Store] below.
    The wall-clock columns [created_at] and [updated_at] are left out. *)

Module Sync.
Import Py Text PyFormat DateTime.

(** Modelled from the spec: models/customer.py is missing; the Customer
    row has a surrogate key, the remote customer id and the
    caller-chosen identifier. *)
Record Customer := {
  customer_id : Z;
  saltedge_customer_id : string;
  identifier : string
}.

(** models/connection.py *)
Record Connection := {
  connection_id : Z;
  saltedge_connection_id : json;
  connection_customer_id : Z;
  provider_code : json;
  provider_name : json;
  country_code : json;
  connection_status : json;
  categorization : json;
  show_consent_confirmation : json;
  custom_fields : json;
  last_success_at : option datetime;
  next_refresh_possible_at : option datetime
}.

(** models/account.py *)
Record Account := {
  account_id : Z;
  saltedge_account_id : json;
  account_connection_id : Z;
  name : json;
  nature : json;
  balance : json;
  account_currency_code : json;
  iban : json;
  swift : json;
  sort_code : json;
  account_number : json;
  account_extra : json
}.

(** models/transaction.py *)
Record Transaction := {
  transaction_id : Z;
  saltedge_transaction_id : json;
  transaction_account_id : Z;
  mode : json;
  transaction_status : json;
  amount : json;
  transaction_currency_code : json;
  description : json;
  category : json;
  category_code : json;
  duplicated : json;
  transaction_extra : json;
  made_on : option datetime
}.

Record Tables := {
  customers : list Customer;
  connections : list Connection;
  accounts : list Account;
  transactions : list Transaction
}.

(** A session: the rows as the session sees them, and the rows of the
    last commit. *)
Record Session := {
  live : Tables;
  saved : Tables
}.

Definition commit (s : Session) : Session := {| live := live s; saved := live s |}.
Definition rollback (s : Session) : Session := {| live := saved s; saved := saved s |}.

Definition with_connections (t : Tables) (rows : list Connection) : Tables :=
  {| customers := customers t; connections := rows;
     accounts := accounts t; transactions := transactions t |}.
Definition with_accounts (t : Tables) (rows : list Account) : Tables :=
  {| customers := customers t; connections := connections t;
     accounts := rows; transactions := transactions t |}.
Definition with_transactions (t : Tables) (rows : list Transaction) : Tables :=
  {| customers := customers t; connections := connections t;
     accounts := accounts t; transactions := rows |}.

(** The key an autoincrement column gives the next row. *)
Definition next_id (ids : list Z) : Z := 1 + fold_right Z.max 0 ids.

(** Assignment to the first row a filter selects. *)
Fixpoint update_first {A} (matches : A -> bool) (row : A) (rows : list A) : list A :=
  match rows with
  | [] => []
  | x :: rest =>
      if matches x then row :: rest else x :: update_first matches row rest
  end.

(** The pattern of the three [_sync_*] upserts: the first row of the
    filter, or else a new row added to the session; then the
    assignments, which may stop at an exception. *)
Definition upsert {A} (matches : A -> bool) (fresh : A)
    (assign : A -> A * result unit) (rows : list A) : list A * result unit :=
  match find matches rows with
  | Some obj =>
      let '(obj', r) := assign obj in (update_first matches obj' rows, r)
  | None =>
      let '(obj', r) := assign fresh in (rows ++ [obj'], r)
  end.

(** [data.get(key)] on a payload that was subscripted before. *)
Definition field (data : json) (key : string) : json :=
  match get data key JNull with
  | Ok v => v
  | Raise _ => JNull
  end.

Definition field_default (data : json) (key : string) (default : json) : json :=
  match get data key default with
  | Ok v => v
  | Raise _ => default
  end.

(** [datetime.fromisoformat(v.replace('Z', '+00:00'))]. *)
Definition parse_timestamp (v : json) : result datetime :=
  match v with
  | JStr s => fromisoformat (replace_Z s)
  | _ => Raise (AttributeError "object has no attribute 'replace'")
  end.

(** Lines 209 to 214 of [_sync_transaction] on the value of made_on. *)
Definition parse_made_on (v : json) : result datetime :=
  match v with
  | JStr s => if contains_T s then fromisoformat (replace_Z s) else strptime_ymd s
  | JArr l =>
      if existsb (json_eqb (JStr "T")) l
      then Raise (AttributeError "'list' object has no attribute 'replace'")
      else Raise (TypeError "strptime() argument 1 must be str, not list")
  | JObj kvs =>
      if has_key "T" kvs
      then Raise (AttributeError "'dict' object has no attribute 'replace'")
      else Raise (TypeError "strptime() argument 1 must be str, not dict")
  | _ => Raise (TypeError "argument is not iterable")
  end.

Definition new_connection (id : Z) (rid : json) (customer : Z) : Connection :=
  {| connection_id := id; saltedge_connection_id := rid;
     connection_customer_id := customer;
     provider_code := JNull; provider_name := JNull; country_code := JNull;
     connection_status := JNull; categorization := JNull;
     show_consent_confirmation := JNull; custom_fields := JNull;
     last_success_at := None; next_refresh_possible_at := None |}.

(** The assignments of [_sync_connection]. *)
Definition assign_connection (data : json) (c : Connection) : Connection * result unit :=
  let c1 :=
    {| connection_id := connection_id c;
       saltedge_connection_id := saltedge_connection_id c;
       connection_customer_id := connection_customer_id c;
       provider_code := field data "provider_code";
       provider_name := field data "provider_name";
       country_code := field data "country_code";
       connection_status := field data "status";
       categorization := field data "categorization";
       show_consent_confirmation :=
         field_default data "show_consent_confirmation" (JBool false);
       custom_fields := field data "custom_fields";
       last_success_at := last_success_at c;
       next_refresh_possible_at := next_refresh_possible_at c |} in
  let step1 :=
    if truthy (field data "last_success_at") then
      match parse_timestamp (field data "last_success_at") with
      | Ok dt => Ok (Some dt)
      | Raise e => Raise e
      end
    else Ok (last_success_at c) in
  match step1 with
  | Raise e => (c1, Raise e)
  | Ok ls =>
      let c2 :=
        {| connection_id := connection_id c1;
           saltedge_connection_id := saltedge_connection_id c1;
           connection_customer_id := connection_customer_id c1;
           provider_code := provider_code c1;
           provider_name := provider_name c1;
           country_code := country_code c1;
           connection_status := connection_status c1;
           categorization := categorization c1;
           show_consent_confirmation := show_consent_confirmation c1;
           custom_fields := custom_fields c1;
           last_success_at := ls;
           next_refresh_possible_at := next_refresh_possible_at c1 |} in
      if truthy (field data "next_refresh_possible_at") then
        match parse_timestamp (field data "next_refresh_possible_at") with
        | Ok dt =>
            ({| connection_id := connection_id c2;
                saltedge_connection_id := saltedge_connection_id c2;
                connection_customer_id := connection_customer_id c2;
                provider_code := provider_code c2;
                provider_name := provider_name c2;
                country_code := country_code c2;
                connection_status := connection_status c2;
                categorization := categorization c2;
                show_consent_confirmation := show_consent_confirmation c2;
                custom_fields := custom_fields c2;
                last_success_at := last_success_at c2;
                next_refresh_possible_at := Some dt |}, Ok tt)
        | Raise e => (c2, Raise e)
        end
      else (c2, Ok tt)
  end.

Definition new_account (id : Z) (rid : json) (connection : Z) : Account :=
  {| account_id := id; saltedge_account_id := rid;
     account_connection_id := connection;
     name := JNull; nature := JNull; balance := JNull;
     account_currency_code := JNull; iban := JNull; swift := JNull;
     sort_code := JNull; account_number := JNull; account_extra := JNull |}.

(** The assignments of [_sync_account]. *)
Definition assign_account (data : json) (a : Account) : Account * result unit :=
  ({| account_id := account_id a;
      saltedge_account_id := saltedge_account_id a;
      account_connection_id := account_connection_id a;
      name := field data "name";
      nature := field data "nature";
      balance := field data "balance";
      account_currency_code := field data "currency_code";
      iban := field data "iban";
      swift := field data "swift";
      sort_code := field data "sort_code";
      account_number := field data "account_number";
      account_extra := field data "extra" |}, Ok tt).

Definition new_transaction (id : Z) (rid : json) (account : Z) : Transaction :=
  {| transaction_id := id; saltedge_transaction_id := rid;
     transaction_account_id := account;
     mode := JNull; transaction_status := JNull; amount := JNull;
     transaction_currency_code := JNull; description := JNull;
     category := JNull; category_code := JNull; duplicated := JNull;
     transaction_extra := JNull; made_on := None |}.

(** The assignments of [_sync_transaction]. *)
Definition assign_transaction (data : json) (t : Transaction)
    : Transaction * result unit :=
  let with_made_on (m : option datetime) :=
    {| transaction_id := transaction_id t;
       saltedge_transaction_id := saltedge_transaction_id t;
       transaction_account_id := transaction_account_id t;
       mode := field data "mode";
       transaction_status := field data "status";
       amount := field data "amount";
       transaction_currency_code := field data "currency_code";
       description := field data "description";
       category := field data "category";
       category_code := field data "category_code";
       duplicated := field_default data "duplicated" (JBool false);
       transaction_extra := field data "extra";
       made_on := m |} in
  if truthy (field data "made_on") then
    match parse_made_on (field data "made_on") with
    | Ok dt => (with_made_on (Some dt), Ok tt)
    | Raise e => (with_made_on (made_on t), Raise e)
    end
  else (with_made_on (made_on t), Ok tt).

(** The calls the service makes on [SaltEdgeClient]. *)
Inductive request :=
| ListConnections (customer_id : string)
| ListAccounts (connection_id : json)
| ListTransactions (connection_id account_id : json).

(** What [sync_customer_data] returns. *)
Record SyncResult := {
  result_customer_id : Z;
  connections_synced : Z;
  accounts_synced : Z;
  transactions_synced : Z;
  errors : list string
}.

Definition add_error (r : SyncResult) (msg : string) : SyncResult :=
  {| result_customer_id := result_customer_id r;
     connections_synced := connections_synced r;
     accounts_synced := accounts_synced r;
     transactions_synced := transactions_synced r;
     errors := errors r ++ [msg] |}.

Definition add_connection (r : SyncResult) : SyncResult :=
  {| result_customer_id := result_customer_id r;
     connections_synced := connections_synced r + 1;
     accounts_synced := accounts_synced r;
     transactions_synced := transactions_synced r;
     errors := errors r |}.

Definition add_counts (r : SyncResult) (counts : Z * Z) : SyncResult :=
  {| result_customer_id := result_customer_id r;
     connections_synced := connections_synced r;
     accounts_synced := accounts_synced r + fst counts;
     transactions_synced := transactions_synced r + snd counts;
     errors := errors r |}.

Section Service.

(** The remote aggregator behind the client: a state of any kind and its
    answer to each call, a parsed response or an exception. *)
Variable R : Type.
Variable call : R -> request -> result json * R.

Record World := {
  db : Session;
  remote : R
}.

Definition set_tables (w : World) (t : Tables) : World :=
  {| db := {| live := t; saved := saved (db w) |}; remote := remote w |}.

(** A step of the service: it returns or raises, and leaves a world. *)
Definition M (A : Type) : Type := World -> result A * World.

Definition ret {A} (a : A) : M A := fun w => (Ok a, w).
Definition raise {A} (e : exn) : M A := fun w => (Raise e, w).
Definition lift {A} (r : result A) : M A := fun w => (r, w).

Definition bindM {A B} (m : M A) (k : A -> M B) : M B :=
  fun w =>
    match m w with
    | (Ok a, w') => k a w'
    | (Raise e, w') => (Raise e, w')
    end.

Notation "x <- m ;; k" := (bindM m (fun x => k))
  (at level 61, m at next level, right associativity).

(** A call of the client. *)
Definition fetch (q : request) : M json :=
  fun w =>
    let '(r, remote') := call (remote w) q in
    (r, {| db := db w; remote := remote' |}).

(** [for item in response.get("data", [])]: the items. *)
Definition data_items (response : json) : result (list json) :=
  bind (get response "data" (JArr [])) iterate.

(** [SyncService._sync_connection]. *)
Definition _sync_connection (connection_data : json) (customer : Customer) : M unit :=
  rid <- lift (getitem connection_data "id") ;;
  fun w =>
    let t := live (db w) in
    let '(rows, r) :=
      upsert (fun c => json_eqb (saltedge_connection_id c) rid)
             (new_connection (next_id (map connection_id (connections t)))
                             rid (customer_id customer))
             (assign_connection connection_data) (connections t) in
    (r, set_tables w (with_connections t rows)).

(** [SyncService._sync_account]. *)
Definition _sync_account (account_data : json) (connection : Connection) : M unit :=
  rid <- lift (getitem account_data "id") ;;
  fun w =>
    let t := live (db w) in
    let '(rows, r) :=
      upsert (fun a => json_eqb (saltedge_account_id a) rid)
             (new_account (next_id (map account_id (accounts t)))
                          rid (connection_id connection))
             (assign_account account_data) (accounts t) in
    (r, set_tables w (with_accounts t rows)).

(** [SyncService._sync_transaction]. *)
Definition _sync_transaction (transaction_data : json) (account : Account) : M unit :=
  rid <- lift (getitem transaction_data "id") ;;
  fun w =>
    let t := live (db w) in
    let '(rows, r) :=
      upsert (fun x => json_eqb (saltedge_transaction_id x) rid)
             (new_transaction (next_id (map transaction_id (transactions t)))
                              rid (account_id account))
             (assign_transaction transaction_data) (transactions t) in
    (r, set_tables w (with_transactions t rows)).

(** The loop of [_sync_transactions_for_account]. *)
Fixpoint transactions_loop (items : list json) (account : Account)
    (transactions_synced : Z) : M Z :=
  match items with
  | [] => ret transactions_synced
  | transaction_data :: rest =>
      _ <- _sync_transaction transaction_data account ;;
      transactions_loop rest account (transactions_synced + 1)
  end.

(** [SyncService._sync_transactions_for_account]. *)
Definition _sync_transactions_for_account (saltedge_connection_id saltedge_account_id : json)
    (connection : Connection) : M Z :=
  fun w =>
    match find (fun a => json_eqb (Sync.saltedge_account_id a) saltedge_account_id
                         && Z.eqb (account_connection_id a) (connection_id connection))
               (accounts (live (db w))) with
    | None =>
        (Raise (ValueError ("Account " ++ str saltedge_account_id
                            ++ " not found in database")), w)
    | Some account =>
        (transactions_data <-
           fetch (ListTransactions saltedge_connection_id saltedge_account_id) ;;
         items <- lift (data_items transactions_data) ;;
         transactions_loop items account 0) w
    end.

(** The loop of [_sync_accounts_for_connection]; [counts] are
    accounts_synced and transactions_synced. *)
Fixpoint accounts_loop (items : list json) (saltedge_connection_id : json)
    (connection : Connection) (counts : Z * Z) : M (Z * Z) :=
  match items with
  | [] => ret counts
  | account_data :: rest =>
      _ <- _sync_account account_data connection ;;
      aid <- lift (getitem account_data "id") ;;
      n <- _sync_transactions_for_account saltedge_connection_id aid connection ;;
      accounts_loop rest saltedge_connection_id connection
                    (fst counts + 1, snd counts + n)
  end.

(** [SyncService._sync_accounts_for_connection]. *)
Definition _sync_accounts_for_connection (saltedge_connection_id : json)
    (customer : Customer) : M (Z * Z) :=
  fun w =>
    match find (fun c => json_eqb (Sync.saltedge_connection_id c) saltedge_connection_id)
               (connections (live (db w))) with
    | None =>
        (Raise (ValueError ("Connection " ++ str saltedge_connection_id
                            ++ " not found in database")), w)
    | Some connection =>
        (accounts_data <- fetch (ListAccounts saltedge_connection_id) ;;
         items <- lift (data_items accounts_data) ;;
         accounts_loop items saltedge_connection_id connection (0, 0)) w
    end.

(** The loop over the connections (lines 42 to 55): the result dict is
    updated in place, so what was counted stays when an exception ends
    the loop. *)
Fixpoint connections_loop (items : list json) (customer : Customer)
    (result : SyncResult) (w : World) : option exn * SyncResult * World :=
  match items with
  | [] => (None, result, w)
  | connection_data :: rest =>
      match _sync_connection connection_data customer w with
      | (Raise e, w1) => (Some e, result, w1)
      | (Ok _, w1) =>
          let result1 := add_connection result in
          match (rid <- lift (getitem connection_data "id") ;;
                 _sync_accounts_for_connection rid customer) w1 with
          | (Ok counts, w2) =>
              connections_loop rest customer (add_counts result1 counts) w2
          | (Raise e, w2) =>
              match getitem connection_data "id" with
              | Ok rid =>
                  connections_loop rest customer
                    (add_error result1
                       ("Error syncing accounts for connection " ++ str rid
                        ++ ": " ++ str_exn e)) w2
              | Raise e' => (Some e', result1, w2)
              end
          end
      end
  end.

(** Lines 40 to 58: the [try] around the connections. *)
Definition sync_connections (customer : Customer) (result : SyncResult)
    : World -> SyncResult * World :=
  fun w =>
    let failed (r : SyncResult) (e : exn) :=
      add_error r ("Error syncing connections: " ++ str_exn e) in
    match fetch (ListConnections (saltedge_customer_id customer)) w with
    | (Raise e, w1) => (failed result e, w1)
    | (Ok connections_data, w1) =>
        match data_items connections_data with
        | Raise e => (failed result e, w1)
        | Ok items =>
            match connections_loop items customer result w1 with
            | (None, result', w2) => (result', w2)
            | (Some e, result', w2) => (failed result' e, w2)
            end
        end
    end.

(** The outer [try] block of [sync_customer_data]. *)
Definition sync_try (customer_identifier : string) : M SyncResult :=
  fun w =>
    match find (fun c => String.eqb (identifier c) customer_identifier)
               (customers (live (db w))) with
    | None =>
        (Raise (ValueError ("Customer with identifier " ++ customer_identifier
                            ++ " not found")), w)
    | Some customer =>
        let result := {| result_customer_id := customer_id customer;
                         connections_synced := 0; accounts_synced := 0;
                         transactions_synced := 0; errors := [] |} in
        let '(result', w1) := sync_connections customer result w in
        (Ok result', {| db := commit (db w1); remote := remote w1 |})
    end.

(** [SyncService.sync_customer_data], on a session given by the caller. *)
Definition sync_customer_data (customer_identifier : string) : M SyncResult :=
  fun w =>
    match sync_try customer_identifier w with
    | (Ok result, w') => (Ok result, w')
    | (Raise e, w') => (Raise e, {| db := rollback (db w'); remote := remote w' |})
    end.

End Service.

Arguments db {R} w.
Arguments remote {R} w.
Arguments set_tables {R} w t.
Arguments ret {R A} a.
Arguments raise {R A} e.
Arguments lift {R A} r.
Arguments bindM {R A B} m k.
Arguments fetch {R} call q.
Arguments _sync_connection {R} connection_data customer.
Arguments _sync_account {R} account_data connection.
Arguments _sync_transaction {R} transaction_data account.
Arguments transactions_loop {R} items account transactions_synced.
Arguments _sync_transactions_for_account {R} call saltedge_connection_id saltedge_account_id connection.
Arguments accounts_loop {R} call items saltedge_connection_id connection counts.
Arguments _sync_accounts_for_connection {R} call saltedge_connection_id customer.
Arguments connections_loop {R} call items customer result w.
Arguments sync_connections {R} call customer result.
Arguments sync_try {R} call customer_identifier.
Arguments sync_customer_data {R} call customer_identifier.

End Sync.

(* ================================================================== *)
(** * The database under the session: models/*.py, config.py

    [Sync.commit] is the commit of a store that takes every row.  The
    tables declare columns nullable=False and unique=True, and the
    database refuses a flush that breaks one: [db.commit()] raises, and
    [sync_customer_data] rolls back and raises again (lines 60 to 65).
    Here the rows are checked when the session is committed.  Foreign
    keys, which SQLite does not enforce unless asked to, and the types
    of the values are not checked. *)

Module Store.
Import Py Text PyFormat Sync.

Definition is_null (v : json) : bool :=
  match v with
  | JNull => true
  | _ => false
  end.

(** The first nullable=False column of a row that holds no value. *)
Definition connection_null (c : Connection) : option string :=
  if is_null (saltedge_connection_id c) then Some "connections.saltedge_connection_id"
  else if is_null (provider_code c) then Some "connections.provider_code"
  else None.

Definition account_null (a : Account) : option string :=
  if is_null (saltedge_account_id a) then Some "accounts.saltedge_account_id"
  else if is_null (name a) then Some "accounts.name"
  else None.

Definition transaction_null (t : Transaction) : option string :=
  if is_null (saltedge_transaction_id t) then Some "transactions.saltedge_transaction_id"
  else match made_on t with
       | None => Some "transactions.made_on"
       | Some _ =>
           if is_null (amount t) then Some "transactions.amount"
           else if is_null (transaction_currency_code t)
                then Some "transactions.currency_code"
                else None
       end.

Fixpoint first_null {A} (column : A -> option string) (rows : list A) : option string :=
  match rows with
  | [] => None
  | row :: rest =>
      match column row with
      | Some c => Some c
      | None => first_null column rest
      end
  end.

(** unique=True: no two rows hold the same remote id. *)
Fixpoint unique (ids : list json) : bool :=
  match ids with
  | [] => true
  | id :: rest => negb (existsb (json_eqb id) rest) && unique rest
  end.

(** The constraint the rows break, as SQLite words it, if any. *)
Definition violated (t : Tables) : option string :=
  match first_null connection_null (connections t),
        first_null account_null (accounts t),
        first_null transaction_null (transactions t) with
  | Some c, _, _ | None, Some c, _ | None, None, Some c =>
      Some ("NOT NULL constraint failed: " ++ c)%string
  | None, None, None =>
      if negb (unique (map saltedge_connection_id (connections t)))
      then Some "UNIQUE constraint failed: connections.saltedge_connection_id"
      else if negb (unique (map saltedge_account_id (accounts t)))
      then Some "UNIQUE constraint failed: accounts.saltedge_account_id"
      else if negb (unique (map saltedge_transaction_id (transactions t)))
      then Some "UNIQUE constraint failed: transactions.saltedge_transaction_id"
      else None
  end.

(** [db.commit()]: the flush is refused with the message of the
    database (the driver wraps it with the statement), or the rows are
    stored. *)
Definition commit (s : Session) : result Session :=
  match violated (live s) with
  | None => Ok (Sync.commit s)
  | Some c => Raise (DatabaseError c)
  end.

(** ** Filters on a String column

    [Column == value] as SQLite, the database of the default
    DATABASE_URL, evaluates it: the column holds text, and a bound
    integer or boolean is compared as its decimal text. *)

Definition column_text (v : json) : option string :=
  match v with
  | JStr s => Some s
  | JNum n => Some (str_of_int n)
  | JBool b => Some (if b then "1" else "0")
  | _ => None
  end.

(** The values the driver binds: no list, no dict, no integer outside
    64 bits. *)
Definition bindable (v : json) : bool :=
  match v with
  | JArr _ | JObj _ => false
  | JNum n => (- 2 ^ 63 <=? n) && (n <? 2 ^ 63)
  | _ => true
  end.

Definition same_text (stored value : json) : bool :=
  match column_text stored, column_text value with
  | Some a, Some b => String.eqb a b
  | _, _ => false
  end.

(** [db.query(T).filter(T.column == value).first()]. *)
Definition first_where {A} (column : A -> json) (value : json) (rows : list A)
    : result (option A) :=
  if bindable value
  then Ok (find (fun row => same_text (column row) value) rows)
  else Raise (DatabaseError "Error binding parameter").

Section Service.

Variable R : Type.
Variable call : R -> request -> result json * R.

(** The outer [try] block of [sync_customer_data], with the commit of
    the database. *)
Definition sync_try (customer_identifier : string) : M R SyncResult :=
  fun w =>
    match find (fun c => String.eqb (identifier c) customer_identifier)
               (customers (live (db w))) with
    | None =>
        (Raise (ValueError ("Customer with identifier " ++ customer_identifier
                            ++ " not found")), w)
    | Some customer =>
        let result := {| result_customer_id := customer_id customer;
                         connections_synced := 0; accounts_synced := 0;
                         transactions_synced := 0; errors := [] |} in
        let '(result', w1) := sync_connections call customer result w in
        match commit (db w1) with
        | Ok s => (Ok result', {| db := s; remote := remote w1 |})
        | Raise e => (Raise e, w1)
        end
    end.

(** [SyncService.sync_customer_data]: what the [try] block raises is
    raised again after [db.rollback()]. *)
Definition sync_customer_data (customer_identifier : string) : M R SyncResult :=
  fun w =>
    match sync_try customer_identifier w with
    | (Ok result, w') => (Ok result, w')
    | (Raise e, w') => (Raise e, {| db := rollback (db w'); remote := remote w' |})
    end.

End Service.

Arguments sync_try {R} call customer_identifier.
Arguments sync_customer_data {R} call customer_identifier.

End Store.

(** ** A scenario of the design document *)

Module Scenario.
Import Py Sync.

Definition obj_id (id : string) (more : list (string * json)) : json :=
  JObj (("id", JStr id) :: more).

Definition data (items : list json) : json := JObj [("data", JArr items)].

Definition transactions_of (account : string) : list json :=
  map (fun n =>
         obj_id (account ++ "_tx_" ++ n)
                [("amount", JNum 1050); ("currency_code", JStr "GBP");
                 ("made_on", JStr "2024-01-15"); ("status", JStr "posted")])
      ["1"; "2"; "3"].

(** One connection conn_1 with two accounts of three transactions each. *)
Definition aggregator (_ : unit) (q : request) : result json * unit :=
  (match q with
   | ListConnections "cust_1" =>
       Ok (data [obj_id "conn_1" [("provider_code", JStr "fake_bank");
                                  ("last_success_at", JStr "2024-01-15T10:30:00Z")]])
   | ListAccounts (JStr "conn_1") =>
       Ok (data [obj_id "acc_1" [("name", JStr "Current")];
                 obj_id "acc_2" [("name", JStr "Savings")]])
   | ListTransactions (JStr "conn_1") (JStr a) => Ok (data (transactions_of a))
   | _ => Raise (ClientError "404 Client Error: Not Found")
   end, tt).

Definition alice : Customer :=
  {| customer_id := 1; saltedge_customer_id := "cust_1"; identifier := "alice" |}.

Definition empty_store : Session :=
  let t := {| customers := [alice]; connections := []; accounts := [];
              transactions := [] |} in
  {| live := t; saved := t |}.

Definition start : World unit := {| db := empty_store; remote := tt |}.

(** After one sync the store holds 1 connection, 2 accounts and 6
    transactions, and the run reports 6 transactions. *)
Example alice_first_sync :
  let '(r, w) := sync_customer_data aggregator "alice" start in
  r = Ok {| result_customer_id := 1; connections_synced := 1;
            accounts_synced := 2; transactions_synced := 6; errors := [] |}
  /\ length (connections (saved (db w))) = 1%nat
  /\ length (accounts (saved (db w))) = 2%nat
  /\ length (transactions (saved (db w))) = 6%nat.
Proof. vm_compute. repeat split. Qed.

(** An unknown customer: the one fatal condition. *)
Example unknown_customer :
  fst (sync_customer_data aggregator "bob" start)
  = Raise (ValueError "Customer with identifier bob not found").
Proof. vm_compute. reflexivity. Qed.

End Scenario.

(** ** Equality of loaded values *)

Module JsonFacts.
Import Py.

Section Induction.

Variable P : json -> Prop.
Hypothesis HNull : P JNull.
Hypothesis HBool : forall b, P (JBool b).
Hypothesis HNum : forall n, P (JNum n).
Hypothesis HStr : forall s, P (JStr s).
Hypothesis HArr : forall l, Forall P l -> P (JArr l).
Hypothesis HObj : forall kvs, Forall (fun kv => P (snd kv)) kvs -> P (JObj kvs).

(** Induction on a value with the hypothesis on every item. *)
Fixpoint json_nested_ind (j : json) : P j :=
  match j with
  | JNull => HNull
  | JBool b => HBool b
  | JNum n => HNum n
  | JStr s => HStr s
  | JArr l =>
      HArr l ((fix items (l : list json) : Forall P l :=
                 match l with
                 | [] => Forall_nil _
                 | x :: l' => Forall_cons x (json_nested_ind x) (items l')
                 end) l)
  | JObj kvs =>
      HObj kvs ((fix entries (kvs : list (string * json))
                   : Forall (fun kv => P (snd kv)) kvs :=
                   match kvs with
                   | [] => Forall_nil _
                   | kv :: kvs' =>
                       Forall_cons kv (json_nested_ind (snd kv)) (entries kvs')
                   end) kvs)
  end.

End Induction.

Lemma json_eqb_eq (a b : json) : json_eqb a b = true <-> a = b.
Proof.
  revert b. induction a as [| x | x | x | l IH | kvs IH] using json_nested_ind;
    intros b.
  - destruct b; simpl; split; congruence.
  - destruct b; simpl; split; try congruence.
    + intros H. apply Bool.eqb_prop in H. now subst.
    + intros [= ->]. apply Bool.eqb_reflx.
  - destruct b; simpl; split; try congruence.
    + intros H. apply Z.eqb_eq in H. now subst.
    + intros [= ->]. apply Z.eqb_refl.
  - destruct b; simpl; split; try congruence.
    + intros H. apply String.eqb_eq in H. now subst.
    + intros [= ->]. apply String.eqb_refl.
  - destruct b as [| | | | l' |]; simpl; try (split; congruence).
    revert l'. induction IH as [|x l Hx _ IHl]; intros [|y l']; simpl;
      try (split; congruence).
    rewrite andb_true_iff, Hx. specialize (IHl l'). split.
    + intros [-> H]. apply IHl in H. congruence.
    + intros [= -> ->]. split; [reflexivity|]. now apply IHl.
  - destruct b as [| | | | | kvs']; simpl; try (split; congruence).
    revert kvs'. induction IH as [|[k x] kvs Hx _ IHl]; intros [|[k' y] kvs']; simpl;
      try (split; congruence).
    simpl in Hx.
    rewrite !andb_true_iff, Hx, String.eqb_eq. specialize (IHl kvs'). split.
    + intros [[-> ->] H]. apply IHl in H. congruence.
    + intros [= -> -> ->]. repeat split. now apply IHl.
Qed.

Lemma json_eqb_refl (a : json) : json_eqb a a = true.
Proof. now apply json_eqb_eq. Qed.

End JsonFacts.

(** ** Tables seen through their keys *)

Module TableFacts.
Import Py JsonFacts Sync.

(** The key of a row: surrogate key, remote id, parent key. *)
Definition K : Type := (Z * json * Z)%type.
Definition kuid (k : K) : Z := fst (fst k).
Definition krid (k : K) : json := snd (fst k).
Definition kpid (k : K) : Z := snd k.

(** A row with the remote id [r] is among the keys. *)
Definition has (r : json) (ks : list K) : bool :=
  existsb (fun k => json_eqb (krid k) r) ks.

(** The rows of [e] were each appended when its remote id was absent. *)
Fixpoint Fresh (ks e : list K) : Prop :=
  match e with
  | [] => True
  | x :: e' => has (krid x) ks = false /\ Fresh (ks ++ [x]) e'
  end.

Definition Prefix (ks us : list K) : Prop := exists e, us = ks ++ e.
Definition Ext (ks us : list K) : Prop := exists e, us = ks ++ e /\ Fresh ks e.

Lemma has_app (r : json) (a b : list K) : has r (a ++ b) = has r a || has r b.
Proof. apply existsb_app. Qed.

Lemma find_app {A} (p : A -> bool) (a b : list A) :
  find p (a ++ b) = match find p a with Some x => Some x | None => find p b end.
Proof.
  induction a as [|x a IH]; simpl; [reflexivity|].
  destruct (p x); [reflexivity | exact IH].
Qed.

Lemma Fresh_app (ks e1 e2 : list K) :
  Fresh ks (e1 ++ e2) <-> Fresh ks e1 /\ Fresh (ks ++ e1) e2.
Proof.
  revert ks. induction e1 as [|x e1 IH]; intros ks; simpl.
  - rewrite app_nil_r. tauto.
  - rewrite IH, <- app_assoc. simpl. tauto.
Qed.

Lemma Fresh_absent (ks e : list K) (r : json) :
  Fresh ks e -> has r ks = true -> has r e = false.
Proof.
  revert ks. induction e as [|x e IH]; intros ks Hf Hr; simpl; [reflexivity|].
  destruct Hf as [Hx Hf].
  destruct (json_eqb (krid x) r) eqn:E.
  - apply json_eqb_eq in E. rewrite E in Hx. congruence.
  - simpl. apply (IH (ks ++ [x])); [assumption|].
    rewrite has_app, Hr. reflexivity.
Qed.

Lemma Prefix_refl (ks : list K) : Prefix ks ks.
Proof. exists []. now rewrite app_nil_r. Qed.

Lemma Prefix_trans (a b c : list K) : Prefix a b -> Prefix b c -> Prefix a c.
Proof. intros [e1 ->] [e2 ->]. exists (e1 ++ e2). now rewrite app_assoc. Qed.

Lemma Ext_refl (ks : list K) : Ext ks ks.
Proof. exists []. split; [now rewrite app_nil_r | exact I]. Qed.

Lemma Ext_Prefix (ks us : list K) : Ext ks us -> Prefix ks us.
Proof. intros [e [-> _]]. now exists e. Qed.

Lemma Ext_trans (a b c : list K) : Ext a b -> Ext b c -> Ext a c.
Proof.
  intros [e1 [-> H1]] [e2 [-> H2]]. exists (e1 ++ e2). split.
  - now rewrite app_assoc.
  - apply Fresh_app. now split.
Qed.

(** A state between two related ones is related to the later one. *)
Lemma Ext_mid (ks ms us : list K) :
  Ext ks us -> Prefix ks ms -> Prefix ms us -> Ext ms us.
Proof.
  intros [e [-> Hf]] [e1 ->] [e2 He]. exists e2. split.
  - rewrite He. reflexivity.
  - rewrite <- app_assoc in He. apply app_inv_head in He. subst e.
    now apply Fresh_app in Hf.
Qed.

Lemma Ext_snoc (ks : list K) (k : K) : has (krid k) ks = false -> Ext ks (ks ++ [k]).
Proof. intros H. exists [k]. split; [reflexivity|]. simpl. now split. Qed.

(** The first row with a remote id is the same in an extension. *)
Lemma find_prefix (p : K -> bool) (ks us : list K) :
  Prefix ks us -> find p ks <> None -> find p us = find p ks.
Proof.
  intros [e ->] H. rewrite find_app. now destruct (find p ks).
Qed.

Lemma has_find (r : json) (ks : list K) :
  has r ks = true -> find (fun k => json_eqb (krid k) r) ks <> None.
Proof.
  unfold has. induction ks as [|k ks IH]; simpl; [discriminate|].
  destruct (json_eqb (krid k) r); [discriminate | exact IH].
Qed.

Lemma find_has_false (r : json) (ks : list K) :
  find (fun k => json_eqb (krid k) r) ks = None -> has r ks = false.
Proof.
  unfold has. induction ks as [|k ks IH]; simpl; [reflexivity|].
  destruct (json_eqb (krid k) r); [discriminate | exact IH].
Qed.

(** A lookup by remote id and parent gives the same row in an extension,
    once the remote id is present. *)
Lemma find_bound_ext (r : json) (c : Z) (ks us : list K) :
  Ext ks us -> has r ks = true ->
  find (fun k => json_eqb (krid k) r && Z.eqb (kpid k) c) us
  = find (fun k => json_eqb (krid k) r && Z.eqb (kpid k) c) ks.
Proof.
  intros [e [-> Hf]] Hr. rewrite find_app.
  destruct (find _ ks); [reflexivity|].
  pose proof (Fresh_absent _ _ _ Hf Hr) as Habs.
  clear Hf. induction e as [|x e IH]; simpl; [reflexivity|].
  simpl in Habs. apply orb_false_iff in Habs as [Hx He].
  rewrite Hx. simpl. now apply IH.
Qed.

(** What an upsert does to the keys, and what its replay does. *)
Definition upserted (r : json) (ks : list K) (k : K) : list K :=
  if has r ks then ks else ks ++ [k].

Lemma upserted_ext (r : json) (ks : list K) (k : K) :
  krid k = r -> Ext ks (upserted r ks k).
Proof.
  intros Hk. unfold upserted. destruct (has r ks) eqn:E.
  - apply Ext_refl.
  - apply Ext_snoc. now rewrite Hk.
Qed.

Lemma upserted_present (r : json) (ks : list K) (k : K) :
  krid k = r -> has r (upserted r ks k) = true.
Proof.
  intros Hk. unfold upserted. destruct (has r ks) eqn:E; [exact E|].
  rewrite has_app. simpl. rewrite Hk, json_eqb_refl. now rewrite orb_true_r.
Qed.

Lemma has_prefix (r : json) (ks us : list K) :
  Prefix ks us -> has r ks = true -> has r us = true.
Proof. intros [e ->] H. now rewrite has_app, H. Qed.

Lemma upserted_replay (r : json) (ks us : list K) (k ku : K) :
  krid k = r -> Prefix (upserted r ks k) us -> upserted r us ku = us.
Proof.
  intros Hk Hp. unfold upserted at 1.
  now rewrite (has_prefix r _ _ Hp (upserted_present r ks k Hk)).
Qed.

Section Rows.

Context {A : Type} (key : A -> K).

Lemma find_map (p : K -> bool) (rows : list A) :
  find p (map key rows) = option_map key (find (fun x => p (key x)) rows).
Proof.
  induction rows as [|x rows IH]; simpl; [reflexivity|].
  destruct (p (key x)); [reflexivity | exact IH].
Qed.

Lemma update_first_keys (p : K -> bool) (row x : A) (rows : list A) :
  find (fun y => p (key y)) rows = Some x -> key row = key x ->
  map key (update_first (fun y => p (key y)) row rows) = map key rows.
Proof.
  intros Hfind Hkey. induction rows as [|y rows IH]; simpl in *; [discriminate|].
  destruct (p (key y)).
  - injection Hfind as ->. simpl. now rewrite Hkey.
  - simpl. f_equal. now apply IH.
Qed.

Variable r : json.
Variable fresh : A.
Variable assign : A -> A * result unit.
Hypothesis assign_key : forall x, key (fst (assign x)) = key x.

Let matches := fun x : A => json_eqb (krid (key x)) r.

(** An upsert leaves the keys alone when the remote id is present and
    appends the key of the new row otherwise. *)
Lemma upsert_keys (rows : list A) :
  map key (fst (upsert matches fresh assign rows))
  = upserted r (map key rows) (key fresh).
Proof.
  unfold upsert, matches, upserted.
  pose proof (find_map (fun k => json_eqb (krid k) r) rows) as Hm.
  destruct (find (fun x => json_eqb (krid (key x)) r) rows) as [x|] eqn:Hfind;
    simpl in Hm.
  - assert (Hhas : has r (map key rows) = true).
    { unfold has. apply existsb_exists. exists (key x).
      apply find_some in Hfind as [Hin Hp]. split; [now apply in_map | exact Hp]. }
    rewrite Hhas. pose proof (assign_key x) as Hk.
    destruct (assign x) as [x' o]. simpl in *.
    now apply (update_first_keys (fun k => json_eqb (krid k) r) x' x).
  - apply find_has_false in Hm. rewrite Hm.
    pose proof (assign_key fresh) as Hk. destruct (assign fresh) as [x' o].
    simpl in *. rewrite map_app. simpl. now rewrite Hk.
Qed.

Hypothesis assign_outcome : forall x y, snd (assign x) = snd (assign y).

Lemma upsert_outcome (rows : list A) :
  snd (upsert matches fresh assign rows) = snd (assign fresh).
Proof.
  unfold upsert. destruct (find matches rows) as [x|].
  - rewrite <- (assign_outcome x fresh). now destruct (assign x).
  - now destruct (assign fresh).
Qed.

End Rows.

End TableFacts.

(** ** Two runs of the service over the same remote data *)

Module SyncFacts.
Import Py JsonFacts Sync TableFacts.

Definition ckey (c : Connection) : K :=
  (connection_id c, saltedge_connection_id c, connection_customer_id c).
Definition akey (a : Account) : K :=
  (account_id a, saltedge_account_id a, account_connection_id a).
Definition tkey (t : Transaction) : K :=
  (transaction_id t, saltedge_transaction_id t, transaction_account_id t).

Definition ckeys (t : Tables) : list K := map ckey (connections t).
Definition akeys (t : Tables) : list K := map akey (accounts t).
Definition tkeys (t : Tables) : list K := map tkey (transactions t).

(** [u] holds the rows of [t] and rows appended after them. *)
Definition PrefT (t u : Tables) : Prop :=
  Prefix (ckeys t) (ckeys u) /\ Prefix (akeys t) (akeys u)
  /\ Prefix (tkeys t) (tkeys u).

(** The same, each appended row being the first of its remote id. *)
Definition ExtT (t u : Tables) : Prop :=
  customers t = customers u /\ Ext (ckeys t) (ckeys u)
  /\ Ext (akeys t) (akeys u) /\ Ext (tkeys t) (tkeys u).

(** The same rows, up to the values of the descriptive columns. *)
Definition SameT (t u : Tables) : Prop :=
  customers t = customers u /\ ckeys t = ckeys u
  /\ akeys t = akeys u /\ tkeys t = tkeys u.

Lemma ExtT_refl (t : Tables) : ExtT t t.
Proof. repeat split; apply Ext_refl. Qed.

Lemma ExtT_trans (a b c : Tables) : ExtT a b -> ExtT b c -> ExtT a c.
Proof.
  intros (H0 & H1 & H2 & H3) (G0 & G1 & G2 & G3).
  repeat split; [congruence | eapply Ext_trans; eauto ..].
Qed.

Lemma ExtT_PrefT (t u : Tables) : ExtT t u -> PrefT t u.
Proof. intros (_ & H1 & H2 & H3). repeat split; now apply Ext_Prefix. Qed.

Lemma PrefT_refl (t : Tables) : PrefT t t.
Proof. repeat split; apply Prefix_refl. Qed.

Lemma PrefT_trans (a b c : Tables) : PrefT a b -> PrefT b c -> PrefT a c.
Proof.
  intros (H1 & H2 & H3) (G1 & G2 & G3).
  repeat split; eapply Prefix_trans; eauto.
Qed.

Lemma PrefT_same (t u u' : Tables) : PrefT t u -> SameT u' u -> PrefT t u'.
Proof.
  intros (H1 & H2 & H3) (_ & G1 & G2 & G3). unfold PrefT.
  now rewrite G1, G2, G3.
Qed.

Lemma SameT_refl (t : Tables) : SameT t t.
Proof. repeat split. Qed.

Lemma SameT_trans (a b c : Tables) : SameT a b -> SameT b c -> SameT a c.
Proof.
  intros (H0 & H1 & H2 & H3) (G0 & G1 & G2 & G3). repeat split; congruence.
Qed.

(** Related tables stay related when the earlier ones grow towards the
    later ones and the later ones keep their rows. *)
Lemma ExtT_mid (t t' u u' : Tables) :
  ExtT t u -> ExtT t t' -> PrefT t' u -> SameT u' u -> ExtT t' u'.
Proof.
  intros (H0 & H1 & H2 & H3) (E0 & E1 & E2 & E3) (P1 & P2 & P3) (S0 & S1 & S2 & S3).
  unfold ExtT. rewrite S1, S2, S3. repeat split.
  - congruence.
  - eapply Ext_mid; eauto using Ext_Prefix.
  - eapply Ext_mid; eauto using Ext_Prefix.
  - eapply Ext_mid; eauto using Ext_Prefix.
Qed.

(** The assignments keep the key of a row, and whether they raise does
    not depend on the row. *)
Lemma assign_connection_key (d : json) (c : Connection) :
  ckey (fst (assign_connection d c)) = ckey c.
Proof.
  unfold assign_connection.
  destruct (truthy (field d "last_success_at"));
    [destruct (parse_timestamp (field d "last_success_at"))|];
    try reflexivity;
    (destruct (truthy (field d "next_refresh_possible_at"));
     [destruct (parse_timestamp (field d "next_refresh_possible_at"))|]);
    reflexivity.
Qed.

Lemma assign_connection_outcome (d : json) (x y : Connection) :
  snd (assign_connection d x) = snd (assign_connection d y).
Proof.
  unfold assign_connection.
  destruct (truthy (field d "last_success_at"));
    [destruct (parse_timestamp (field d "last_success_at"))|];
    try reflexivity;
    (destruct (truthy (field d "next_refresh_possible_at"));
     [destruct (parse_timestamp (field d "next_refresh_possible_at"))|]);
    reflexivity.
Qed.

Lemma assign_account_key (d : json) (a : Account) :
  akey (fst (assign_account d a)) = akey a.
Proof. reflexivity. Qed.

Lemma assign_account_outcome (d : json) (x y : Account) :
  snd (assign_account d x) = snd (assign_account d y).
Proof. reflexivity. Qed.

Lemma assign_transaction_key (d : json) (t : Transaction) :
  tkey (fst (assign_transaction d t)) = tkey t.
Proof.
  unfold assign_transaction.
  destruct (truthy (field d "made_on")); [destruct (parse_made_on _)|]; reflexivity.
Qed.

Lemma assign_transaction_outcome (d : json) (x y : Transaction) :
  snd (assign_transaction d x) = snd (assign_transaction d y).
Proof.
  unfold assign_transaction.
  destruct (truthy (field d "made_on")); [destruct (parse_made_on _)|]; reflexivity.
Qed.

Section Runs.

Variable R : Type.
Variable call : R -> request -> result json * R.

(** The remote data does not change: a call leaves the aggregator as it
    was. *)
Hypothesis unchanged : forall r q, snd (call r q) = r.

Definition tables (w : World R) : Tables := live (db w).

(** A step only appends rows, each the first of its remote id. *)
Definition Grow {A} (m : M R A) : Prop :=
  forall w, ExtT (tables w) (tables (snd (m w))) /\ remote (snd (m w)) = remote w.

(** [w] is a world of the first run and [u] one of the second. *)
Definition Rel (w u : World R) : Prop :=
  remote w = remote u /\ ExtT (tables w) (tables u).

Definition Same (u' u : World R) : Prop :=
  remote u' = remote u /\ SameT (tables u') (tables u).

(** A step of the first run, replayed on a world that already holds
    every row the first run ends with, returns the same and adds no row. *)
Definition Stable {A} (pre : World R -> Prop) (m m' : M R A) : Prop :=
  forall w u, pre w -> Rel w u -> PrefT (tables (snd (m w))) (tables u) ->
    fst (m' u) = fst (m w) /\ Same (snd (m' u)) u.

Lemma Same_refl (u : World R) : Same u u.
Proof. split; [reflexivity | apply SameT_refl]. Qed.

Lemma Same_trans (a b c : World R) : Same a b -> Same b c -> Same a c.
Proof.
  intros [H1 H2] [G1 G2]. split; [congruence | eapply SameT_trans; eauto].
Qed.

Lemma grow_lift {A} (r : result A) : Grow (lift r).
Proof. intros w. split; [apply ExtT_refl | reflexivity]. Qed.

Lemma grow_fetch (q : request) : Grow (fetch call q).
Proof.
  intros w. unfold fetch.
  pose proof (unchanged (remote w) q) as Hu.
  destruct (call (remote w) q) as [r r']. simpl in *.
  split; [apply ExtT_refl | exact Hu].
Qed.

Lemma grow_bind {A B} (m : M R A) (k : A -> M R B) :
  Grow m -> (forall a, Grow (k a)) -> Grow (bindM m k).
Proof.
  intros Hm Hk w. unfold bindM. specialize (Hm w).
  destruct (m w) as [[a|e] w1]; simpl in *; [|exact Hm].
  destruct Hm as [H1 H2]. destruct (Hk a w1) as [G1 G2].
  split; [eapply ExtT_trans; eauto | congruence].
Qed.

Lemma stable_lift {A} (pre : World R -> Prop) (r : result A) :
  Stable pre (lift r) (lift r).
Proof. intros w u _ _ _. split; [reflexivity | apply Same_refl]. Qed.

Lemma stable_fetch (pre : World R -> Prop) (q : request) :
  Stable pre (fetch call q) (fetch call q).
Proof.
  intros w u _ [Hr _] _. unfold fetch. rewrite Hr.
  pose proof (unchanged (remote u) q) as Hu.
  destruct (call (remote u) q) as [r r']. simpl in *.
  split; [reflexivity|]. split; [exact Hu | apply SameT_refl].
Qed.

Lemma stable_weaken {A} (pre pre' : World R -> Prop) (m m' : M R A) :
  (forall w, pre' w -> pre w) -> Stable pre m m' -> Stable pre' m m'.
Proof. intros Hw Hs w u Hp. apply Hs. now apply Hw. Qed.

Lemma stable_bind {A B} (pre : World R -> Prop) (mid : A -> World R -> Prop)
    (m m' : M R A) (k k' : A -> M R B) :
  Stable pre m m' -> Grow m -> (forall a, Grow (k a)) ->
  (forall w a, pre w -> fst (m w) = Ok a -> mid a (snd (m w))) ->
  (forall a, Stable (mid a) (k a) (k' a)) ->
  Stable pre (bindM m k) (bindM m' k').
Proof.
  intros Hs Hg Hgk Hmid Hk w u Hpre Hrel Hpref. unfold bindM in *.
  pose proof (Hg w) as [Hgw Hgr].
  pose proof (Hmid w) as Hmidw.
  specialize (Hs w u Hpre Hrel).
  destruct (m w) as [[a|e] w1]; simpl in *.
  - assert (Hp1 : PrefT (tables w1) (tables u)).
    { eapply PrefT_trans; [|exact Hpref].
      apply ExtT_PrefT. apply (Hgk a w1). }
    destruct (Hs Hp1) as [Hf Hsame].
    destruct (m' u) as [r' u1]. simpl in *. subst r'.
    destruct Hrel as [Hrr Hrt]. destruct Hsame as [Hsr Hst].
    assert (Hrel1 : Rel w1 u1).
    { split; [congruence|].
      apply (ExtT_mid (tables w) (tables w1) (tables u) (tables u1)); assumption. }
    assert (Hpref1 : PrefT (tables (snd (k a w1))) (tables u1)).
    { apply (PrefT_same _ (tables u)); assumption. }
    destruct (Hk a w1 u1 (Hmidw a Hpre eq_refl) Hrel1 Hpref1) as [Hf1 Hs1].
    split; [exact Hf1|]. eapply Same_trans; [exact Hs1|]. now split.
  - destruct (Hs Hpref) as [Hf Hsame].
    destruct (m' u) as [r' u1]. simpl in *. subst r'. now split.
Qed.

(** *** The three upserts *)

Lemma sync_connection_unfold (data : json) (customer : Customer) (w : World R) :
  _sync_connection data customer w =
  match getitem data "id" with
  | Raise e => (Raise e, w)
  | Ok rid =>
      let up :=
        upsert (fun c => json_eqb (krid (ckey c)) rid)
               (new_connection (next_id (map connection_id (connections (tables w))))
                               rid (customer_id customer))
               (assign_connection data) (connections (tables w)) in
      (snd up, set_tables w (with_connections (tables w) (fst up)))
  end.
Proof.
  unfold _sync_connection, bindM, lift, tables.
  destruct (getitem data "id"); [|reflexivity].
  cbv zeta. now destruct (upsert _ _ _ _).
Qed.

Lemma grow_sync_connection (data : json) (customer : Customer) :
  Grow (@_sync_connection R data customer).
Proof.
  intros w. rewrite sync_connection_unfold.
  destruct (getitem data "id") as [rid|e]; cbv zeta; simpl;
    [|split; [apply ExtT_refl | reflexivity]].
  split; [|reflexivity]. unfold ExtT, tables, ckeys, akeys, tkeys. simpl.
  repeat split; try apply Ext_refl.
  rewrite (upsert_keys ckey rid _ _ (assign_connection_key data)).
  now apply upserted_ext.
Qed.

Lemma stable_sync_connection (data : json) (c1 c2 : Customer) :
  Stable (fun _ => True) (_sync_connection data c1) (_sync_connection data c2).
Proof.
  intros w u _ [Hr (H0 & H1 & H2 & H3)]. rewrite !sync_connection_unfold.
  destruct (getitem data "id") as [rid|e]; cbv zeta; simpl;
    [|intros _; split; [reflexivity | apply Same_refl]].
  intros (P1 & _ & _). split.
  - rewrite !(upsert_outcome ckey rid _ _ (assign_connection_outcome data)).
    apply assign_connection_outcome.
  - split; [reflexivity|]. unfold SameT, tables, ckeys, akeys, tkeys in *.
    simpl in *. repeat split.
    rewrite (upsert_keys ckey rid _ _ (assign_connection_key data)) in P1.
    rewrite (upsert_keys ckey rid _ _ (assign_connection_key data)).
    eapply upserted_replay; [|exact P1]. reflexivity.
Qed.

(** After the upsert the remote id is present. *)
Lemma sync_connection_present (data : json) (customer : Customer) (w : World R)
    (rid : json) :
  getitem data "id" = Ok rid ->
  has rid (ckeys (tables (snd (_sync_connection data customer w)))) = true.
Proof.
  intros Hid. rewrite sync_connection_unfold, Hid. cbv zeta. simpl.
  unfold tables, ckeys. simpl.
  rewrite (upsert_keys ckey rid _ _ (assign_connection_key data)).
  now apply upserted_present.
Qed.

Lemma sync_account_unfold (data : json) (connection : Connection) (w : World R) :
  _sync_account data connection w =
  match getitem data "id" with
  | Raise e => (Raise e, w)
  | Ok rid =>
      let up :=
        upsert (fun x => json_eqb (krid (akey x)) rid)
               (new_account (next_id (map account_id (accounts (tables w))))
                               rid (connection_id connection))
               (assign_account data) (accounts (tables w)) in
      (snd up, set_tables w (with_accounts (tables w) (fst up)))
  end.
Proof.
  unfold _sync_account, bindM, lift, tables.
  destruct (getitem data "id"); [|reflexivity].
  cbv zeta. now destruct (upsert _ _ _ _).
Qed.

Lemma grow_sync_account (data : json) (connection : Connection) :
  Grow (@_sync_account R data connection).
Proof.
  intros w. rewrite sync_account_unfold.
  destruct (getitem data "id") as [rid|e]; cbv zeta; simpl;
    [|split; [apply ExtT_refl | reflexivity]].
  split; [|reflexivity]. unfold ExtT, tables, akeys, akeys, tkeys. simpl.
  repeat split; try apply Ext_refl.
  rewrite (upsert_keys akey rid _ _ (assign_account_key data)).
  now apply upserted_ext.
Qed.

Lemma stable_sync_account (data : json) (c1 c2 : Connection) :
  Stable (fun _ => True) (_sync_account data c1) (_sync_account data c2).
Proof.
  intros w u _ [Hr (H0 & H1 & H2 & H3)]. rewrite !sync_account_unfold.
  destruct (getitem data "id") as [rid|e]; cbv zeta; simpl;
    [|intros _; split; [reflexivity | apply Same_refl]].
  intros (_ & P1 & _). split.
  - rewrite !(upsert_outcome akey rid _ _ (assign_account_outcome data)).
    apply assign_account_outcome.
  - split; [reflexivity|]. unfold SameT, tables, akeys, akeys, tkeys in *.
    simpl in *. repeat split.
    rewrite (upsert_keys akey rid _ _ (assign_account_key data)) in P1.
    rewrite (upsert_keys akey rid _ _ (assign_account_key data)).
    eapply upserted_replay; [|exact P1]. reflexivity.
Qed.

(** After the upsert the remote id is present. *)
Lemma sync_account_present (data : json) (connection : Connection) (w : World R)
    (rid : json) :
  getitem data "id" = Ok rid ->
  has rid (akeys (tables (snd (_sync_account data connection w)))) = true.
Proof.
  intros Hid. rewrite sync_account_unfold, Hid. cbv zeta. simpl.
  unfold tables, akeys. simpl.
  rewrite (upsert_keys akey rid _ _ (assign_account_key data)).
  now apply upserted_present.
Qed.

Lemma sync_transaction_unfold (data : json) (account : Account) (w : World R) :
  _sync_transaction data account w =
  match getitem data "id" with
  | Raise e => (Raise e, w)
  | Ok rid =>
      let up :=
        upsert (fun x => json_eqb (krid (tkey x)) rid)
               (new_transaction (next_id (map transaction_id (transactions (tables w))))
                               rid (account_id account))
               (assign_transaction data) (transactions (tables w)) in
      (snd up, set_tables w (with_transactions (tables w) (fst up)))
  end.
Proof.
  unfold _sync_transaction, bindM, lift, tables.
  destruct (getitem data "id"); [|reflexivity].
  cbv zeta. now destruct (upsert _ _ _ _).
Qed.

Lemma grow_sync_transaction (data : json) (account : Account) :
  Grow (@_sync_transaction R data account).
Proof.
  intros w. rewrite sync_transaction_unfold.
  destruct (getitem data "id") as [rid|e]; cbv zeta; simpl;
    [|split; [apply ExtT_refl | reflexivity]].
  split; [|reflexivity]. unfold ExtT, tables, tkeys, akeys, tkeys. simpl.
  repeat split; try apply Ext_refl.
  rewrite (upsert_keys tkey rid _ _ (assign_transaction_key data)).
  now apply upserted_ext.
Qed.

Lemma stable_sync_transaction (data : json) (c1 c2 : Account) :
  Stable (fun _ => True) (_sync_transaction data c1) (_sync_transaction data c2).
Proof.
  intros w u _ [Hr (H0 & H1 & H2 & H3)]. rewrite !sync_transaction_unfold.
  destruct (getitem data "id") as [rid|e]; cbv zeta; simpl;
    [|intros _; split; [reflexivity | apply Same_refl]].
  intros (_ & _ & P1). split.
  - rewrite !(upsert_outcome tkey rid _ _ (assign_transaction_outcome data)).
    apply assign_transaction_outcome.
  - split; [reflexivity|]. unfold SameT, tables, tkeys, akeys, tkeys in *.
    simpl in *. repeat split.
    rewrite (upsert_keys tkey rid _ _ (assign_transaction_key data)) in P1.
    rewrite (upsert_keys tkey rid _ _ (assign_transaction_key data)).
    eapply upserted_replay; [|exact P1]. reflexivity.
Qed.

(** After the upsert the remote id is present. *)
Lemma sync_transaction_present (data : json) (account : Account) (w : World R)
    (rid : json) :
  getitem data "id" = Ok rid ->
  has rid (tkeys (tables (snd (_sync_transaction data account w)))) = true.
Proof.
  intros Hid. rewrite sync_transaction_unfold, Hid. cbv zeta. simpl.
  unfold tables, tkeys. simpl.
  rewrite (upsert_keys tkey rid _ _ (assign_transaction_key data)).
  now apply upserted_present.
Qed.

(** *** Transactions of an account *)

Lemma grow_transactions_loop (items : list json) (account : Account) (n : Z) :
  Grow (@transactions_loop R items account n).
Proof.
  revert n. induction items as [|d items IH]; intros n; simpl.
  - apply (grow_lift (Ok n)).
  - apply grow_bind; [apply grow_sync_transaction | intros _; apply IH].
Qed.

Lemma stable_transactions_loop (items : list json) (a1 a2 : Account) (n : Z) :
  Stable (fun _ => True) (transactions_loop items a1 n) (transactions_loop items a2 n).
Proof.
  revert n. induction items as [|d items IH]; intros n; simpl.
  - apply (stable_lift _ (Ok n)).
  - apply (stable_bind _ (fun _ _ => True)).
    + apply stable_sync_transaction.
    + apply grow_sync_transaction.
    + intros _. apply grow_transactions_loop.
    + trivial.
    + intros _. apply IH.
Qed.

(** What [_sync_transactions_for_account] does with the account found. *)
Definition fetch_transactions (rid aid : json) (account : Account) : M R Z :=
  bindM (fetch call (ListTransactions rid aid)) (fun transactions_data =>
  bindM (lift (data_items transactions_data)) (fun items =>
  transactions_loop items account 0)).

Lemma grow_fetch_transactions (rid aid : json) (account : Account) :
  Grow (fetch_transactions rid aid account).
Proof.
  apply grow_bind; [apply grow_fetch | intros td].
  apply grow_bind; [apply grow_lift | intros items].
  apply grow_transactions_loop.
Qed.

Lemma stable_fetch_transactions (rid aid : json) (a1 a2 : Account) :
  Stable (fun _ => True) (fetch_transactions rid aid a1) (fetch_transactions rid aid a2).
Proof.
  apply (stable_bind _ (fun _ _ => True)).
  - apply stable_fetch.
  - apply grow_fetch.
  - intros td. apply grow_bind; [apply grow_lift | intros items].
    apply grow_transactions_loop.
  - trivial.
  - intros td. apply (stable_bind _ (fun _ _ => True)).
    + apply stable_lift.
    + apply grow_lift.
    + intros items. apply grow_transactions_loop.
    + trivial.
    + intros items. apply stable_transactions_loop.
Qed.

Definition bound_to (aid : json) (cid : Z) (k : K) : bool :=
  json_eqb (krid k) aid && Z.eqb (kpid k) cid.

Lemma sync_transactions_for_account_unfold (rid aid : json) (connection : Connection)
    (w : World R) :
  _sync_transactions_for_account call rid aid connection w =
  match find (fun a => bound_to aid (connection_id connection) (akey a))
             (accounts (tables w)) with
  | None =>
      (Raise (ValueError ("Account " ++ PyFormat.str aid ++ " not found in database")), w)
  | Some account => fetch_transactions rid aid account w
  end.
Proof. reflexivity. Qed.

Lemma grow_sync_transactions_for_account (rid aid : json) (connection : Connection) :
  Grow (_sync_transactions_for_account call rid aid connection).
Proof.
  intros w. rewrite sync_transactions_for_account_unfold.
  destruct (find _ _) as [account|].
  - apply grow_fetch_transactions.
  - split; [apply ExtT_refl | reflexivity].
Qed.

Lemma stable_sync_transactions_for_account (rid aid : json) (c1 c2 : Connection) :
  connection_id c1 = connection_id c2 ->
  Stable (fun w => has aid (akeys (tables w)) = true)
         (_sync_transactions_for_account call rid aid c1)
         (_sync_transactions_for_account call rid aid c2).
Proof.
  intros Hc w u Hpre Hrel. rewrite !sync_transactions_for_account_unfold.
  pose proof Hrel as [_ (_ & _ & Ha & _)].
  pose proof (find_bound_ext aid (connection_id c1) _ _ Ha Hpre) as Hfind.
  unfold akeys in Hfind. rewrite !(find_map akey) in Hfind.
  rewrite <- Hc.
  set (p := fun a : Account => bound_to aid (connection_id c1) (akey a)).
  change (option_map akey (find p (accounts (tables u)))
          = option_map akey (find p (accounts (tables w)))) in Hfind.
  destruct (find p (accounts (tables w))) as [a1|];
    destruct (find p (accounts (tables u))) as [a2|];
    simpl in Hfind; try discriminate.
  - now apply stable_fetch_transactions.
  - intros _. split; [reflexivity | apply Same_refl].
Qed.

(** *** Accounts of a connection *)

Lemma grow_accounts_loop (items : list json) (rid : json) (connection : Connection)
    (counts : Z * Z) :
  Grow (accounts_loop call items rid connection counts).
Proof.
  revert counts. induction items as [|d items IH]; intros counts; simpl.
  - apply (grow_lift (Ok counts)).
  - apply grow_bind; [apply grow_sync_account | intros _].
    apply grow_bind; [apply grow_lift | intros aid].
    apply grow_bind; [apply grow_sync_transactions_for_account | intros n].
    apply IH.
Qed.

Lemma stable_accounts_loop (items : list json) (rid : json) (c1 c2 : Connection)
    (counts : Z * Z) :
  connection_id c1 = connection_id c2 ->
  Stable (fun _ => True) (accounts_loop call items rid c1 counts)
         (accounts_loop call items rid c2 counts).
Proof.
  intros Hc. revert counts. induction items as [|d items IH]; intros counts; simpl.
  - apply (stable_lift _ (Ok counts)).
  - apply (stable_bind _ (fun _ w => forall aid, getitem d "id" = Ok aid ->
                                      has aid (akeys (tables w)) = true)).
    + apply stable_sync_account.
    + apply grow_sync_account.
    + intros _. apply grow_bind; [apply grow_lift | intros aid].
      apply grow_bind; [apply grow_sync_transactions_for_account | intros n].
      apply grow_accounts_loop.
    + intros w _ _ _ aid Hid. now apply sync_account_present.
    + intros _.
      apply (stable_bind _ (fun aid w => has aid (akeys (tables w)) = true)).
      * apply stable_lift.
      * apply grow_lift.
      * intros aid.
        apply grow_bind; [apply grow_sync_transactions_for_account | intros n].
        apply grow_accounts_loop.
      * intros w aid Hpre Hid. simpl in *. now apply Hpre.
      * intros aid. apply (stable_bind _ (fun _ _ => True)).
        -- now apply stable_sync_transactions_for_account.
        -- apply grow_sync_transactions_for_account.
        -- intros n. apply grow_accounts_loop.
        -- trivial.
        -- intros n. apply IH.
Qed.

(** What [_sync_accounts_for_connection] does with the connection found. *)
Definition fetch_accounts (rid : json) (connection : Connection) : M R (Z * Z) :=
  bindM (fetch call (ListAccounts rid)) (fun accounts_data =>
  bindM (lift (data_items accounts_data)) (fun items =>
  accounts_loop call items rid connection (0, 0))).

Lemma grow_fetch_accounts (rid : json) (connection : Connection) :
  Grow (fetch_accounts rid connection).
Proof.
  apply grow_bind; [apply grow_fetch | intros ad].
  apply grow_bind; [apply grow_lift | intros items].
  apply grow_accounts_loop.
Qed.

Lemma stable_fetch_accounts (rid : json) (c1 c2 : Connection) :
  connection_id c1 = connection_id c2 ->
  Stable (fun _ => True) (fetch_accounts rid c1) (fetch_accounts rid c2).
Proof.
  intros Hc. apply (stable_bind _ (fun _ _ => True)).
  - apply stable_fetch.
  - apply grow_fetch.
  - intros ad. apply grow_bind; [apply grow_lift | intros items].
    apply grow_accounts_loop.
  - trivial.
  - intros ad. apply (stable_bind _ (fun _ _ => True)).
    + apply stable_lift.
    + apply grow_lift.
    + intros items. apply grow_accounts_loop.
    + trivial.
    + intros items. now apply stable_accounts_loop.
Qed.

Lemma sync_accounts_for_connection_unfold (rid : json) (customer : Customer)
    (w : World R) :
  _sync_accounts_for_connection call rid customer w =
  match find (fun c => json_eqb (krid (ckey c)) rid) (connections (tables w)) with
  | None =>
      (Raise (ValueError ("Connection " ++ PyFormat.str rid ++ " not found in database")), w)
  | Some connection => fetch_accounts rid connection w
  end.
Proof. reflexivity. Qed.

Lemma grow_sync_accounts_for_connection (rid : json) (customer : Customer) :
  Grow (_sync_accounts_for_connection call rid customer).
Proof.
  intros w. rewrite sync_accounts_for_connection_unfold.
  destruct (find _ _) as [connection|].
  - apply grow_fetch_accounts.
  - split; [apply ExtT_refl | reflexivity].
Qed.

Lemma stable_sync_accounts_for_connection (rid : json) (customer : Customer) :
  Stable (fun w => has rid (ckeys (tables w)) = true)
         (_sync_accounts_for_connection call rid customer)
         (_sync_accounts_for_connection call rid customer).
Proof.
  intros w u Hpre Hrel. rewrite !sync_accounts_for_connection_unfold.
  pose proof Hrel as [_ (_ & Hc & _ & _)].
  pose proof (find_prefix (fun k => json_eqb (krid k) rid) _ _
                (Ext_Prefix _ _ Hc) (has_find _ _ Hpre)) as Hfind.
  pose proof (has_find _ _ Hpre) as Hsome.
  unfold ckeys in Hfind, Hsome. rewrite !(find_map ckey) in Hfind.
  rewrite (find_map ckey) in Hsome.
  set (p := fun c : Connection => json_eqb (krid (ckey c)) rid) in *.
  destruct (find p (connections (tables w))) as [c1|];
    [|now destruct Hsome].
  destruct (find p (connections (tables u))) as [c2|]; [|discriminate].
  simpl in Hfind. apply stable_fetch_accounts; [|exact I|exact Hrel].
  injection Hfind as Hid _ _. now rewrite Hid.
Qed.

(** *** The connections of a customer *)

(** One replayed step, with what the next step needs. *)
Lemma stable_step {A} (pre : World R -> Prop) (m m' : M R A) (w u : World R)
    (final : Tables) :
  Stable pre m m' -> Grow m -> pre w -> Rel w u ->
  PrefT (tables (snd (m w))) final -> PrefT final (tables u) ->
  fst (m' u) = fst (m w) /\ Same (snd (m' u)) u
  /\ Rel (snd (m w)) (snd (m' u)) /\ PrefT final (tables (snd (m' u))).
Proof.
  intros Hs Hg Hpre Hrel Hp1 Hp2.
  assert (Hp : PrefT (tables (snd (m w))) (tables u))
    by (eapply PrefT_trans; eauto).
  destruct (Hs w u Hpre Hrel Hp) as [Hf Hsame].
  destruct (Hg w) as [Hgt Hgr]. destruct Hrel as [Hrr Hrt].
  destruct Hsame as [Hsr Hst].
  split; [exact Hf|]. split; [now split|]. split; [split|].
  - congruence.
  - apply (ExtT_mid (tables w) _ (tables u)); assumption.
  - apply (PrefT_same _ (tables u)); assumption.
Qed.

(** The second argument of [_sync_accounts_for_connection] and the call. *)
Definition accounts_of (connection_data : json) (customer : Customer) : M R (Z * Z) :=
  bindM (lift (getitem connection_data "id")) (fun rid =>
  _sync_accounts_for_connection call rid customer).

Definition present (connection_data : json) (w : World R) : Prop :=
  forall rid, getitem connection_data "id" = Ok rid ->
              has rid (ckeys (tables w)) = true.

Lemma grow_accounts_of (connection_data : json) (customer : Customer) :
  Grow (accounts_of connection_data customer).
Proof.
  apply grow_bind; [apply grow_lift | intros rid].
  apply grow_sync_accounts_for_connection.
Qed.

Lemma stable_accounts_of (connection_data : json) (customer : Customer) :
  Stable (present connection_data)
         (accounts_of connection_data customer) (accounts_of connection_data customer).
Proof.
  apply (stable_bind _ (fun rid w => has rid (ckeys (tables w)) = true)).
  - apply stable_lift.
  - apply grow_lift.
  - intros rid. apply grow_sync_accounts_for_connection.
  - intros w rid Hpre Hid. simpl in *. now apply Hpre.
  - intros rid. apply stable_sync_accounts_for_connection.
Qed.

Lemma connections_loop_unfold (connection_data : json) (rest : list json)
    (customer : Customer) (result : SyncResult) (w : World R) :
  connections_loop call (connection_data :: rest) customer result w =
  match _sync_connection connection_data customer w with
  | (Raise e, w1) => (Some e, result, w1)
  | (Ok _, w1) =>
      match accounts_of connection_data customer w1 with
      | (Ok counts, w2) =>
          connections_loop call rest customer
            (add_counts (add_connection result) counts) w2
      | (Raise e, w2) =>
          match getitem connection_data "id" with
          | Ok rid =>
              connections_loop call rest customer
                (add_error (add_connection result)
                   ("Error syncing accounts for connection " ++ PyFormat.str rid
                    ++ ": " ++ PyFormat.str_exn e)) w2
          | Raise e' => (Some e', add_connection result, w2)
          end
      end
  end.
Proof. reflexivity. Qed.

Lemma grow_connections_loop (items : list json) (customer : Customer)
    (result : SyncResult) (w : World R) :
  ExtT (tables w) (tables (snd (connections_loop call items customer result w)))
  /\ remote (snd (connections_loop call items customer result w)) = remote w.
Proof.
  revert result w. induction items as [|d items IH]; intros result w.
  - simpl. split; [apply ExtT_refl | reflexivity].
  - rewrite connections_loop_unfold.
    pose proof (grow_sync_connection d customer w) as [G1 G1r].
    destruct (_sync_connection d customer w) as [[[]|e] w1]; simpl in G1, G1r;
      [|now split].
    pose proof (grow_accounts_of d customer w1) as [G2 G2r].
    destruct (accounts_of d customer w1) as [[counts|e] w2]; simpl in G2, G2r.
    + destruct (IH (add_counts (add_connection result) counts) w2) as [G3 G3r].
      split; [|congruence].
      eapply ExtT_trans; [exact G1|]. eapply ExtT_trans; eauto.
    + destruct (getitem d "id") as [rid|e'].
      * match goal with
        | |- context [connections_loop call items customer ?r w2] =>
            destruct (IH r w2) as [G3 G3r]
        end.
        split; [|congruence].
        eapply ExtT_trans; [exact G1|]. eapply ExtT_trans; eauto.
      * simpl. split; [|congruence]. eapply ExtT_trans; eauto.
Qed.

Lemma stable_connections_loop (items : list json) (customer : Customer)
    (result : SyncResult) (w u : World R) :
  Rel w u ->
  PrefT (tables (snd (connections_loop call items customer result w))) (tables u) ->
  fst (connections_loop call items customer result u)
  = fst (connections_loop call items customer result w)
  /\ Same (snd (connections_loop call items customer result u)) u.
Proof.
  revert result w u. induction items as [|d items IH]; intros result w u Hrel Hpref.
  - simpl. split; [reflexivity | apply Same_refl].
  - rewrite connections_loop_unfold in Hpref. rewrite !connections_loop_unfold.
    pose proof (sync_connection_present d customer w) as Hpres.
    pose proof (fun final => stable_step _ _ _ w u final
                  (stable_sync_connection d customer customer)
                  (grow_sync_connection d customer) I Hrel) as Hstep1.
    destruct (_sync_connection d customer w) as [[[]|e] w1]; simpl in *.
    + pose proof (grow_accounts_of d customer w1) as [G2 _].
      pose proof (fun final u1 Hrel1 => stable_step _ _ _ w1 u1 final
                    (stable_accounts_of d customer)
                    (grow_accounts_of d customer) Hpres Hrel1) as Hstep2.
      destruct (accounts_of d customer w1) as [[counts|e] w2]; simpl in *.
      * match type of Hpref with
        | PrefT (tables (snd (connections_loop call items customer ?r w2))) _ =>
            pose proof (grow_connections_loop items customer r w2) as [G3 _]
        end.
        destruct (Hstep1 (tables w1) (PrefT_refl _)) as (Hf1 & Hs1 & Hr1 & Hp1).
        { eapply PrefT_trans; [apply ExtT_PrefT; exact G2|].
          eapply PrefT_trans; [apply ExtT_PrefT; exact G3 | exact Hpref]. }
        destruct (_sync_connection d customer u) as [r1' u1]. simpl in *. subst r1'.
        destruct (Hstep2 (tables w2) u1 Hr1 (PrefT_refl _)) as (Hf2 & Hs2 & Hr2 & Hp2).
        { apply (PrefT_same _ (tables u)); [|apply Hs1].
          eapply PrefT_trans; [apply ExtT_PrefT; exact G3 | exact Hpref]. }
        destruct (accounts_of d customer u1) as [r2' u2]. simpl in *. subst r2'.
        destruct (IH (add_counts (add_connection result) counts) w2 u2 Hr2) as [Hf3 Hs3].
        { apply (PrefT_same _ (tables u1)); [|apply Hs2].
          apply (PrefT_same _ (tables u)); [exact Hpref | apply Hs1]. }
        split; [exact Hf3|].
        eapply Same_trans; [exact Hs3|]. eapply Same_trans; eauto.
      * destruct (getitem d "id") as [rid|e'].
        -- match type of Hpref with
           | PrefT (tables (snd (connections_loop call items customer ?r w2))) _ =>
               pose proof (grow_connections_loop items customer r w2) as [G3 _];
               pose proof (IH r w2) as IHr
           end.
           destruct (Hstep1 (tables w1) (PrefT_refl _)) as (Hf1 & Hs1 & Hr1 & Hp1).
           { eapply PrefT_trans; [apply ExtT_PrefT; exact G2|].
             eapply PrefT_trans; [apply ExtT_PrefT; exact G3 | exact Hpref]. }
           destruct (_sync_connection d customer u) as [r1' u1]. simpl in *. subst r1'.
           destruct (Hstep2 (tables w2) u1 Hr1 (PrefT_refl _)) as (Hf2 & Hs2 & Hr2 & Hp2).
           { apply (PrefT_same _ (tables u)); [|apply Hs1].
             eapply PrefT_trans; [apply ExtT_PrefT; exact G3 | exact Hpref]. }
           destruct (accounts_of d customer u1) as [r2' u2]. simpl in *. subst r2'.
           destruct (IHr u2 Hr2) as [Hf3 Hs3].
           { apply (PrefT_same _ (tables u1)); [|apply Hs2].
             apply (PrefT_same _ (tables u)); [exact Hpref | apply Hs1]. }
           split; [exact Hf3|].
           eapply Same_trans; [exact Hs3|]. eapply Same_trans; eauto.
        -- simpl in Hpref.
           destruct (Hstep1 (tables w1) (PrefT_refl _)) as (Hf1 & Hs1 & Hr1 & Hp1).
           { eapply PrefT_trans; [apply ExtT_PrefT; exact G2 | exact Hpref]. }
           destruct (_sync_connection d customer u) as [r1' u1]. simpl in *. subst r1'.
           destruct (Hstep2 (tables w2) u1 Hr1 (PrefT_refl _)) as (Hf2 & Hs2 & Hr2 & Hp2).
           { apply (PrefT_same _ (tables u)); [exact Hpref | apply Hs1]. }
           destruct (accounts_of d customer u1) as [r2' u2]. simpl in *. subst r2'.
           split; [reflexivity|]. eapply Same_trans; eauto.
    + destruct (Hstep1 (tables w1) (PrefT_refl _) Hpref) as (Hf1 & Hs1 & _).
      destruct (_sync_connection d customer u) as [r1' u1]. simpl in *. subst r1'.
      now split.
Qed.

(** *** A whole run *)

Lemma grow_sync_connections (customer : Customer) (result : SyncResult) (w : World R) :
  ExtT (tables w) (tables (snd (sync_connections call customer result w)))
  /\ remote (snd (sync_connections call customer result w)) = remote w.
Proof.
  unfold sync_connections.
  pose proof (grow_fetch (ListConnections (saltedge_customer_id customer)) w) as [G1 G1r].
  destruct (fetch call _ w) as [[cd|e] w1]; simpl in *; [|now split].
  destruct (data_items cd) as [items|e]; simpl; [|now split].
  pose proof (grow_connections_loop items customer result w1) as [G2 G2r].
  destruct (connections_loop call items customer result w1) as [[[e|] r] w2];
    simpl in *; (split; [eapply ExtT_trans; eauto | congruence]).
Qed.

Lemma stable_sync_connections (customer : Customer) (result : SyncResult)
    (w u : World R) :
  Rel w u ->
  PrefT (tables (snd (sync_connections call customer result w))) (tables u) ->
  fst (sync_connections call customer result u)
  = fst (sync_connections call customer result w)
  /\ Same (snd (sync_connections call customer result u)) u.
Proof.
  intros Hrel. unfold sync_connections.
  set (q := ListConnections (saltedge_customer_id customer)).
  pose proof (fun final => stable_step _ _ _ w u final
                (stable_fetch (fun _ => True) q) (grow_fetch q) I Hrel) as Hstep.
  destruct (fetch call q w) as [[cd|e] w1]; cbn [fst snd] in *.
  - destruct (data_items cd) as [items|e] eqn:Hd; cbn [fst snd].
    + intros Hpref.
      pose proof (grow_connections_loop items customer result w1) as [G _].
      pose proof (stable_connections_loop items customer result w1) as Hloop.
      assert (Hp : PrefT (tables (snd (connections_loop call items customer result w1)))
                         (tables u)).
      { destruct (connections_loop call items customer result w1) as [[[e|] r] w2];
          exact Hpref. }
      destruct (Hstep (tables w1) (PrefT_refl _)) as (Hf & Hs & Hr & _).
      { eapply PrefT_trans; [apply ExtT_PrefT; exact G | exact Hp]. }
      destruct (fetch call q u) as [r' u1]. cbn [fst snd] in *. subst r'.
      rewrite Hd.
      destruct (Hloop u1 Hr) as [Hf2 Hs2].
      { apply (PrefT_same _ (tables u)); [exact Hp | apply Hs]. }
      destruct (connections_loop call items customer result w1) as [[o1 r1] w2].
      destruct (connections_loop call items customer result u1) as [[o2 r2] u2].
      cbn [fst snd] in *. injection Hf2 as -> ->.
      destruct o1; cbn [fst snd];
        (split; [reflexivity | eapply Same_trans; eauto]).
    + intros Hpref.
      destruct (Hstep (tables w1) (PrefT_refl _) Hpref) as (Hf & Hs & _).
      destruct (fetch call q u) as [r' u1]. cbn [fst snd] in *. subst r'.
      rewrite Hd. now split.
  - intros Hpref.
    destruct (Hstep (tables w1) (PrefT_refl _) Hpref) as (Hf & Hs & _).
    destruct (fetch call q u) as [r' u1]. cbn [fst snd] in *. subst r'. now split.
Qed.

(** The numbers of connection, account and transaction rows. *)
Definition row_totals (t : Tables) : nat * nat * nat :=
  (length (connections t), length (accounts t), length (transactions t)).

Lemma SameT_totals (t u : Tables) : SameT t u -> row_totals t = row_totals u.
Proof.
  intros (_ & Hc & Ha & Ht). unfold row_totals.
  apply (f_equal (@length K)) in Hc, Ha, Ht.
  unfold ckeys, akeys, tkeys in *. rewrite !length_map in *. congruence.
Qed.

End Runs.

End SyncFacts.

(** ** The two forms of made_on parse *)

Module DateTimeFacts.
Import Py DateTime.

(** [c] is the decimal digit [d]. *)
Definition Digit (c : ascii) (d : Z) : Prop := digit_of_char c = Some d.

Lemma digit_char (d : Z) : 0 <= d <= 9 -> Digit (char_of_digit d) d.
Proof.
  intros H.
  assert (E : d = 0 \/ d = 1 \/ d = 2 \/ d = 3 \/ d = 4 \/ d = 5 \/ d = 6
              \/ d = 7 \/ d = 8 \/ d = 9) by lia.
  unfold Digit.
  repeat (destruct E as [->|E]; [reflexivity|]). subst. reflexivity.
Qed.

(** A digit is none of the separators. *)
Lemma digit_not (c x : ascii) (d : Z) :
  Digit c d -> digit_of_char x = None -> Ascii.eqb c x = false.
Proof.
  unfold Digit. intros Hc Hx.
  destruct (Ascii.eqb_spec c x) as [->|_]; [congruence | reflexivity].
Qed.

Lemma int_of_2 (c1 c2 : ascii) (d1 d2 : Z) :
  Digit c1 d1 -> Digit c2 d2 -> int_of [c1; c2] = Some (10 * d1 + d2).
Proof.
  unfold Digit, int_of, int_acc. intros -> ->. f_equal. lia.
Qed.

Lemma int_of_4 (c1 c2 c3 c4 : ascii) (d1 d2 d3 d4 : Z) :
  Digit c1 d1 -> Digit c2 d2 -> Digit c3 d3 -> Digit c4 d4 ->
  int_of [c1; c2; c3; c4] = Some (1000 * d1 + 100 * d2 + 10 * d3 + d4).
Proof.
  unfold Digit, int_of, int_acc. intros -> -> -> ->. f_equal. lia.
Qed.

Lemma fmt2_digits (n : Z) :
  0 <= n <= 99 ->
  exists c1 c2 d1 d2,
    fmt2 n = [c1; c2] /\ Digit c1 d1 /\ Digit c2 d2 /\ n = 10 * d1 + d2.
Proof.
  intros H. exists (char_of_digit (n / 10)), (char_of_digit (n mod 10)),
    (n / 10), (n mod 10).
  split; [reflexivity|].
  split; [apply digit_char; Z.div_mod_to_equations; lia|].
  split; [apply digit_char; Z.div_mod_to_equations; lia|]. Z.div_mod_to_equations; lia.
Qed.

Lemma fmt4_digits (n : Z) :
  0 <= n <= 9999 ->
  exists c1 c2 c3 c4 d1 d2 d3 d4,
    fmt4 n = [c1; c2; c3; c4]
    /\ Digit c1 d1 /\ Digit c2 d2 /\ Digit c3 d3 /\ Digit c4 d4
    /\ n = 1000 * d1 + 100 * d2 + 10 * d3 + d4.
Proof.
  intros H.
  exists (char_of_digit (n / 1000)), (char_of_digit (n / 100 mod 10)),
    (char_of_digit (n / 10 mod 10)), (char_of_digit (n mod 10)),
    (n / 1000), (n / 100 mod 10), (n / 10 mod 10), (n mod 10).
  split; [reflexivity|].
  repeat (split; [apply digit_char; Z.div_mod_to_equations; lia|]). Z.div_mod_to_equations; lia.
Qed.

Lemma match_month_fmt2 (m : Z) (rest : chars) :
  1 <= m <= 12 -> match_month (fmt2 m ++ "-"%char :: rest) = Some (m, rest).
Proof.
  intros H.
  assert (E : m = 1 \/ m = 2 \/ m = 3 \/ m = 4 \/ m = 5 \/ m = 6 \/ m = 7
              \/ m = 8 \/ m = 9 \/ m = 10 \/ m = 11 \/ m = 12) by lia.
  repeat (destruct E as [->|E]; [reflexivity|]). subst. reflexivity.
Qed.

Lemma match_day_fmt2 (d : Z) :
  1 <= d <= 31 -> match_day (fmt2 d) = Some (d, []).
Proof.
  intros H.
  assert (E : exists k, d = 1 + Z.of_nat k /\ (k < 31)%nat).
  { exists (Z.to_nat (d - 1)). lia. }
  destruct E as (k & -> & Hk).
  do 31 (destruct k as [|k]; [reflexivity|]). lia.
Qed.

Lemma days_in_month_le (y m : Z) : days_in_month y m <= 31.
Proof.
  unfold days_in_month.
  destruct (m =? 2); [destruct (is_leap y); lia|].
  destruct ((m =? 4) || (m =? 6) || (m =? 9) || (m =? 11)); lia.
Qed.

Lemma valid_date_bounds (y m d : Z) :
  valid_date y m d = true -> 1 <= y <= 9999 /\ 1 <= m <= 12 /\ 1 <= d <= 31.
Proof.
  unfold valid_date. rewrite !andb_true_iff, !Z.leb_le.
  pose proof (days_in_month_le y m). lia.
Qed.

Lemma valid_time_bounds (h mi s : Z) :
  valid_time h mi s 0 = true -> 0 <= h <= 23 /\ 0 <= mi <= 59 /\ 0 <= s <= 59.
Proof. unfold valid_time. rewrite !andb_true_iff, !Z.leb_le. lia. Qed.

(** Rewrites the comparisons of a digit with a separator. *)
Ltac digits_apart :=
  repeat match goal with
         | H : Digit ?c _ |- context [Ascii.eqb ?c ?x] =>
             rewrite (digit_not c x _ H eq_refl)
         end.

Lemma strptime_date_text (y m d : Z) :
  valid_date y m d = true ->
  strptime_ymd (date_text y m d)
  = Ok {| year := y; month := m; day := d; hour := 0; minute := 0;
          second := 0; microsecond := 0; tzinfo := None |}.
Proof.
  intros Hv. pose proof (valid_date_bounds _ _ _ Hv) as (Hy & Hm & Hd).
  unfold strptime_ymd, date_text.
  rewrite list_ascii_of_string_of_list_ascii.
  destruct (fmt4_digits y) as (c1 & c2 & c3 & c4 & d1 & d2 & d3 & d4
                               & -> & H1 & H2 & H3 & H4 & Ey); [lia|].
  cbn [app]. rewrite (int_of_4 _ _ _ _ _ _ _ _ H1 H2 H3 H4), <- Ey.
  change (Ascii.eqb "-" "-") with true. cbn [negb].
  rewrite match_month_fmt2 by lia. rewrite match_day_fmt2 by lia.
  unfold make. rewrite Hv. reflexivity.
Qed.

Lemma contains_T_date_text (y m d : Z) :
  valid_date y m d = true -> contains_T (date_text y m d) = false.
Proof.
  intros Hv. pose proof (valid_date_bounds _ _ _ Hv) as (Hy & Hm & Hd).
  unfold date_text.
  destruct (fmt4_digits y) as (c1 & c2 & c3 & c4 & ? & ? & ? & ?
                               & -> & ? & ? & ? & ? & _); [lia|].
  destruct (fmt2_digits m) as (c5 & c6 & ? & ? & -> & ? & ? & _); [lia|].
  destruct (fmt2_digits d) as (c7 & c8 & ? & ? & -> & ? & ? & _); [lia|].
  cbn [app string_of_list_ascii contains_T]. digits_apart. reflexivity.
Qed.

Lemma contains_T_datetime_text (y m d h mi s : Z) :
  contains_T (datetime_text y m d h mi s) = true.
Proof.
  unfold datetime_text, fmt4, fmt2.
  cbn [app string_of_list_ascii contains_T].
  change (Ascii.eqb "T" "T") with true.
  now rewrite !orb_true_r.
Qed.

(** A text whose only Z is the last character. *)
Lemma replace_Z_last (l : chars) :
  forallb (fun c => negb (Ascii.eqb c "Z")) l = true ->
  replace_Z (string_of_list_ascii (l ++ ["Z"%char]))
  = string_of_list_ascii (l ++ list_ascii_of_string "+00:00").
Proof.
  induction l as [|c l IH]; intros H; [reflexivity|].
  simpl in H. apply andb_true_iff in H as [Hc Hl].
  cbn [app string_of_list_ascii replace_Z].
  apply negb_true_iff in Hc. rewrite Hc. now rewrite IH.
Qed.

Lemma fromisoformat_datetime_text (y m d h mi s : Z) :
  valid_date y m d = true -> valid_time h mi s 0 = true ->
  fromisoformat (replace_Z (datetime_text y m d h mi s))
  = Ok {| year := y; month := m; day := d; hour := h; minute := mi;
          second := s; microsecond := 0; tzinfo := Some 0 |}.
Proof.
  intros Hv Ht. pose proof (valid_date_bounds _ _ _ Hv) as (Hy & Hm & Hd).
  pose proof (valid_time_bounds _ _ _ Ht) as (Hh & Hmi & Hs).
  unfold datetime_text.
  destruct (fmt4_digits y) as (c1 & c2 & c3 & c4 & d1 & d2 & d3 & d4
                               & -> & H1 & H2 & H3 & H4 & Ey); [lia|].
  destruct (fmt2_digits m) as (c5 & c6 & d5 & d6 & -> & H5 & H6 & Em); [lia|].
  destruct (fmt2_digits d) as (c7 & c8 & d7 & d8 & -> & H7 & H8 & Ed); [lia|].
  destruct (fmt2_digits h) as (c9 & c10 & d9 & d10 & -> & H9 & H10 & Eh); [lia|].
  destruct (fmt2_digits mi) as (c11 & c12 & d11 & d12 & -> & H11 & H12 & Emi); [lia|].
  destruct (fmt2_digits s) as (c13 & c14 & d13 & d14 & -> & H13 & H14 & Es); [lia|].
  cbn [app].
  change [c1; c2; c3; c4; "-"; c5; c6; "-"; c7; c8; "T";
          c9; c10; ":"; c11; c12; ":"; c13; c14; "Z"]%char
    with ([c1; c2; c3; c4; "-"; c5; c6; "-"; c7; c8; "T";
           c9; c10; ":"; c11; c12; ":"; c13; c14]%char ++ ["Z"%char]).
  rewrite replace_Z_last
    by (cbn [forallb]; digits_apart; reflexivity).
  unfold fromisoformat. rewrite list_ascii_of_string_of_list_ascii.
  cbn [app list_ascii_of_string firstn skipn].
  unfold parse_isoformat_date.
  rewrite (int_of_4 _ _ _ _ _ _ _ _ H1 H2 H3 H4), (int_of_2 _ _ _ _ H5 H6),
    (int_of_2 _ _ _ _ H7 H8), <- Ey, <- Em, <- Ed.
  change (Ascii.eqb "-" "-") with true. cbn [andb bind].
  unfold parse_isoformat_time.
  change (Nat.ltb _ 2) with false. cbv iota.
  cbn [split_at]. digits_apart.
  change (Ascii.eqb ":" "-") with false.
  change (Ascii.eqb "+" "-") with false.
  change (Ascii.eqb "0" "-") with false.
  change (Ascii.eqb ":" "+") with false.
  change (Ascii.eqb "+" "+") with true.
  cbv iota. cbn [bind].
  unfold parse_hh_mm_ss_ff at 1.
  rewrite (int_of_2 _ _ _ _ H9 H10), (int_of_2 _ _ _ _ H11 H12),
    (int_of_2 _ _ _ _ H13 H14), <- Eh, <- Emi, <- Es.
  change (Ascii.eqb ":" ":") with true. cbn [negb bind].
  change (parse_offset 1 ["0"; "0"; ":"; "0"; "0"]%char) with (@Ok Z 0).
  cbn [bind]. unfold make. rewrite Hv, Ht. reflexivity.
Qed.

End DateTimeFacts.

(** ** Properties of a sync run *)

Module SyncProps.
Import Py PyFormat DateTime Sync JsonFacts TableFacts SyncFacts DateTimeFacts.

(** *** The made_on column *)

Lemma update_first_find {A} (matches : A -> bool) (row : A) (rows : list A) :
  matches row = true -> find matches rows <> None ->
  find matches (update_first matches row rows) = Some row.
Proof.
  intros Hrow. induction rows as [|x rows IH]; simpl; [congruence|].
  destruct (matches x) eqn:Hx; simpl.
  - now rewrite Hrow.
  - now rewrite Hx.
Qed.





(** *** The lookup of the account upsert *)



End SyncProps.

(* ================================================================== *)
(** * Invariants of a synchronisation run, for any remote *)

Module SyncInvariants.
Import Py PyFormat DateTime Sync JsonFacts TableFacts SyncFacts.

Section AnyRemote.

Variable R : Type.
Variable call : R -> request -> result json * R.

(** A step that only appends rows to the session, each the first of its
    remote id, and commits nothing. *)
Definition Appends {A} (m : M R A) : Prop :=
  forall w, ExtT (live (db w)) (live (db (snd (m w))))
            /\ saved (db (snd (m w))) = saved (db w).

Lemma appends_lift {A} (r : result A) : Appends (lift r).
Proof. intros w. split; [apply ExtT_refl | reflexivity]. Qed.

Lemma appends_fetch (q : request) : Appends (fetch call q).
Proof.
  intros w. unfold fetch. destruct (call (remote w) q) as [r r']. simpl.
  split; [apply ExtT_refl | reflexivity].
Qed.

Lemma appends_bind {A B} (m : M R A) (k : A -> M R B) :
  Appends m -> (forall a, Appends (k a)) -> Appends (bindM m k).
Proof.
  intros Hm Hk w. unfold bindM. specialize (Hm w).
  destruct (m w) as [[a|e] w1]; simpl in *; [|exact Hm].
  destruct Hm as [H1 H2]. destruct (Hk a w1) as [G1 G2].
  split; [eapply ExtT_trans; eauto | congruence].
Qed.

Lemma appends_sync_connection (data : json) (customer : Customer) :
  Appends (@_sync_connection R data customer).
Proof.
  intros w. rewrite sync_connection_unfold.
  destruct (getitem data "id") as [rid|e]; cbv zeta; cbn [fst snd];
    [|split; [apply ExtT_refl | reflexivity]].
  split; [|reflexivity]. unfold ExtT, tables, ckeys, akeys, tkeys.
  cbn [set_tables db live with_connections customers connections accounts transactions].
  repeat split; try apply Ext_refl.
  rewrite (upsert_keys ckey rid _ _ (assign_connection_key data)).
  now apply upserted_ext.
Qed.

Lemma appends_sync_account (data : json) (connection : Connection) :
  Appends (@_sync_account R data connection).
Proof.
  intros w. rewrite sync_account_unfold.
  destruct (getitem data "id") as [rid|e]; cbv zeta; cbn [fst snd];
    [|split; [apply ExtT_refl | reflexivity]].
  split; [|reflexivity]. unfold ExtT, tables, ckeys, akeys, tkeys.
  cbn [set_tables db live with_accounts customers connections accounts transactions].
  repeat split; try apply Ext_refl.
  rewrite (upsert_keys akey rid _ _ (assign_account_key data)).
  now apply upserted_ext.
Qed.

Lemma appends_sync_transaction (data : json) (account : Account) :
  Appends (@_sync_transaction R data account).
Proof.
  intros w. rewrite sync_transaction_unfold.
  destruct (getitem data "id") as [rid|e]; cbv zeta; cbn [fst snd];
    [|split; [apply ExtT_refl | reflexivity]].
  split; [|reflexivity]. unfold ExtT, tables, ckeys, akeys, tkeys.
  cbn [set_tables db live with_transactions customers connections accounts transactions].
  repeat split; try apply Ext_refl.
  rewrite (upsert_keys tkey rid _ _ (assign_transaction_key data)).
  now apply upserted_ext.
Qed.

Lemma appends_transactions_loop (items : list json) (account : Account) (n : Z) :
  Appends (@transactions_loop R items account n).
Proof.
  revert n. induction items as [|d items IH]; intros n; simpl.
  - apply (appends_lift (Ok n)).
  - apply appends_bind; [apply appends_sync_transaction | intros _; apply IH].
Qed.

Lemma appends_sync_transactions_for_account (rid aid : json) (connection : Connection) :
  Appends (_sync_transactions_for_account call rid aid connection).
Proof.
  intros w. rewrite sync_transactions_for_account_unfold.
  destruct (find _ _) as [account|].
  - unfold fetch_transactions.
    apply appends_bind; [apply appends_fetch | intros td].
    apply appends_bind; [apply appends_lift | intros items].
    apply appends_transactions_loop.
  - split; [apply ExtT_refl | reflexivity].
Qed.

Lemma appends_accounts_loop (items : list json) (rid : json) (connection : Connection)
    (counts : Z * Z) :
  Appends (accounts_loop call items rid connection counts).
Proof.
  revert counts. induction items as [|d items IH]; intros counts; simpl.
  - apply (appends_lift (Ok counts)).
  - apply appends_bind; [apply appends_sync_account | intros _].
    apply appends_bind; [apply appends_lift | intros aid].
    apply appends_bind; [apply appends_sync_transactions_for_account | intros n].
    apply IH.
Qed.

Lemma appends_accounts_of (connection_data : json) (customer : Customer) :
  Appends (accounts_of R call connection_data customer).
Proof.
  apply appends_bind; [apply appends_lift | intros rid].
  intros w. rewrite sync_accounts_for_connection_unfold.
  destruct (find _ _) as [connection|].
  - unfold fetch_accounts.
    apply appends_bind; [apply appends_fetch | intros ad].
    apply appends_bind; [apply appends_lift | intros items].
    apply appends_accounts_loop.
  - split; [apply ExtT_refl | reflexivity].
Qed.

(** The counters of a result never decrease along the loop, each
    connection adds one to connections_synced and at most one entry to
    errors. *)
Definition Counted (n : nat) (r r' : SyncResult) : Prop :=
  result_customer_id r' = result_customer_id r
  /\ connections_synced r <= connections_synced r'
     <= connections_synced r + Z.of_nat n
  /\ (length (errors r') + Z.to_nat (connections_synced r)
      <= length (errors r) + Z.to_nat (connections_synced r'))%nat
  /\ exists more, errors r' = errors r ++ more.

Lemma connections_loop_invariants (items : list json) (customer : Customer)
    (result : SyncResult) (w : World R) :
  0 <= connections_synced result ->
  let out := connections_loop call items customer result w in
  ExtT (live (db w)) (live (db (snd out)))
  /\ saved (db (snd out)) = saved (db w)
  /\ Counted (length items) result (snd (fst out))
  /\ (fst (fst out) = None ->
      connections_synced (snd (fst out))
      = connections_synced result + Z.of_nat (length items)).
Proof.
  revert result w. induction items as [|d items IH]; intros result w Hpos.
  - cbn [connections_loop fst snd length].
    split; [apply ExtT_refl|]. split; [reflexivity|]. split; [|intros _; lia].
    unfold Counted. repeat split; try lia. exists []. now rewrite app_nil_r.
  - cbv zeta. rewrite connections_loop_unfold. cbn [Datatypes.length].
    rewrite Nat2Z.inj_succ.
    pose proof (appends_sync_connection d customer w) as [G1 S1].
    destruct (_sync_connection d customer w) as [[[]|e] w1]; cbn [fst snd] in G1, S1.
    2:{ cbn [fst snd]. split; [exact G1|]. split; [exact S1|].
        split; [|discriminate].
        unfold Counted. repeat split; try lia. exists []. now rewrite app_nil_r. }
    pose proof (appends_accounts_of d customer w1) as [G2 S2].
    destruct (accounts_of R call d customer w1) as [[counts|e] w2]; cbn [fst snd] in G2, S2.
    + specialize (IH (add_counts (add_connection result) counts) w2).
      cbv zeta in IH. cbn [add_counts add_connection connections_synced] in IH.
      destruct IH as (G3 & S3 & (C0 & C1 & C2 & more & C3) & C4); [lia|].
      cbn [add_counts add_connection connections_synced errors result_customer_id] in *.
      split; [eapply ExtT_trans; [exact G1|]; eapply ExtT_trans; eauto|].
      split; [congruence|]. split.
      * unfold Counted. split; [exact C0|]. split; [lia|]. split; [lia|].
        now exists more.
      * intros Hn. rewrite (C4 Hn). cbn [length]. lia.
    + destruct (getitem d "id") as [rid|e'].
      * match goal with
        | |- context [connections_loop call items customer ?r w2] =>
            specialize (IH r w2)
        end.
        cbv zeta in IH. cbn [add_error add_connection connections_synced] in IH.
        destruct IH as (G3 & S3 & (C0 & C1 & C2 & more & C3) & C4); [lia|].
        cbn [add_error add_connection connections_synced errors result_customer_id] in *.
        rewrite length_app in C2. cbn [length] in C2.
        split; [eapply ExtT_trans; [exact G1|]; eapply ExtT_trans; eauto|].
        split; [congruence|]. split.
        -- unfold Counted. split; [exact C0|]. split; [lia|]. split; [lia|].
           rewrite C3, <- app_assoc. eexists. reflexivity.
        -- intros Hn. rewrite (C4 Hn). cbn [length]. lia.
      * cbn [fst snd add_connection connections_synced errors result_customer_id length].
        split; [eapply ExtT_trans; eauto|]. split; [congruence|]. split.
        -- unfold Counted.
           cbn [add_connection connections_synced errors result_customer_id].
           split; [reflexivity|]. split; [lia|]. split; [lia|].
           exists []. now rewrite app_nil_r.
        -- discriminate.
Qed.



(** The upsert of a connection item returns when the item has an id and
    each of its two timestamps is absent, empty or well formed. *)
Definition connection_ok (connection_data : json) : bool :=
  match getitem connection_data "id",
        snd (assign_connection connection_data (new_connection 0 JNull 0)) with
  | Ok _, Ok _ => true
  | _, _ => false
  end.

Lemma sync_connection_returns (d : json) (customer : Customer) (w : World R) :
  connection_ok d = true -> fst (_sync_connection d customer w) = Ok tt.
Proof.
  unfold connection_ok. intros Hok. rewrite sync_connection_unfold.
  destruct (getitem d "id") as [rid|e]; [|discriminate]. cbv zeta. cbn [fst].
  rewrite (upsert_outcome ckey rid _ _ (assign_connection_outcome d)).
  rewrite (assign_connection_outcome d _ (new_connection 0 JNull 0)).
  destruct (snd (assign_connection d (new_connection 0 JNull 0))) as [[]|e];
    [reflexivity | discriminate].
Qed.



(** The pass over the connections: rows are only appended, nothing is
    committed, at most one error entry is added per connection counted
    and one for the pass. *)
Lemma sync_connections_invariants (customer : Customer) (result : SyncResult)
    (w : World R) :
  connections_synced result = 0 -> errors result = [] ->
  let out := sync_connections call customer result w in
  ExtT (live (db w)) (live (db (snd out)))
  /\ saved (db (snd out)) = saved (db w)
  /\ result_customer_id (fst out) = result_customer_id result
  /\ 0 <= connections_synced (fst out)
  /\ (length (errors (fst out)) <= Z.to_nat (connections_synced (fst out)) + 1)%nat.
Proof.
  intros Hc He. cbv zeta. unfold sync_connections.
  pose proof (appends_fetch (ListConnections (saltedge_customer_id customer)) w) as [G1 S1].
  destruct (fetch call _ w) as [[cd|e] w1]; cbn [fst snd] in *.
  2:{ cbn [add_error errors connections_synced result_customer_id].
      rewrite Hc, He. cbn [app Datatypes.length Z.to_nat].
      split; [exact G1|]. split; [exact S1|]. split; [reflexivity|]. split; lia. }
  destruct (data_items cd) as [items|e]; cbn [fst snd].
  2:{ cbn [add_error errors connections_synced result_customer_id].
      rewrite Hc, He. cbn [app Datatypes.length Z.to_nat].
      split; [exact G1|]. split; [exact S1|]. split; [reflexivity|]. split; lia. }
  pose proof (connections_loop_invariants items customer result w1) as Hinv.
  cbv zeta in Hinv. destruct Hinv as (G2 & S2 & (C0 & C1 & C2 & _) & _); [lia|].
  rewrite Hc, He in *. cbn [Datatypes.length] in C2.
  destruct (connections_loop call items customer result w1) as [[[e|] r] w2];
    cbn [fst snd] in *.
  - cbn [add_error errors connections_synced result_customer_id].
    rewrite length_app. cbn [Datatypes.length].
    split; [eapply ExtT_trans; eauto|]. split; [congruence|].
    split; [exact C0|]. split; lia.
  - split; [eapply ExtT_trans; eauto|]. split; [congruence|].
    split; [exact C0|]. split; lia.
Qed.


(** What a run does when the customer is found. *)
Lemma sync_customer_data_found (customer_identifier : string) (customer : Customer)
    (w : World R) :
  find (fun c => String.eqb (identifier c) customer_identifier)
       (customers (live (db w))) = Some customer ->
  sync_customer_data call customer_identifier w =
  let out :=
    sync_connections call customer
      {| result_customer_id := customer_id customer; connections_synced := 0;
         accounts_synced := 0; transactions_synced := 0; errors := [] |} w in
  (Ok (fst out), {| db := commit (db (snd out)); remote := remote (snd out) |}).
Proof.
  intros Hfind. unfold sync_customer_data, sync_try. rewrite Hfind. cbv zeta.
  now destruct (sync_connections _ _ _ _).
Qed.

Lemma sync_customer_data_missing (customer_identifier : string) (w : World R) :
  find (fun c => String.eqb (identifier c) customer_identifier)
       (customers (live (db w))) = None ->
  sync_customer_data call customer_identifier w =
  (Raise (ValueError ("Customer with identifier " ++ customer_identifier ++ " not found")),
   {| db := rollback (db w); remote := remote w |}).
Proof.
  intros Hfind. unfold sync_customer_data, sync_try. now rewrite Hfind.
Qed.

(** A run that returns has deleted and re-keyed nothing: the customers
    are as before, and each table holds the rows it held, in their
    order, with their ids, remote ids and parents, followed by the rows
    the run added. *)
Theorem sync_only_appends (customer_identifier : string) (w w' : World R)
    (result : SyncResult) :
  sync_customer_data call customer_identifier w = (Ok result, w') ->
  customers (saved (db w')) = customers (live (db w))
  /\ Prefix (ckeys (live (db w))) (ckeys (saved (db w')))
  /\ Prefix (akeys (live (db w))) (akeys (saved (db w')))
  /\ Prefix (tkeys (live (db w))) (tkeys (saved (db w'))).
Proof.
  destruct (find (fun c => String.eqb (identifier c) customer_identifier)
                 (customers (live (db w)))) as [customer|] eqn:Hfind.
  - rewrite (sync_customer_data_found _ _ _ Hfind). cbv zeta.
    intros [= _ <-]. cbn [db commit saved].
    match goal with
    | |- context [sync_connections call customer ?r w] =>
        destruct (sync_connections_invariants customer r w eq_refl eq_refl)
          as ((H0 & H1 & H2 & H3) & _)
    end.
    repeat split; [congruence | now apply Ext_Prefix ..].
  - rewrite (sync_customer_data_missing _ _ Hfind). discriminate.
Qed.

(** A run ends with nothing pending in the session: what it did is
    committed when it returns; when it raises, the session is back at
    the last commit and no call was made.  The counters it returns are
    consistent: the key of the customer, and at most one error entry
    for each connection counted and one for the pass. *)
Theorem sync_ends_settled (customer_identifier : string) (w : World R) :
  let out := sync_customer_data call customer_identifier w in
  live (db (snd out)) = saved (db (snd out))
  /\ (forall e, fst out = Raise e ->
        saved (db (snd out)) = saved (db w) /\ remote (snd out) = remote w)
  /\ (forall result, fst out = Ok result ->
        0 <= connections_synced result
        /\ (length (errors result) <= Z.to_nat (connections_synced result) + 1)%nat).
Proof.
  cbv zeta.
  destruct (find (fun c => String.eqb (identifier c) customer_identifier)
                 (customers (live (db w)))) as [customer|] eqn:Hfind.
  - rewrite (sync_customer_data_found _ _ _ Hfind). cbv zeta. cbn [fst snd db commit live saved].
    split; [reflexivity|]. split; [discriminate|].
    intros result [= <-].
    match goal with
    | |- context [sync_connections call customer ?r w] =>
        destruct (sync_connections_invariants customer r w eq_refl eq_refl)
          as (_ & _ & _ & H3 & H4)
    end.
    now split.
  - rewrite (sync_customer_data_missing _ _ Hfind). cbn [fst snd db rollback live saved remote].
    split; [reflexivity|]. split; [now split | discriminate].
Qed.

(** When listing the connections fails, the run still returns: the
    counters are zero, the one error entry carries the text of the
    exception, no row changes and the session is committed as it was. *)
Theorem connections_outage_reported (customer_identifier : string)
    (customer : Customer) (w : World R) (e : exn) (r' : R) :
  find (fun c => String.eqb (identifier c) customer_identifier)
       (customers (live (db w))) = Some customer ->
  call (remote w) (ListConnections (saltedge_customer_id customer)) = (Raise e, r') ->
  sync_customer_data call customer_identifier w =
  (Ok {| result_customer_id := customer_id customer; connections_synced := 0;
         accounts_synced := 0; transactions_synced := 0;
         errors := [("Error syncing connections: " ++ str_exn e)%string] |},
   {| db := commit (db w); remote := r' |}).
Proof.
  intros Hfind Hcall. rewrite (sync_customer_data_found _ _ _ Hfind). cbv zeta.
  unfold sync_connections, fetch. rewrite Hcall. reflexivity.
Qed.

(** An account stored under another connection: when the pass over a
    connection meets its remote id, the upsert finds that row and leaves
    its binding, the lookup by remote id and connection that follows
    finds nothing, and the pass stops there with a ValueError, before
    any transaction is fetched. *)
Theorem account_bound_elsewhere_stops_pass (account_data rid scid : json)
    (rest : list json) (connection : Connection) (counts : Z * Z) (w : World R) :
  getitem account_data "id" = Ok rid ->
  has rid (akeys (live (db w))) = true ->
  find (bound_to rid (connection_id connection)) (akeys (live (db w))) = None ->
  exists w',
    accounts_loop call (account_data :: rest) scid connection counts w
    = (Raise (ValueError ("Account " ++ str rid ++ " not found in database")), w')
    /\ akeys (live (db w')) = akeys (live (db w))
    /\ tkeys (live (db w')) = tkeys (live (db w))
    /\ remote w' = remote w.
Proof.
  intros Hid Hhas Hnone. cbn [accounts_loop]. unfold bindM at 1.
  rewrite sync_account_unfold, Hid. cbv zeta.
  rewrite (upsert_outcome akey rid _ _ (assign_account_outcome account_data)).
  cbn [assign_account snd]. unfold bindM at 1. unfold lift at 1.
  unfold bindM at 1. rewrite sync_transactions_for_account_unfold.
  unfold tables. cbn [set_tables db live with_accounts accounts].
  match goal with
  | |- context [find ?p (fst ?up)] =>
      assert (Hkeys : map akey (fst up) = akeys (live (db w)));
      [|assert (Hfind : find p (fst up) = None)]
  end.
  - unfold tables. rewrite (upsert_keys akey rid _ _ (assign_account_key account_data)).
    unfold upserted, akeys in *. now rewrite Hhas.
  - pose proof (find_map akey (bound_to rid (connection_id connection))
                  (fst (upsert (fun x => json_eqb (krid (akey x)) rid)
                          (new_account (next_id (map account_id (accounts (tables R w))))
                             rid (connection_id connection))
                          (assign_account account_data) (accounts (tables R w))))) as Hm.
    unfold tables in Hm. rewrite Hkeys, Hnone in Hm.
    match goal with |- ?f = None => destruct f; [discriminate | reflexivity] end.
  - rewrite Hfind. eexists. split; [reflexivity|].
    unfold akeys, tkeys. cbn [set_tables db live with_accounts accounts transactions remote].
    split; [exact Hkeys|]. split; reflexivity.
Qed.

End AnyRemote.

(** ** Three connections, the second without its accounts *)

Module ThreeConnections.

Definition items : list json :=
  [Scenario.obj_id "conn_1" [("provider_code", JStr "fake_bank")];
   Scenario.obj_id "conn_2" [("provider_code", JStr "fake_bank")];
   Scenario.obj_id "conn_3" [("provider_code", JStr "fake_bank")]].

(** The accounts of conn_2 cannot be listed. *)
Definition aggregator (_ : unit) (q : request) : result json * unit :=
  (match q with
   | ListConnections "cust_1" => Ok (Scenario.data items)
   | ListAccounts (JStr "conn_1") =>
       Ok (Scenario.data [Scenario.obj_id "acc_1" [("name", JStr "Current")]])
   | ListAccounts (JStr "conn_3") =>
       Ok (Scenario.data [Scenario.obj_id "acc_3" [("name", JStr "Savings")]])
   | ListTransactions (JStr _) (JStr a) => Ok (Scenario.data (Scenario.transactions_of a))
   | _ => Raise (ClientError "503 Server Error: Service Unavailable")
   end, tt).

(** Nothing can be listed. *)
Definition outage (_ : unit) (_ : request) : result json * unit :=
  (Raise (ClientError "503 Server Error: Service Unavailable"), tt).

(** The run over the three connections: one error entry, for conn_2. *)
Example second_connection_isolated :
  fst (sync_customer_data aggregator "alice" Scenario.start)
  = Ok {| result_customer_id := 1; connections_synced := 3;
          accounts_synced := 2; transactions_synced := 6;
          errors := ["Error syncing accounts for connection conn_2: 503 Server Error: Service Unavailable"] |}.
Proof. vm_compute. reflexivity. Qed.

End ThreeConnections.

Lemma sync_only_appends_witness :
  let w := snd (sync_customer_data Scenario.aggregator "alice" Scenario.start) in
  let w' := snd (sync_customer_data ThreeConnections.aggregator "alice" w) in
  customers (saved (db w')) = customers (live (db w))
  /\ Prefix (ckeys (live (db w))) (ckeys (saved (db w')))
  /\ Prefix (akeys (live (db w))) (akeys (saved (db w')))
  /\ Prefix (tkeys (live (db w))) (tkeys (saved (db w'))).
Proof.
  cbv zeta.
  apply (sync_only_appends unit ThreeConnections.aggregator "alice" _ _
           {| result_customer_id := 1; connections_synced := 3;
              accounts_synced := 2; transactions_synced := 6;
              errors := ["Error syncing accounts for connection conn_2: 503 Server Error: Service Unavailable"] |}).
  vm_compute. reflexivity.
Defined.

Lemma connections_outage_reported_witness :
  sync_customer_data ThreeConnections.outage "alice" Scenario.start =
  (Ok {| result_customer_id := 1; connections_synced := 0;
         accounts_synced := 0; transactions_synced := 0;
         errors := ["Error syncing connections: 503 Server Error: Service Unavailable"] |},
   {| db := commit (db Scenario.start); remote := tt |}).
Proof.
  apply (connections_outage_reported unit ThreeConnections.outage "alice"
           Scenario.alice Scenario.start
           (ClientError "503 Server Error: Service Unavailable") tt);
    reflexivity.
Defined.

Lemma account_bound_elsewhere_stops_pass_witness :
  let w := snd (sync_customer_data Scenario.aggregator "alice" Scenario.start) in
  exists w',
    accounts_loop Scenario.aggregator [Scenario.obj_id "acc_1" []] (JStr "conn_7")
                  (new_connection 7 (JStr "conn_7") 1) (0, 0) w
    = (Raise (ValueError "Account acc_1 not found in database"), w')
    /\ akeys (live (db w')) = akeys (live (db w))
    /\ tkeys (live (db w')) = tkeys (live (db w))
    /\ remote w' = remote w.
Proof.
  cbv zeta.
  apply (account_bound_elsewhere_stops_pass unit Scenario.aggregator
           (Scenario.obj_id "acc_1" []) (JStr "acc_1") (JStr "conn_7") []
           (new_connection 7 (JStr "conn_7") 1) (0, 0)).
  - reflexivity.
  - vm_compute. reflexivity.
  - vm_compute. reflexivity.
Defined.

End SyncInvariants.

(** ** Payloads *)

Module Payloads.
Import Py PyFormat DateTime Sync.

(** A timestamp that every version of [fromisoformat] reads alike:
    none (the key is absent or its value is falsy), or the text
    YYYY-MM-DDTHH:MM:SSZ of a valid date and time. *)
Definition timestamp (v : json) : Prop :=
  truthy v = false
  \/ exists y m d h mi s,
       valid_date y m d = true /\ valid_time h mi s 0 = true
       /\ v = JStr (datetime_text y m d h mi s).

(** A connection of the API under the id [rid], a text. *)
Definition connection_item (d : json) (rid : string) : Prop :=
  getitem d "id" = Ok (JStr rid)
  /\ timestamp (field d "last_success_at")
  /\ timestamp (field d "next_refresh_possible_at").


(** The result dict before the connections are synced. *)
Definition initial (customer : Customer) : SyncResult :=
  {| result_customer_id := customer_id customer; connections_synced := 0;
     accounts_synced := 0; transactions_synced := 0; errors := [] |}.

End Payloads.

Module CheckedRun.
Import Py PyFormat Sync Payloads.

Section AnyRemote.

Variable R : Type.
Variable call : R -> request -> result json * R.



End AnyRemote.
End CheckedRun.

Module SyncCommit.
Import Py PyFormat DateTime Sync JsonFacts TableFacts SyncFacts DateTimeFacts Payloads.

Lemma timestamp_parses (v : json) :
  timestamp v -> truthy v = true -> exists dt, parse_timestamp v = Ok dt.
Proof.
  intros [Hf|(y & m & d & h & mi & s & Hd & Ht & ->)] Htr; [congruence|].
  eexists. unfold parse_timestamp. now apply fromisoformat_datetime_text.
Qed.

Lemma connection_item_ok (d : json) (rid : string) :
  connection_item d rid -> SyncInvariants.connection_ok d = true.
Proof.
  intros (Hid & H1 & H2). unfold SyncInvariants.connection_ok. rewrite Hid.
  unfold assign_connection.
  destruct (truthy (field d "last_success_at")) eqn:T1.
  - destruct (timestamp_parses _ H1 T1) as [dt1 ->].
    destruct (truthy (field d "next_refresh_possible_at")) eqn:T2; [|reflexivity].
    now destruct (timestamp_parses _ H2 T2) as [dt2 ->].
  - destruct (truthy (field d "next_refresh_possible_at")) eqn:T2; [|reflexivity].
    now destruct (timestamp_parses _ H2 T2) as [dt2 ->].
Qed.

Section AnyRemote.

Variable R : Type.
Variable call : R -> request -> result json * R.










End AnyRemote.

(** A bank that lists one connection without a provider code. *)
Definition unnamed_provider (_ : unit) (q : request) : result json * unit :=
  (match q with
   | ListConnections "cust_1" => Ok (Scenario.data [Scenario.obj_id "conn_1" []])
   | ListAccounts _ => Ok (Scenario.data [])
   | _ => Raise (ClientError "404 Client Error: Not Found")
   end, tt).


(** The run of the design document on the database: the commit is
    accepted and the run returns. *)
Example alice_sync_accepted :
  fst (Store.sync_customer_data Scenario.aggregator "alice" Scenario.start)
  = Ok {| result_customer_id := 1; connections_synced := 1;
          accounts_synced := 2; transactions_synced := 6; errors := [] |}.
Proof. vm_compute. reflexivity. Qed.

End SyncCommit.

(** ** Two runs over unchanged remote data *)

Module SyncTwice.
Import Py PyFormat DateTime Sync JsonFacts TableFacts SyncFacts.

Lemma has_ExtT (t u : Tables) (rid : json) :
  ExtT t u ->
  (has rid (ckeys t) = true -> has rid (ckeys u) = true)
  /\ (has rid (akeys t) = true -> has rid (akeys u) = true)
  /\ (has rid (tkeys t) = true -> has rid (tkeys u) = true).
Proof.
  intros (_ & Hc & Ha & Ht).
  repeat split; intros H; eapply has_prefix; eauto using Ext_Prefix.
Qed.

(** An upsert on a table that holds the remote id: the row found is
    replaced by the row assigned to, where it stands. *)
Lemma upsert_in_place {A} (matches : A -> bool) (fresh : A)
    (assign : A -> A * result unit) (rows : list A) (old : A) :
  find matches rows = Some old ->
  matches (fst (assign old)) = true ->
  let rows' := fst (upsert matches fresh assign rows) in
  rows' = update_first matches (fst (assign old)) rows
  /\ find matches rows' = Some (fst (assign old))
  /\ length rows' = length rows.
Proof.
  intros Hfind Hm. cbv zeta. unfold upsert. rewrite Hfind.
  destruct (assign old) as [obj r]. cbn [fst] in *.
  split; [reflexivity|]. split.
  - apply SyncProps.update_first_find; [exact Hm | congruence].
  - clear Hfind. induction rows as [|x rows IH]; [reflexivity|].
    cbn [update_first]. destruct (matches x); cbn [length]; congruence.
Qed.

(** The assignments overwrite the descriptive columns from the payload,
    whether or not a timestamp stops them. *)
Lemma assign_connection_columns (d : json) (c : Connection) :
  exists ls nr,
    fst (assign_connection d c)
    = {| connection_id := connection_id c;
         saltedge_connection_id := saltedge_connection_id c;
         connection_customer_id := connection_customer_id c;
         provider_code := field d "provider_code";
         provider_name := field d "provider_name";
         country_code := field d "country_code";
         connection_status := field d "status";
         categorization := field d "categorization";
         show_consent_confirmation :=
           field_default d "show_consent_confirmation" (JBool false);
         custom_fields := field d "custom_fields";
         last_success_at := ls;
         next_refresh_possible_at := nr |}.
Proof.
  unfold assign_connection.
  destruct (truthy (field d "last_success_at"));
    [destruct (parse_timestamp (field d "last_success_at"))|];
    try (destruct (truthy (field d "next_refresh_possible_at"));
         [destruct (parse_timestamp (field d "next_refresh_possible_at"))|]);
    cbn [fst]; eexists; eexists; reflexivity.
Qed.

Lemma assign_transaction_columns (d : json) (t : Transaction) :
  exists m,
    fst (assign_transaction d t)
    = {| transaction_id := transaction_id t;
         saltedge_transaction_id := saltedge_transaction_id t;
         transaction_account_id := transaction_account_id t;
         mode := field d "mode";
         transaction_status := field d "status";
         amount := field d "amount";
         transaction_currency_code := field d "currency_code";
         description := field d "description";
         category := field d "category";
         category_code := field d "category_code";
         duplicated := field_default d "duplicated" (JBool false);
         transaction_extra := field d "extra";
         made_on := m |}.
Proof.
  unfold assign_transaction.
  destruct (truthy (field d "made_on")); [destruct (parse_made_on _)|];
    cbn [fst]; eexists; reflexivity.
Qed.

Section Runs.

Variable R : Type.
Variable call : R -> request -> result json * R.

(** The remote data does not change: a call leaves the aggregator as it
    was. *)
Hypothesis unchanged : forall r q, snd (call r q) = r.

(** Every connection the API lists for the customer, every account it
    lists for such a connection and every transaction it lists for such
    an account is stored in [t] under its remote id. *)
Definition listed_stored (customer : Customer) (r : R) (t : Tables) : Prop :=
  forall resp items,
    fst (call r (ListConnections (saltedge_customer_id customer))) = Ok resp ->
    data_items resp = Ok items ->
    forall d rid, In d items -> getitem d "id" = Ok rid ->
      has rid (ckeys t) = true
      /\ forall aresp aitems,
           fst (call r (ListAccounts rid)) = Ok aresp ->
           data_items aresp = Ok aitems ->
           forall ad aid, In ad aitems -> getitem ad "id" = Ok aid ->
             has aid (akeys t) = true
             /\ forall tresp titems,
                  fst (call r (ListTransactions rid aid)) = Ok tresp ->
                  data_items tresp = Ok titems ->
                  forall td tid, In td titems -> getitem td "id" = Ok tid ->
                    has tid (tkeys t) = true.

Lemma transactions_loop_stored (items : list json) (account : Account) (n m : Z)
    (w w' : World R) :
  transactions_loop items account n w = (Ok m, w') ->
  forall td tid, In td items -> getitem td "id" = Ok tid ->
    has tid (tkeys (live (db w'))) = true.
Proof.
  revert n w. induction items as [|x items IH]; intros n w Hrun td tid Hin Hid;
    [destruct Hin|].
  cbn [transactions_loop] in Hrun. unfold bindM in Hrun.
  pose proof (sync_transaction_present R x account w) as Hpres.
  destruct (_sync_transaction x account w) as [[[]|e] w1]; [|discriminate].
  cbn [snd] in Hpres. unfold tables in Hpres.
  destruct Hin as [<-|Hin]; [|now apply (IH _ _ Hrun td)].
  pose proof (grow_transactions_loop R items account (n + 1) w1) as [Hext _].
  rewrite Hrun in Hext. cbn [snd] in Hext. unfold tables in Hext.
  apply (has_ExtT _ _ tid Hext). now apply Hpres.
Qed.

Lemma transactions_pass_stored (rid aid : json) (connection : Connection) (n : Z)
    (w w' : World R) :
  _sync_transactions_for_account call rid aid connection w = (Ok n, w') ->
  forall tresp titems,
    fst (call (remote w) (ListTransactions rid aid)) = Ok tresp ->
    data_items tresp = Ok titems ->
    forall td tid, In td titems -> getitem td "id" = Ok tid ->
      has tid (tkeys (live (db w'))) = true.
Proof.
  unfold _sync_transactions_for_account. intros Hrun tresp titems Hcall Hdata.
  destruct (find _ (accounts (live (db w)))) as [account|]; [|discriminate].
  unfold bindM at 1, fetch in Hrun.
  destruct (call (remote w) (ListTransactions rid aid)) as [r r'].
  cbn [fst] in Hcall. subst r. unfold bindM at 1, lift in Hrun. rewrite Hdata in Hrun.
  exact (transactions_loop_stored titems account 0 n _ w' Hrun).
Qed.

Lemma accounts_loop_stored (items : list json) (rid : json) (connection : Connection)
    (counts c : Z * Z) (w w' : World R) :
  accounts_loop call items rid connection counts w = (Ok c, w') ->
  forall ad aid, In ad items -> getitem ad "id" = Ok aid ->
    has aid (akeys (live (db w'))) = true
    /\ forall tresp titems,
         fst (call (remote w) (ListTransactions rid aid)) = Ok tresp ->
         data_items tresp = Ok titems ->
         forall td tid, In td titems -> getitem td "id" = Ok tid ->
           has tid (tkeys (live (db w'))) = true.
Proof.
  revert counts w. induction items as [|x items IH]; intros counts w Hrun ad aid Hin Hid;
    [destruct Hin|].
  cbn [accounts_loop] in Hrun. unfold bindM at 1 in Hrun.
  pose proof (sync_account_present R x connection w) as Hpres.
  pose proof (grow_sync_account R x connection w) as [_ Hr1].
  destruct (_sync_account x connection w) as [[[]|e] w1]; [|discriminate].
  cbn [snd] in Hpres, Hr1. unfold tables in Hpres.
  unfold bindM at 1, lift at 1 in Hrun.
  destruct (getitem x "id") as [xid|e] eqn:Hx; [|discriminate].
  unfold bindM at 1 in Hrun.
  pose proof (transactions_pass_stored rid xid connection) as Hpass.
  pose proof (grow_sync_transactions_for_account R call unchanged rid xid connection w1)
    as [Hext2 Hr2].
  destruct (_sync_transactions_for_account call rid xid connection w1)
    as [[n|e] w2] eqn:Hp; [|discriminate].
  cbn [snd] in Hext2, Hr2. unfold tables in Hext2.
  pose proof (grow_accounts_loop R call unchanged items rid connection
                (fst counts + 1, snd counts + n) w2) as [Hext3 _].
  rewrite Hrun in Hext3. cbn [snd] in Hext3. unfold tables in Hext3.
  destruct Hin as [<-|Hin].
  - rewrite Hid in Hx. injection Hx as <-. split.
    + apply (has_ExtT _ _ aid Hext3). apply (has_ExtT _ _ aid Hext2). now apply Hpres.
    + intros tresp titems Hcall Hdata td tid Htd Htid.
      apply (has_ExtT _ _ tid Hext3).
      apply (Hpass n w1 w2 Hp tresp titems) with (td := td); try assumption.
      now rewrite Hr1.
  - destruct (IH _ _ Hrun ad aid Hin Hid) as [Ha Ht]. split; [exact Ha|].
    intros tresp titems Hcall. apply Ht. now rewrite Hr2, Hr1.
Qed.

Lemma accounts_pass_stored (rid : json) (customer : Customer) (c : Z * Z)
    (w w' : World R) :
  _sync_accounts_for_connection call rid customer w = (Ok c, w') ->
  forall aresp aitems,
    fst (call (remote w) (ListAccounts rid)) = Ok aresp ->
    data_items aresp = Ok aitems ->
    forall ad aid, In ad aitems -> getitem ad "id" = Ok aid ->
      has aid (akeys (live (db w'))) = true
      /\ forall tresp titems,
           fst (call (remote w) (ListTransactions rid aid)) = Ok tresp ->
           data_items tresp = Ok titems ->
           forall td tid, In td titems -> getitem td "id" = Ok tid ->
             has tid (tkeys (live (db w'))) = true.
Proof.
  unfold _sync_accounts_for_connection. intros Hrun aresp aitems Hcall Hdata.
  destruct (find _ (connections (live (db w)))) as [connection|]; [|discriminate].
  unfold bindM at 1, fetch in Hrun.
  pose proof (unchanged (remote w) (ListAccounts rid)) as Hsame.
  destruct (call (remote w) (ListAccounts rid)) as [r r'].
  cbn [fst snd] in Hcall, Hsame. subst r r'.
  unfold bindM at 1, lift in Hrun. rewrite Hdata in Hrun.
  intros ad aid Hin Hid.
  apply (accounts_loop_stored aitems rid connection (0, 0) c _ w' Hrun ad aid Hin Hid).
Qed.

Lemma connections_loop_stored (items : list json) (customer : Customer)
    (result result' : SyncResult) (w w' : World R) :
  0 <= connections_synced result ->
  connections_loop call items customer result w = (None, result', w') ->
  errors result' = errors result ->
  forall d rid, In d items -> getitem d "id" = Ok rid ->
    has rid (ckeys (live (db w'))) = true
    /\ forall aresp aitems,
         fst (call (remote w) (ListAccounts rid)) = Ok aresp ->
         data_items aresp = Ok aitems ->
         forall ad aid, In ad aitems -> getitem ad "id" = Ok aid ->
           has aid (akeys (live (db w'))) = true
           /\ forall tresp titems,
                fst (call (remote w) (ListTransactions rid aid)) = Ok tresp ->
                data_items tresp = Ok titems ->
                forall td tid, In td titems -> getitem td "id" = Ok tid ->
                  has tid (tkeys (live (db w'))) = true.
Proof.
  revert result w. induction items as [|x items IH];
    intros result w Hpos Hrun Herr d rid Hin Hid; [destruct Hin|].
  rewrite connections_loop_unfold in Hrun.
  pose proof (sync_connection_present R x customer w) as Hpres.
  pose proof (grow_sync_connection R x customer w) as [_ Hr1].
  pose proof (sync_connection_unfold R x customer w) as Hunf.
  destruct (_sync_connection x customer w) as [[[]|e] w1]; [|discriminate].
  cbn [snd] in Hpres, Hr1. unfold tables in Hpres.
  destruct (getitem x "id") as [xid|e] eqn:Hx; [clear Hunf | discriminate].
  unfold accounts_of, bindM, lift in Hrun. rewrite Hx in Hrun.
  pose proof (accounts_pass_stored xid customer) as Hpass.
  pose proof (grow_sync_accounts_for_connection R call unchanged xid customer w1)
    as [Hext2 Hr2].
  destruct (_sync_accounts_for_connection call xid customer w1)
    as [[counts|e] w2] eqn:Hp; cbn [snd] in Hext2, Hr2; unfold tables in Hext2.
  - pose proof (grow_connections_loop R call unchanged items customer
                  (add_counts (add_connection result) counts) w2) as [Hext3 _].
    rewrite Hrun in Hext3. cbn [snd] in Hext3. unfold tables in Hext3.
    destruct Hin as [<-|Hin].
    + rewrite Hid in Hx. injection Hx as <-. split.
      * apply (has_ExtT _ _ rid Hext3). apply (has_ExtT _ _ rid Hext2).
        now apply Hpres.
      * intros aresp aitems Hcall Hdata ad aid Had Haid.
        destruct (Hpass counts w1 w2 Hp aresp aitems) with (ad := ad) (aid := aid)
          as [Ha Ht]; try assumption; [now rewrite Hr1|].
        split; [now apply (has_ExtT _ _ aid Hext3)|].
        intros tresp titems Hc Hd td tid Htd Htid.
        apply (has_ExtT _ _ tid Hext3).
        apply (Ht tresp titems) with (td := td); try assumption. now rewrite Hr1.
    + assert (Hpos' : 0 <= connections_synced
                             (add_counts (add_connection result) counts))
        by (cbn [add_counts add_connection connections_synced]; lia).
      destruct (IH _ _ Hpos' Hrun Herr d rid Hin Hid) as [Hc Ha].
      split; [exact Hc|]. intros aresp aitems Hcall Hdata ad aid Had Haid.
      destruct (Ha aresp aitems) with (ad := ad) (aid := aid) as [H1 H2];
        try assumption; [now rewrite Hr2, Hr1|].
      split; [exact H1|]. intros tresp titems Hc'. apply H2. now rewrite Hr2, Hr1.
  - exfalso.
    match type of Hrun with
    | connections_loop call items customer ?r w2 = _ =>
        pose proof (SyncInvariants.connections_loop_invariants R call items customer r w2)
          as Hinv
    end.
    cbv zeta in Hinv. rewrite Hrun in Hinv. cbn [fst snd] in Hinv.
    destruct Hinv as (_ & _ & (_ & _ & _ & more & Hm) & _);
      [cbn [add_error add_connection connections_synced]; lia|].
    cbn [add_error add_connection errors] in Hm. rewrite Herr in Hm.
    apply (f_equal (@length string)) in Hm. rewrite !length_app in Hm.
    cbn [length] in Hm. lia.
Qed.

(** After a run that returned without errors, what the API lists is
    stored. *)
Lemma clean_run_stored (customer_identifier : string) (customer : Customer)
    (w0 w1 : World R) (result1 : SyncResult) :
  find (fun c => String.eqb (identifier c) customer_identifier)
       (customers (live (db w0))) = Some customer ->
  sync_customer_data call customer_identifier w0 = (Ok result1, w1) ->
  errors result1 = [] ->
  listed_stored customer (remote w0) (saved (db w1)).
Proof.
  intros Hfind Hrun Herr.
  rewrite (SyncInvariants.sync_customer_data_found R call _ _ _ Hfind) in Hrun.
  cbv zeta in Hrun. unfold sync_connections in Hrun.
  intros resp items Hcall Hdata d rid Hin Hid.
  unfold fetch in Hrun.
  pose proof (unchanged (remote w0) (ListConnections (saltedge_customer_id customer)))
    as Hsame.
  destruct (call (remote w0) _) as [r r']. cbn [fst snd] in Hcall, Hsame. subst r r'.
  rewrite Hdata in Hrun.
  match type of Hrun with
  | context [connections_loop call items customer ?r ?w] =>
      pose proof (connections_loop_stored items customer r) as Hloop;
      destruct (connections_loop call items customer r w) as [[o r'] w2] eqn:Hl
  end.
  destruct o as [e|]; cbn [fst snd] in Hrun; injection Hrun as <- <-.
  - cbn [add_error errors] in Herr. now destruct (errors r').
  - cbn [db commit saved].
    apply (Hloop r' _ w2 (Z.le_refl 0) Hl Herr d rid Hin Hid).
Qed.

(** C4. Two full syncs in a row over unchanged remote data.  The second
    run returns what the first returned (the same counters, which need
    not be zero, and the same errors) and leaves in storage the rows of
    the first run, each under its surrogate key, remote id and parent,
    so the row totals are those after the first run.  The rows are
    there to be found: after a first run without errors every
    connection, account and transaction the API lists is stored under
    its remote id.  And an upsert of a connection, an account or a
    transaction whose remote id is stored adds no row: the row found
    keeps its place and its keys, and its descriptive columns are those
    of the payload. *)
Theorem sync_twice_same_rows (customer_identifier : string) (w0 w1 : World R)
    (result1 : SyncResult) :
  sync_customer_data call customer_identifier w0 = (Ok result1, w1) ->
  (exists w2,
     sync_customer_data call customer_identifier w1 = (Ok result1, w2)
     /\ SameT (saved (db w2)) (saved (db w1))
     /\ row_totals (saved (db w2)) = row_totals (saved (db w1)))
  /\ (exists customer,
        find (fun c => String.eqb (identifier c) customer_identifier)
             (customers (live (db w0))) = Some customer
        /\ (errors result1 = [] ->
            listed_stored customer (remote w0) (saved (db w1))))
  /\ (forall connection_data rid customer (w : World R) old,
        getitem connection_data "id" = Ok rid ->
        find (fun c => json_eqb (saltedge_connection_id c) rid)
             (connections (live (db w))) = Some old ->
        let t' := live (db (snd (_sync_connection connection_data customer w))) in
        length (connections t') = length (connections (live (db w)))
        /\ ckeys t' = ckeys (live (db w))
        /\ exists new,
             find (fun c => json_eqb (saltedge_connection_id c) rid) (connections t')
             = Some new
             /\ ckey new = ckey old
             /\ provider_code new = field connection_data "provider_code"
             /\ provider_name new = field connection_data "provider_name"
             /\ country_code new = field connection_data "country_code"
             /\ connection_status new = field connection_data "status"
             /\ categorization new = field connection_data "categorization"
             /\ show_consent_confirmation new
                = field_default connection_data "show_consent_confirmation" (JBool false)
             /\ custom_fields new = field connection_data "custom_fields")
  /\ (forall account_data rid connection (w : World R) old,
        getitem account_data "id" = Ok rid ->
        find (fun a => json_eqb (saltedge_account_id a) rid)
             (accounts (live (db w))) = Some old ->
        let t' := live (db (snd (_sync_account account_data connection w))) in
        length (accounts t') = length (accounts (live (db w)))
        /\ akeys t' = akeys (live (db w))
        /\ find (fun a => json_eqb (saltedge_account_id a) rid) (accounts t')
           = Some {| account_id := account_id old;
                     saltedge_account_id := saltedge_account_id old;
                     account_connection_id := account_connection_id old;
                     name := field account_data "name";
                     nature := field account_data "nature";
                     balance := field account_data "balance";
                     account_currency_code := field account_data "currency_code";
                     iban := field account_data "iban";
                     swift := field account_data "swift";
                     sort_code := field account_data "sort_code";
                     account_number := field account_data "account_number";
                     account_extra := field account_data "extra" |})
  /\ (forall transaction_data rid account (w : World R) old,
        getitem transaction_data "id" = Ok rid ->
        find (fun x => json_eqb (saltedge_transaction_id x) rid)
             (transactions (live (db w))) = Some old ->
        let t' := live (db (snd (_sync_transaction transaction_data account w))) in
        length (transactions t') = length (transactions (live (db w)))
        /\ tkeys t' = tkeys (live (db w))
        /\ exists new,
             find (fun x => json_eqb (saltedge_transaction_id x) rid) (transactions t')
             = Some new
             /\ tkey new = tkey old
             /\ mode new = field transaction_data "mode"
             /\ transaction_status new = field transaction_data "status"
             /\ amount new = field transaction_data "amount"
             /\ transaction_currency_code new = field transaction_data "currency_code"
             /\ description new = field transaction_data "description"
             /\ category new = field transaction_data "category"
             /\ category_code new = field transaction_data "category_code"
             /\ duplicated new
                = field_default transaction_data "duplicated" (JBool false)
             /\ transaction_extra new = field transaction_data "extra").
Proof.
  intros Hrun. split; [|split; [|split; [|split]]].
  - unfold sync_customer_data, sync_try in *.
    destruct (find _ (customers (live (db w0)))) as [customer|] eqn:Hc;
      [|discriminate].
    match type of Hrun with
    | context [sync_connections call customer ?r w0] => set (result0 := r) in *
    end.
    pose proof (grow_sync_connections R call unchanged customer result0 w0) as [G Gr].
    pose proof (stable_sync_connections R call unchanged customer result0 w0) as Hst.
    destruct (sync_connections call customer result0 w0) as [r wa].
    simpl in *. injection Hrun as -> <-. simpl.
    destruct G as (Gc & G').
    unfold tables in Gc. rewrite <- Gc, Hc. fold result0.
    specialize (Hst {| db := commit (db wa); remote := remote wa |}).
    destruct Hst as [Hf Hs].
    { split; [simpl; congruence|]. split; [exact Gc | exact G']. }
    { apply PrefT_refl. }
    destruct (sync_connections call customer result0 _) as [r2 u2].
    simpl in *. subst r2. eexists. split; [reflexivity|]. simpl.
    destruct Hs as [_ Hs]. split; [exact Hs | now apply SameT_totals].
  - destruct (find (fun c => String.eqb (identifier c) customer_identifier)
                   (customers (live (db w0)))) as [customer|] eqn:Hfind.
    + exists customer. split; [reflexivity|]. intros Herr.
      now apply (clean_run_stored customer_identifier customer w0 w1 result1).
    + rewrite (SyncInvariants.sync_customer_data_missing R call _ _ Hfind) in Hrun.
      discriminate.
  - intros d rid customer w old Hid Hfind. cbv zeta.
    rewrite sync_connection_unfold, Hid. cbv zeta. cbn [snd].
    unfold set_tables, with_connections, tables, ckeys. cbn [db live connections].
    pose proof (assign_connection_key d old) as Hkey.
    destruct (upsert_in_place (fun c => json_eqb (krid (ckey c)) rid)
                (new_connection (next_id (map connection_id (connections (live (db w)))))
                                rid (customer_id customer))
                (assign_connection d) (connections (live (db w))) old Hfind)
      as (Hrows & Hnew & Hlen).
    { unfold krid. rewrite Hkey. apply find_some in Hfind as [_ Hm]. exact Hm. }
    split; [exact Hlen|]. split.
    + rewrite (upsert_keys ckey rid _ _ (assign_connection_key d)).
      unfold upserted.
      assert (Hhas : has rid (map ckey (connections (live (db w)))) = true).
      { unfold has. rewrite existsb_exists. apply find_some in Hfind as [Hin Hm].
        exists (ckey old). split; [now apply in_map | exact Hm]. }
      now rewrite Hhas.
    + exists (fst (assign_connection d old)). split; [exact Hnew|].
      split; [exact Hkey|].
      destruct (assign_connection_columns d old) as (ls & nr & ->).
      cbn [provider_code provider_name country_code connection_status
           categorization show_consent_confirmation custom_fields].
      repeat split.
  - intros d rid connection w old Hid Hfind. cbv zeta.
    rewrite sync_account_unfold, Hid. cbv zeta. cbn [snd].
    unfold set_tables, with_accounts, tables, akeys. cbn [db live accounts].
    destruct (upsert_in_place (fun a => json_eqb (krid (akey a)) rid)
                (new_account (next_id (map account_id (accounts (live (db w)))))
                             rid (connection_id connection))
                (assign_account d) (accounts (live (db w))) old Hfind)
      as (Hrows & Hnew & Hlen).
    { apply find_some in Hfind as [_ Hm]. exact Hm. }
    split; [exact Hlen|]. split.
    + rewrite (upsert_keys akey rid _ _ (assign_account_key d)).
      unfold upserted.
      assert (Hhas : has rid (map akey (accounts (live (db w)))) = true).
      { unfold has. rewrite existsb_exists. apply find_some in Hfind as [Hin Hm].
        exists (akey old). split; [now apply in_map | exact Hm]. }
      now rewrite Hhas.
    + exact Hnew.
  - intros d rid account w old Hid Hfind. cbv zeta.
    rewrite sync_transaction_unfold, Hid. cbv zeta. cbn [snd].
    unfold set_tables, with_transactions, tables, tkeys. cbn [db live transactions].
    pose proof (assign_transaction_key d old) as Hkey.
    destruct (upsert_in_place (fun x => json_eqb (krid (tkey x)) rid)
                (new_transaction
                   (next_id (map transaction_id (transactions (live (db w)))))
                   rid (account_id account))
                (assign_transaction d) (transactions (live (db w))) old Hfind)
      as (Hrows & Hnew & Hlen).
    { unfold krid. rewrite Hkey. apply find_some in Hfind as [_ Hm]. exact Hm. }
    split; [exact Hlen|]. split.
    + rewrite (upsert_keys tkey rid _ _ (assign_transaction_key d)).
      unfold upserted.
      assert (Hhas : has rid (map tkey (transactions (live (db w)))) = true).
      { unfold has. rewrite existsb_exists. apply find_some in Hfind as [Hin Hm].
        exists (tkey old). split; [now apply in_map | exact Hm]. }
      now rewrite Hhas.
    + exists (fst (assign_transaction d old)). split; [exact Hnew|].
      split; [exact Hkey|].
      destruct (assign_transaction_columns d old) as (m & ->).
      cbn [mode transaction_status amount transaction_currency_code
           description category category_code duplicated transaction_extra].
      repeat split.
Qed.

End Runs.

(** C4 on the scenario of the design document: the remote data does not
    change, the first run returns without errors, the second run repeats
    it, and what the API lists is stored. *)
Lemma sync_twice_same_rows_witness :
  let w1 := snd (sync_customer_data Scenario.aggregator "alice" Scenario.start) in
  (exists w2,
     sync_customer_data Scenario.aggregator "alice" w1
     = (Ok {| result_customer_id := 1; connections_synced := 1;
              accounts_synced := 2; transactions_synced := 6; errors := [] |}, w2)
     /\ SameT (saved (db w2)) (saved (db w1))
     /\ row_totals (saved (db w2)) = row_totals (saved (db w1)))
  /\ listed_stored unit Scenario.aggregator Scenario.alice tt (saved (db w1)).
Proof.
  cbv zeta.
  destruct (sync_twice_same_rows unit Scenario.aggregator
              (fun r q => match r with tt => eq_refl end) "alice" Scenario.start
              (snd (sync_customer_data Scenario.aggregator "alice" Scenario.start))
              {| result_customer_id := 1; connections_synced := 1;
                 accounts_synced := 2; transactions_synced := 6; errors := [] |})
    as (Hsame & (customer & Hfind & Hlisted) & _).
  - vm_compute. reflexivity.
  - split; [exact Hsame|]. injection Hfind as <-. exact (Hlisted eq_refl).
Defined.

End SyncTwice.

(** ** The upsert of a stored transaction *)

Module TransactionUpsert.
Import Py PyFormat DateTime Sync JsonFacts TableFacts SyncFacts DateTimeFacts.

(** A made_on that is no text and not falsy stops the assignments. *)
Lemma parse_made_on_no_text (v : json) :
  truthy v = true -> (forall s, v <> JStr s) -> exists e, parse_made_on v = Raise e.
Proof.
  intros Ht Hs. destruct v as [|b|n|s|l|kvs]; cbn [parse_made_on].
  - discriminate.
  - eauto.
  - eauto.
  - now contradiction (Hs s).
  - destruct (existsb _ l); eauto.
  - destruct (has_key "T" kvs); eauto.
Qed.

Lemma truthy_date_text (y m d : Z) : truthy (JStr (date_text y m d)) = true.
Proof. reflexivity. Qed.

Lemma truthy_datetime_text (y m d h mi s : Z) :
  truthy (JStr (datetime_text y m d h mi s)) = true.
Proof. reflexivity. Qed.

(** The outcome of the assignments and the made_on they leave. *)
Lemma assign_transaction_made_on_cases (data : json) (t : Transaction) :
  let v := field data "made_on" in
  let out := assign_transaction data t in
  (truthy v = false -> snd out = Ok tt /\ made_on (fst out) = made_on t)
  /\ (forall dt, truthy v = true -> parse_made_on v = Ok dt ->
        snd out = Ok tt /\ made_on (fst out) = Some dt)
  /\ (forall e, truthy v = true -> parse_made_on v = Raise e ->
        snd out = Raise e /\ made_on (fst out) = made_on t).
Proof.
  cbv zeta. unfold assign_transaction.
  destruct (truthy (field data "made_on")).
  - destruct (parse_made_on (field data "made_on")) as [dt|e].
    + split; [discriminate|]. split; [intros ? _ [= <-]; now split | discriminate].
    + split; [discriminate|]. split; [discriminate | intros ? _ [= <-]; now split].
  - split; [now split|]. split; discriminate.
Qed.

(** An update in place.  The upsert of a transaction whose remote id is
    stored adds no row; the row found keeps its place, its key, its
    remote id and its account, whatever account the caller passes, and
    its descriptive columns are overwritten from the payload.  Its
    made_on is kept when the payload has none; it becomes the midnight
    of a date YYYY-MM-DD and the UTC instant of a date-time
    YYYY-MM-DDTHH:MM:SSZ; and a made_on that is no text stops the upsert
    with an exception, after the other columns were overwritten. *)
Theorem transaction_updated_in_place (R : Type) (transaction_data rid : json)
    (account : Account) (old : Transaction) (w : World R) :
  getitem transaction_data "id" = Ok rid ->
  find (fun x => json_eqb (saltedge_transaction_id x) rid)
       (transactions (live (db w))) = Some old ->
  let out := _sync_transaction transaction_data account w in
  let v := field transaction_data "made_on" in
  length (transactions (live (db (snd out)))) = length (transactions (live (db w)))
  /\ exists new,
       find (fun x => json_eqb (saltedge_transaction_id x) rid)
            (transactions (live (db (snd out)))) = Some new
       /\ transaction_id new = transaction_id old
       /\ saltedge_transaction_id new = saltedge_transaction_id old
       /\ transaction_account_id new = transaction_account_id old
       /\ mode new = field transaction_data "mode"
       /\ transaction_status new = field transaction_data "status"
       /\ amount new = field transaction_data "amount"
       /\ transaction_currency_code new = field transaction_data "currency_code"
       /\ description new = field transaction_data "description"
       /\ category new = field transaction_data "category"
       /\ category_code new = field transaction_data "category_code"
       /\ duplicated new = field_default transaction_data "duplicated" (JBool false)
       /\ transaction_extra new = field transaction_data "extra"
       /\ (truthy v = false -> fst out = Ok tt /\ made_on new = made_on old)
       /\ (forall y m d, valid_date y m d = true -> v = JStr (date_text y m d) ->
             fst out = Ok tt
             /\ made_on new
                = Some {| year := y; month := m; day := d; hour := 0; minute := 0;
                          second := 0; microsecond := 0; tzinfo := None |})
       /\ (forall y m d h mi s,
             valid_date y m d = true -> valid_time h mi s 0 = true ->
             v = JStr (datetime_text y m d h mi s) ->
             fst out = Ok tt
             /\ made_on new
                = Some {| year := y; month := m; day := d; hour := h; minute := mi;
                          second := s; microsecond := 0; tzinfo := Some 0 |})
       /\ (truthy v = true -> (forall s, v <> JStr s) ->
             (exists e, fst out = Raise e) /\ made_on new = made_on old).
Proof.
  intros Hid Hfind. cbv zeta.
  rewrite sync_transaction_unfold, Hid. cbv zeta. cbn [fst snd].
  unfold set_tables, with_transactions, tables. cbn [db live transactions].
  pose proof (assign_transaction_key transaction_data old) as Hkey.
  destruct (SyncTwice.upsert_in_place (fun x => json_eqb (krid (tkey x)) rid)
              (new_transaction
                 (next_id (map transaction_id (transactions (live (db w)))))
                 rid (account_id account))
              (assign_transaction transaction_data) (transactions (live (db w))) old Hfind)
    as (_ & Hnew & Hlen).
  { unfold krid. rewrite Hkey. apply find_some in Hfind as [_ Hm]. exact Hm. }
  split; [exact Hlen|].
  rewrite (upsert_outcome tkey rid _ _ (assign_transaction_outcome transaction_data)).
  rewrite (assign_transaction_outcome transaction_data _ old).
  exists (fst (assign_transaction transaction_data old)). split; [exact Hnew|].
  destruct (assign_transaction_made_on_cases transaction_data old) as (Hnone & Hok & Hbad).
  destruct (SyncTwice.assign_transaction_columns transaction_data old) as (m & Hcols).
  unfold tkey in Hkey. injection Hkey as Hk1 Hk2 Hk3.
  split; [exact Hk1|]. split; [exact Hk2|]. split; [exact Hk3|].
  rewrite Hcols at 1 2 3 4 5 6 7 8 9.
  cbn [mode transaction_status amount transaction_currency_code description
       category category_code duplicated transaction_extra].
  do 9 (split; [reflexivity|]).
  split; [exact Hnone|]. split; [|split].
  - intros y mo d Hv Htext. apply Hok.
    + rewrite Htext. apply truthy_date_text.
    + rewrite Htext. unfold parse_made_on.
      rewrite (contains_T_date_text _ _ _ Hv). now apply strptime_date_text.
  - intros y mo d h mi s Hv Ht Htext. apply Hok.
    + rewrite Htext. apply truthy_datetime_text.
    + rewrite Htext. unfold parse_made_on.
      rewrite contains_T_datetime_text. now apply fromisoformat_datetime_text.
  - intros Ht Hs. destruct (parse_made_on_no_text _ Ht Hs) as [e He].
    destruct (Hbad e Ht He) as [H1 H2]. split; [now exists e | exact H2].
Qed.

Lemma transaction_updated_in_place_witness :
  let w := snd (sync_customer_data Scenario.aggregator "alice" Scenario.start) in
  let data := Scenario.obj_id "acc_1_tx_2"
                [("description", JStr "Refund"); ("made_on", JStr "2024-02-01")] in
  let other := new_account 9 (JStr "acc_9") 1 in
  let w' := snd (_sync_transaction data other w) in
  length (transactions (live (db w'))) = length (transactions (live (db w)))
  /\ exists new,
       find (fun x => json_eqb (saltedge_transaction_id x) (JStr "acc_1_tx_2"))
            (transactions (live (db w'))) = Some new
       /\ transaction_id new = 2
       /\ transaction_account_id new = 1
       /\ description new = JStr "Refund"
       /\ amount new = JNull
       /\ made_on new = Some {| year := 2024; month := 2; day := 1; hour := 0;
                                minute := 0; second := 0; microsecond := 0;
                                tzinfo := None |}.
Proof.
  cbv zeta.
  let old :=
    eval vm_compute in
      (match find (fun x => json_eqb (saltedge_transaction_id x) (JStr "acc_1_tx_2"))
                  (transactions (live (db (snd (sync_customer_data
                     Scenario.aggregator "alice" Scenario.start))))) with
       | Some t => t
       | None => new_transaction 0 JNull 0
       end) in
  destruct (transaction_updated_in_place unit
              (Scenario.obj_id "acc_1_tx_2"
                 [("description", JStr "Refund"); ("made_on", JStr "2024-02-01")])
              (JStr "acc_1_tx_2") (new_account 9 (JStr "acc_9") 1) old
              (snd (sync_customer_data Scenario.aggregator "alice" Scenario.start))
              eq_refl)
    as (Hlen & new & Hfind & H1 & _ & H3 & _ & _ & H6 & _ & H8 & _ & _ & _ & _ & _
        & Hdate & _).
  - vm_compute. reflexivity.
  - split; [exact Hlen|]. exists new. split; [exact Hfind|].
    split; [exact H1|]. split; [exact H3|]. split; [exact H8|]. split; [exact H6|].
    exact (proj2 (Hdate 2024 2 1 eq_refl eq_refl)).
Defined.

End TransactionUpsert.

(* ================================================================== *)
(** * The shape of a signature, and what the verification accepts *)

Module Base64Facts.
Import Bytes Py Text.

(** A character of the 64-character alphabet. *)
Definition alphabet_char (c : ascii) : bool :=
  existsb (Ascii.eqb c) (list_ascii_of_string Base64.alphabet).

Definition all_alphabet (s : string) : bool :=
  forallb alphabet_char (list_ascii_of_string s).

Lemma below (P : nat -> bool) (n : nat) :
  forallb P (seq 0 n) = true -> forall i, (i < n)%nat -> P i = true.
Proof.
  intros H i Hi. rewrite forallb_forall in H. apply H. apply in_seq. lia.
Qed.

Lemma sextet_alphabet (z : Z) : alphabet_char (Base64.sextet z) = true.
Proof.
  unfold Base64.sextet. change 63 with (Z.ones 6).
  rewrite Z.land_ones by lia.
  assert (Hi : (Z.to_nat (z mod 2 ^ 6) < 64)%nat).
  { pose proof (Z.mod_pos_bound z (2 ^ 6) ltac:(lia)). lia. }
  revert Hi. generalize (Z.to_nat (z mod 2 ^ 6)). intros i Hi.
  apply (below (fun i => alphabet_char
                           match String.get i Base64.alphabet with
                           | Some c => c
                           | None => "="%char
                           end) 64); [vm_compute; reflexivity | exact Hi].
Qed.

Lemma alphabet_char_ascii (c : ascii) :
  alphabet_char c = true -> (byte_val (byte_of_ascii c) <=? 0x7F) = true.
Proof.
  unfold alphabet_char. intros H. apply existsb_exists in H as [x [Hin Hx]].
  apply Ascii.eqb_eq in Hx. subst x.
  assert (Hall : forallb (fun x => byte_val (byte_of_ascii x) <=? 0x7F)
                         (list_ascii_of_string Base64.alphabet) = true)
    by (vm_compute; reflexivity).
  rewrite forallb_forall in Hall. now apply Hall.
Qed.

Lemma b64encode_cases (P : bytes -> Prop) :
  P [] -> (forall a, P [a]) -> (forall a b, P [a; b]) ->
  (forall a b c rest, P rest -> P (a :: b :: c :: rest)) ->
  forall bs, P bs.
Proof.
  intros H0 H1 H2 H3. fix IH 1. intros [|a [|b [|c rest]]].
  - exact H0.
  - apply H1.
  - apply H2.
  - apply H3. apply IH.
Qed.

(** Four characters for every three bytes, the last group padded. *)
Lemma b64encode_length (bs : bytes) :
  String.length (Base64.b64encode bs) = (4 * ((length bs + 2) / 3))%nat.
Proof.
  induction bs as [| a | a b | a b c rest IH] using b64encode_cases;
    try reflexivity.
  cbn [Base64.b64encode String.length Datatypes.length]. rewrite IH.
  replace (S (S (S (Datatypes.length rest))) + 2)%nat
    with (Datatypes.length rest + 2 + 1 * 3)%nat by lia.
  rewrite Nat.div_add by lia. lia.
Qed.

(** With 3k+2 bytes the text is 4k+3 characters of the alphabet and one
    padding character. *)
Lemma b64encode_padded (k : nat) (bs : bytes) :
  length bs = (3 * k + 2)%nat ->
  exists s, Base64.b64encode bs = (s ++ "=")%string
            /\ String.length s = (4 * k + 3)%nat
            /\ all_alphabet s = true.
Proof.
  revert bs. induction k as [|k IH]; intros bs Hlen.
  - destruct bs as [|a [|b [|c rest]]]; try discriminate.
    cbn [Base64.b64encode]. eexists (String _ (String _ (String _ ""))).
    split; [reflexivity|]. split; [reflexivity|].
    unfold all_alphabet. cbn [list_ascii_of_string forallb].
    now rewrite !sextet_alphabet.
  - destruct bs as [|a [|b [|c rest]]]; cbn [Datatypes.length] in Hlen; try lia.
    destruct (IH rest ltac:(lia)) as (s & Hs & Hl & Ha).
    cbn [Base64.b64encode]. rewrite Hs.
    eexists (String _ (String _ (String _ (String _ s)))).
    split; [reflexivity|]. split; [cbn [String.length]; lia|].
    unfold all_alphabet in *. cbn [list_ascii_of_string forallb].
    now rewrite !sextet_alphabet, Ha.
Qed.

Lemma bytes_of_app (a b : string) :
  list_byte_of_string (a ++ b) = list_byte_of_string a ++ list_byte_of_string b.
Proof.
  induction a as [|c a IH]; [reflexivity|].
  change (byte_of_ascii c :: list_byte_of_string (a ++ b)
          = byte_of_ascii c :: (list_byte_of_string a ++ list_byte_of_string b)).
  now rewrite IH.
Qed.

Lemma is_ascii_app (a b : string) :
  is_ascii (a ++ b) = is_ascii a && is_ascii b.
Proof. unfold is_ascii. now rewrite bytes_of_app, forallb_app. Qed.

Lemma all_alphabet_ascii (s : string) : all_alphabet s = true -> is_ascii s = true.
Proof.
  unfold all_alphabet, is_ascii. induction s as [|c s IH]; [reflexivity|].
  change (alphabet_char c && forallb alphabet_char (list_ascii_of_string s) = true ->
          (byte_val (byte_of_ascii c) <=? 0x7F)
          && forallb (fun b => byte_val b <=? 0x7F) (list_byte_of_string s) = true).
  intros H. apply andb_prop in H as [Hc Hs].
  now rewrite (alphabet_char_ascii c Hc), IH.
Qed.

End Base64Facts.

Module SignatureFacts.
Import Bytes Py Text SaltEdgeClient Callbacks Base64Facts.

Lemma decode_encode (s : string) :
  valid_utf8 (length (encode_utf8 s)) (encode_utf8 s) = true ->
  decode_utf8 (encode_utf8 s) = Ok s.
Proof.
  intros H. unfold decode_utf8. rewrite H. unfold encode_utf8.
  now rewrite string_of_list_byte_of_string.
Qed.

Lemma digest_text (bs : bytes) :
  length bs = 32%nat ->
  exists s, Base64.b64encode bs = (s ++ "=")%string
            /\ String.length s = 43%nat /\ all_alphabet s = true.
Proof. intros H. now apply (b64encode_padded 10). Qed.

Lemma digest_text_ascii (bs : bytes) :
  length bs = 32%nat -> is_ascii (Base64.b64encode bs) = true.
Proof.
  intros H. destruct (digest_text bs H) as (s & -> & _ & Ha).
  rewrite is_ascii_app, (all_alphabet_ascii s Ha). reflexivity.
Qed.

(** A signature is always 44 characters: 43 of the base64 alphabet and
    one padding character; so it is ASCII, as a header value and
    [compare_digest] need. *)
Theorem signature_shape (self : client) (method url : string) (expires_at : Z)
    (body : string) :
  let signature := _generate_signature self method url expires_at body in
  String.length signature = 44%nat
  /\ is_ascii signature = true
  /\ exists s, signature = (s ++ "=")%string /\ String.length s = 43%nat
               /\ all_alphabet s = true.
Proof.
  cbv zeta. unfold _generate_signature.
  pose proof (DigestFacts.hmac_length (encode_utf8 (secret_key self))
                (encode_utf8 (string_to_sign method url expires_at body))) as Hlen.
  split; [|split].
  - now rewrite b64encode_length, Hlen.
  - now apply digest_text_ascii.
  - now apply digest_text.
Qed.

Lemma expected_signature_ascii (key expires_at body : string) :
  is_ascii (expected_signature key expires_at body) = true.
Proof. unfold expected_signature. apply digest_text_ascii, DigestFacts.hmac_length. Qed.

(** With a secret key configured, the verification returns true for
    exactly one signature: the body must be UTF-8 and the signature must
    be the expected text, character for character. *)
Theorem verify_accepts_exactly (k : string) (request_body : bytes)
    (signature expires_at : string) :
  k <> "" ->
  verify_salt_edge_signature (Some k) request_body signature expires_at = Ok true
  <-> exists body, decode_utf8 request_body = Ok body
                   /\ signature = expected_signature k expires_at body.
Proof.
  intros Hk. unfold verify_salt_edge_signature.
  destruct (String.eqb_spec k "") as [|_]; [contradiction|]. cbn [negb].
  unfold verify_try. destruct (decode_utf8 request_body) as [body|e]; cbn [bind try_except].
  - unfold compare_digest. rewrite expected_signature_ascii. cbn [andb].
    destruct (is_ascii signature) eqn:Ha; cbn [try_except].
    + destruct (String.eqb_spec (expected_signature k expires_at body) signature)
        as [Heq|Hne]; split.
      * intros _. now exists body.
      * reflexivity.
      * discriminate.
      * intros (b & [= <-] & ->). contradiction.
    + split; [discriminate|]. intros (b & [= <-] & ->).
      rewrite expected_signature_ascii in Ha. discriminate.
  - split; [discriminate|]. intros (b & Hb & _). discriminate.
Qed.

Lemma verify_accepts_exactly_witness :
  verify_salt_edge_signature (Some "secret") (encode_utf8 "{}")
    (expected_signature "secret" "1700000000" "{}") "1700000000" = Ok true.
Proof.
  apply (verify_accepts_exactly "secret"); [discriminate|].
  exists "{}". split; reflexivity.
Defined.

(** The client and the verification agree: what [_generate_signature]
    gives for a POST to the legacy callback path is accepted for the
    same key, expiry and body. *)
Theorem sign_verify_round_trip (self : client) (expires_at : Z) (body : string) :
  secret_key self <> "" ->
  valid_utf8 (length (encode_utf8 body)) (encode_utf8 body) = true ->
  verify_salt_edge_signature (Some (secret_key self)) (encode_utf8 body)
    (_generate_signature self "POST" "/api/v1/callbacks/salt-edge" expires_at body)
    (str_of_int expires_at)
  = Ok true.
Proof.
  intros Hk Hv. unfold verify_salt_edge_signature.
  destruct (String.eqb_spec (secret_key self) "") as [|_]; [contradiction|].
  cbn [negb]. unfold verify_try. rewrite (decode_encode body Hv). cbn [bind].
  unfold compare_digest. rewrite expected_signature_ascii.
  change (_generate_signature self "POST" "/api/v1/callbacks/salt-edge" expires_at body)
    with (expected_signature (secret_key self) (str_of_int expires_at) body).
  rewrite expected_signature_ascii, String.eqb_refl. reflexivity.
Qed.

Lemma sign_verify_round_trip_witness :
  let self := {| base_url := "https://www.saltedge.com/api/v6"; app_id := "app";
                 secret_key := "secret"; client_id := None |} in
  verify_salt_edge_signature (Some "secret") (encode_utf8 "{}")
    (_generate_signature self "POST" "/api/v1/callbacks/salt-edge" 1700000000 "{}")
    "1700000000"
  = Ok true.
Proof.
  cbv zeta.
  apply (sign_verify_round_trip
           {| base_url := "https://www.saltedge.com/api/v6"; app_id := "app";
              secret_key := "secret"; client_id := None |} 1700000000 "{}");
    [discriminate | reflexivity].
Defined.

End SignatureFacts.

(* ================================================================== *)
(** * The requests of the client: services/saltedge_client.py *)

Module ClientRequests.
Import Bytes Py Text SaltEdgeClient.

(** The settings [__init__] reads: what [os.getenv] returned. *)
Record settings := {
  SALTEDGE_BASE_URL : string;
  SALTEDGE_APP_ID : option string;
  SALTEDGE_SECRET_KEY : option string;
  SALTEDGE_CLIENT_ID : option string
}.

(** Truth value of an optional string: [None] and the empty string are
    false. *)
Definition given (o : option string) : bool :=
  match o with
  | Some s => negb (String.eqb s "")
  | None => false
  end.

Definition value (o : option string) : string :=
  match o with Some s => s | None => "" end.

(** [SaltEdgeClient.__init__]. *)
Definition init (s : settings) : result client :=
  if given (SALTEDGE_APP_ID s) && given (SALTEDGE_SECRET_KEY s) then
    Ok {| base_url := SALTEDGE_BASE_URL s;
          app_id := value (SALTEDGE_APP_ID s);
          secret_key := value (SALTEDGE_SECRET_KEY s);
          client_id := SALTEDGE_CLIENT_ID s |}
  else Raise (ValueError "SALTEDGE_APP_ID and SALTEDGE_SECRET_KEY must be set").

(** [endpoint.lstrip('/')]. *)
Fixpoint lstrip_slash (endpoint : string) : string :=
  match endpoint with
  | String "/" rest => lstrip_slash rest
  | _ => endpoint
  end.

(** The arguments of [requests.request]. *)
Record http_request := {
  rq_method : string;
  rq_url : string;
  rq_headers : list (string * string);
  rq_data : option string
}.

Section Transport.

(** [json.dumps]. *)
Variable dumps : json -> string.

(** The HTTP layer: [requests.request], [raise_for_status] and
    [response.json()] on a state of any kind. *)
Variable H : Type.
Variable send : H -> http_request -> result json * H.

(** The request [_make_request] builds; [now] is [int(time.time())]
    when [_get_headers] runs. *)
Definition build_request (self : client) (now : Z) (method endpoint : string)
    (data : option json) : http_request :=
  let url := (base_url self ++ "/" ++ lstrip_slash endpoint)%string in
  let body :=
    match data with
    | Some d => if truthy d then dumps d else ""
    | None => ""
    end in
  let headers := _get_headers self now method url body in
  {| rq_method := method; rq_url := url; rq_headers := headers;
     rq_data := if negb (String.eqb body "") then Some body else None |}.

(** [SaltEdgeClient._make_request]: the handler prints and raises again. *)
Definition _make_request (self : client) (now : Z) (method endpoint : string)
    (data : option json) (h : H) : result json * H :=
  match send h (build_request self now method endpoint data) with
  | (Ok response, h') => (Ok response, h')
  | (Raise e, h') => (Raise e, h')
  end.

End Transport.

(** The endpoints of the listing methods. *)
Definition list_customers_endpoint (from_id : option string) : string :=
  ("/customers"
   ++ if given from_id then "?from_id=" ++ value from_id else "")%string.

Definition list_connections_endpoint (customer_id : string)
    (from_id : option string) : string :=
  ("/connections?customer_id=" ++ customer_id
   ++ if given from_id then "&from_id=" ++ value from_id else "")%string.

Definition list_accounts_endpoint (connection_id : string)
    (from_id : option string) : string :=
  ("/accounts?connection_id=" ++ connection_id
   ++ if given from_id then "&from_id=" ++ value from_id else "")%string.

(** [params.append(f"{name}={v}")] under [if v:]. *)
Definition param (name : string) (v : option string) : list string :=
  if given v then [(name ++ "=" ++ value v)%string] else [].

Definition list_transactions_endpoint (connection_id : string)
    (account_id from_id from_date to_date : option string) : string :=
  let params := param "account_id" account_id ++ param "from_id" from_id
                ++ param "from_date" from_date ++ param "to_date" to_date in
  ("/transactions?connection_id=" ++ connection_id
   ++ match params with
      | [] => ""
      | _ => "&" ++ String.concat "&" params
      end)%string.

Definition list_providers_endpoint (country_code mode : option string) : string :=
  let params := param "country_code" country_code ++ param "mode" mode in
  ("/providers"
   ++ match params with
      | [] => ""
      | _ => "?" ++ String.concat "&" params
      end)%string.

(** A filter as it appears in the query: nothing when absent or empty. *)
Definition query_part (sep name : string) (v : option string) : string :=
  if given v then (sep ++ name ++ "=" ++ value v)%string else "".

Fixpoint slashes (n : nat) : string :=
  match n with
  | O => ""
  | S n' => String "/" (slashes n')
  end.

Lemma lstrip_slash_spec (endpoint : string) :
  exists n, endpoint = (slashes n ++ lstrip_slash endpoint)%string
            /\ forall rest, lstrip_slash endpoint <> String "/" rest.
Proof.
  induction endpoint as [|c rest IH].
  - exists 0%nat. split; [reflexivity | discriminate].
  - destruct (Ascii.eqb_spec c "/"%char) as [->|Hc].
    + destruct IH as (n & Hn & Hrest). exists (S n). cbn [lstrip_slash slashes String.append].
      split; [now rewrite <- Hn | exact Hrest].
    + exists 0%nat. assert (Hl : lstrip_slash (String c rest) = String c rest).
      { cbn [lstrip_slash].
        destruct c as [[] [] [] [] [] [] [] []]; try reflexivity. now contradiction Hc. }
      rewrite Hl. split; [reflexivity|]. intros r [= Hcr _]. contradiction.
Qed.

Lemma header_app (name : string) (a b : list (string * string)) :
  header name (a ++ b)
  = match header name a with Some v => Some v | None => header name b end.
Proof.
  induction a as [|[k v] a IH]; [reflexivity|]. cbn [app header].
  destruct (String.eqb k name); [reflexivity | exact IH].
Qed.

(** What is signed is what is sent: the Signature header of a request
    is the signature of its own method, URL and body (the empty string
    when no body is sent) for the expiry in its Expires-at header, now +
    60; the URL is the base URL, one slash and the endpoint without its
    leading slashes. *)
Theorem request_signed_as_sent (dumps : json -> string) (self : client) (now : Z)
    (method endpoint : string) (data : option json) :
  let rq := build_request dumps self now method endpoint data in
  header "Signature" (rq_headers rq)
  = Some (_generate_signature self (rq_method rq) (rq_url rq) (now + 60)
            (value (rq_data rq)))
  /\ header "Expires-at" (rq_headers rq) = Some (str_of_int (now + 60))
  /\ (rq_data rq = None <-> value (rq_data rq) = "")
  /\ exists n rest,
       endpoint = (slashes n ++ rest)%string
       /\ (forall tl, rest <> String "/" tl)
       /\ rq_url rq = (base_url self ++ "/" ++ rest)%string.
Proof.
  cbv zeta. unfold build_request. cbv zeta. cbn [rq_headers rq_method rq_url rq_data].
  set (url := (base_url self ++ "/" ++ lstrip_slash endpoint)%string).
  set (body := match data with
               | Some d => if truthy d then dumps d else ""
               | None => ""
               end).
  assert (Hbody : value (if negb (String.eqb body "") then Some body else None) = body).
  { destruct (String.eqb_spec body "") as [->|]; reflexivity. }
  rewrite Hbody. split; [|split; [|split]].
  - unfold _get_headers. rewrite header_app. reflexivity.
  - unfold _get_headers. rewrite header_app. reflexivity.
  - destruct (String.eqb_spec body "") as [Hb|Hb]; cbn [negb value].
    + now split.
    + split; [discriminate | intros; contradiction].
  - destruct (lstrip_slash_spec endpoint) as (n & Hn & Hrest).
    exists n, (lstrip_slash endpoint). now repeat split.
Qed.

Lemma append_nil_r (s : string) : (s ++ "")%string = s.
Proof. induction s as [|c s IH]; [reflexivity|]. cbn [String.append]. now rewrite IH. Qed.

Lemma concat_amp (p : string) (ps : list string) :
  ("&" ++ String.concat "&" (p :: ps))%string
  = String.concat "" (map (fun q => "&" ++ q)%string (p :: ps)).
Proof.
  revert p. induction ps as [|q ps IH]; intros p.
  - reflexivity.
  - change (String.concat "&" (p :: q :: ps))
      with (p ++ "&" ++ String.concat "&" (q :: ps))%string.
    rewrite IH. reflexivity.
Qed.

(** The queries of list_transactions and list_providers: each filter
    that is given and not empty adds its own name=value, in the order of
    the parameters, and the others add nothing; the first filter of
    list_providers follows a question mark.  The values are put in as
    they are, without escaping: a connection id that carries
    &from_id=... is the same request as passing from_id. *)
Theorem queries_by_parts (connection_id : string)
    (account_id from_id from_date to_date country_code mode : option string) :
  list_transactions_endpoint connection_id account_id from_id from_date to_date
  = ("/transactions?connection_id=" ++ connection_id
     ++ query_part "&" "account_id" account_id
     ++ query_part "&" "from_id" from_id
     ++ query_part "&" "from_date" from_date
     ++ query_part "&" "to_date" to_date)%string
  /\ list_providers_endpoint country_code mode
     = ("/providers" ++ query_part "?" "country_code" country_code
        ++ query_part (if given country_code then "&" else "?") "mode" mode)%string
  /\ (given from_id = true ->
      list_transactions_endpoint connection_id None from_id None None
      = list_transactions_endpoint
          (connection_id ++ "&from_id=" ++ value from_id) None None None None).
Proof.
  split; [|split].
  - unfold list_transactions_endpoint, param, query_part. cbv zeta.
    f_equal.
    destruct (given account_id), (given from_id), (given from_date), (given to_date);
      cbn [app]; rewrite ?concat_amp; cbn [map String.concat String.append];
      rewrite ?append_nil_r; reflexivity.
  - unfold list_providers_endpoint, param, query_part. cbv zeta.
    destruct (given country_code), (given mode);
      cbn [app String.concat]; rewrite ?append_nil_r; reflexivity.
  - intros Hf. unfold list_transactions_endpoint, param. rewrite Hf.
    cbn [given app String.concat]. rewrite append_nil_r.
    reflexivity.
Qed.

End ClientRequests.

(* ================================================================== *)
(** * The sync endpoints: api/sync.py *)

Module SyncApi.
Import Py PyFormat Sync ClientRequests Payloads.


Section Endpoint.

Variable R : Type.
Variable call : R -> request -> result json * R.

(** [isinstance(e, ValueError)]: true of a ValueError, false of an error
    of the database layer; what it is of the exceptions of the HTTP
    layer is left open. *)
Variable is_value_error : exn -> bool.
Hypothesis value_error_is : forall msg, is_value_error (ValueError msg) = true.
Hypothesis database_error_is_not :
  forall msg, is_value_error (DatabaseError msg) = false.

(** The two handlers of [sync_customer_data]. *)
Definition handled (e : exn) : exn :=
  if is_value_error e then HTTPException 404 (str_exn e)
  else HTTPException 500 ("Sync failed: " ++ str_exn e).

(** [sync_customer_data] of the router: [SyncService()] builds the
    client from the settings, then the service runs on the session of
    the request. *)
Definition sync_customer_data_endpoint (s : settings) (customer_identifier : string)
    : M R SyncResult :=
  fun w =>
    match init s with
    | Raise e => (Raise (handled e), w)
    | Ok _ =>
        match Store.sync_customer_data call customer_identifier w with
        | (Ok result, w') => (Ok result, w')
        | (Raise e, w') => (Raise (handled e), w')
        end
    end.



End Endpoint.

(** The classes of the exceptions named here: json.JSONDecodeError and
    UnicodeError derive from ValueError. *)
Definition builtin_value_error (e : exn) : bool :=
  match e with
  | ValueError _ | JSONDecodeError | UnicodeError _ => true
  | _ => false
  end.


(** A connection without a provider code: the endpoint answers 500 and
    the store is as it was. *)
Example refused_commit_answers :
  let s := {| SALTEDGE_BASE_URL := "https://www.saltedge.com/api/v6";
              SALTEDGE_APP_ID := Some "app"; SALTEDGE_SECRET_KEY := Some "secret";
              SALTEDGE_CLIENT_ID := None |} in
  exists msg,
    sync_customer_data_endpoint unit SyncCommit.unnamed_provider builtin_value_error s
      "alice" Scenario.start
    = (Raise (HTTPException 500 ("Sync failed: " ++ msg)), Scenario.start).
Proof. eexists. reflexivity. Qed.

End SyncApi.

(* ================================================================== *)
(** * The other webhook endpoints and the handlers: api/callbacks.py *)

Module CallbackEndpoints.
Import Bytes Py Text PyFormat Callbacks Sync SyncFacts.

(** The processors the other endpoints schedule. *)
Inductive background :=
| process_failure
| process_notify
| process_destroy
| process_provider_changes
| process_payment_success
| process_payment_failure
| process_payment_notify
| process_legacy.

(** The verification returns a boolean. *)
Lemma verify_returns (key : secret_setting) (body : bytes)
    (signature expires_at : string) :
  exists b, verify_salt_edge_signature key body signature expires_at = Ok b.
Proof.
  unfold verify_salt_edge_signature. destruct key as [k|]; [|now exists true].
  destruct (negb (String.eqb k "")); [|now exists true].
  destruct (verify_try k body signature expires_at) as [b|e]; cbn [try_except];
    [now exists b | now exists false].
Qed.

Section Endpoints.

(** [json.loads] on a decoded body; [None] is [json.JSONDecodeError]. *)
Variable json_loads : string -> option json.

(** The body the eight endpoints share: the signature check, the parse
    inside the outer [try], the task, the acknowledgement; an
    HTTPException passes, any other exception becomes a 500 with the
    endpoint's detail.  The timestamp of the acknowledgement is left
    out. *)
Definition callback_endpoint (ack detail : string) (p : background)
    (key : secret_setting) (hdr_signature hdr_expires_at : option string)
    (body : bytes) : result string * list (background * json) :=
  let signature := match hdr_signature with Some s => s | None => "" end in
  let expires_at := match hdr_expires_at with Some s => s | None => "" end in
  let rejected :=
    if negb (String.eqb signature "") then
      bind (verify_salt_edge_signature key body signature expires_at)
           (fun ok => Ok (negb ok))
    else Ok false in
  let attempt : result (string * list (background * json)) :=
    bind rejected (fun no =>
    if no then Raise (HTTPException 401 "Invalid signature")
    else
      bind (decode_utf8 body) (fun text =>
      match json_loads text with
      | None => Raise JSONDecodeError
      | Some callback_data => Ok (ack, [(p, callback_data)])
      end)) in
  match attempt with
  | Ok (a, tasks) => (Ok a, tasks)
  | Raise (HTTPException c d) => (Raise (HTTPException c d), [])
  | Raise _ => (Raise (HTTPException 500 detail), [])
  end.

Definition ais_failure_callback :=
  callback_endpoint "failure_received" "Failure callback processing failed"
                    process_failure.
Definition ais_notify_callback :=
  callback_endpoint "notify_received" "Notify callback processing failed"
                    process_notify.
Definition ais_destroy_callback :=
  callback_endpoint "destroy_received" "Destroy callback processing failed"
                    process_destroy.
Definition ais_provider_changes_callback :=
  callback_endpoint "provider_changes_received"
                    "Provider changes callback processing failed"
                    process_provider_changes.
Definition pis_success_callback :=
  callback_endpoint "payment_success_received"
                    "Payment success callback processing failed"
                    process_payment_success.
Definition pis_failure_callback :=
  callback_endpoint "payment_failure_received"
                    "Payment failure callback processing failed"
                    process_payment_failure.
Definition pis_notify_callback :=
  callback_endpoint "payment_notify_received"
                    "Payment notify callback processing failed"
                    process_payment_notify.
Definition salt_edge_legacy_callback :=
  callback_endpoint "legacy_callback_received" "Legacy callback processing failed"
                    process_legacy.

(** The eight endpoints answer as ais/success does, except for a body
    that is not JSON: ais/success answers 400, they answer 500 with their
    own detail.  They schedule their one task exactly when they answer
    200, with the payload ais/success would schedule. *)
Theorem other_endpoints_answer (ack detail : string) (p : background)
    (key : secret_setting) (hdr_signature hdr_expires_at : option string)
    (body : bytes) :
  let out := callback_endpoint ack detail p key hdr_signature hdr_expires_at body in
  let ref := ais_success_callback json_loads key hdr_signature hdr_expires_at body in
  status_code_of (fst out)
  = (if status_code_of (fst ref) =? 400 then 500 else status_code_of (fst ref))
  /\ map snd (snd out) = map snd (snd ref)
  /\ (forall callback_data,
        snd ref = [(process_success_callback, callback_data)] ->
        out = (Ok ack, [(p, callback_data)]))
  /\ (fst ref = Raise (HTTPException 400 "Invalid JSON payload") ->
      out = (Raise (HTTPException 500 detail), [])).
Proof.
  cbv zeta. unfold callback_endpoint, ais_success_callback, ais_success_try.
  cbv zeta.
  assert (Hcheck : exists no,
            (if negb (String.eqb match hdr_signature with Some s => s | None => "" end "")
             then bind (verify_salt_edge_signature key body
                          match hdr_signature with Some s => s | None => "" end
                          match hdr_expires_at with Some s => s | None => "" end)
                       (fun ok => Ok (negb ok))
             else Ok false) = Ok no).
  { destruct (negb _); [|now exists false].
    destruct (verify_returns key body
                match hdr_signature with Some s => s | None => "" end
                match hdr_expires_at with Some s => s | None => "" end) as [b ->].
    now exists (negb b). }
  destruct Hcheck as [no ->]. cbn [bind].
  destruct no; cbn [fst snd status_code_of map Z.eqb].
  - repeat split; intros; discriminate.
  - unfold decode_utf8. destruct (valid_utf8 _ _); cbn [bind fst snd status_code_of map Z.eqb].
    + destruct (json_loads _) as [callback_data|]; cbn [fst snd status_code_of map Z.eqb].
      * repeat split; intros; try discriminate. congruence.
      * repeat split; intros; discriminate.
    + repeat split; intros; discriminate.
Qed.

End Endpoints.

(** A body that is not JSON, unsigned: 400 from ais/success, 500 from
    ais/failure. *)
Example malformed_body_answers :
  let json_loads := fun _ : string => @None json in
  fst (ais_success_callback json_loads None None None (list_byte_of_string "{"))
  = Raise (HTTPException 400 "Invalid JSON payload")
  /\ fst (ais_failure_callback json_loads None None None (list_byte_of_string "{"))
     = Raise (HTTPException 500 "Failure callback processing failed").
Proof. cbv zeta. split; reflexivity. Qed.

(** ** The processors and handlers that mark a connection *)

Definition with_status (c : Connection) (status : json) : Connection :=
  {| connection_id := connection_id c;
     saltedge_connection_id := saltedge_connection_id c;
     connection_customer_id := connection_customer_id c;
     provider_code := provider_code c;
     provider_name := provider_name c;
     country_code := country_code c;
     connection_status := status;
     categorization := categorization c;
     show_consent_confirmation := show_consent_confirmation c;
     custom_fields := custom_fields c;
     last_success_at := last_success_at c;
     next_refresh_possible_at := next_refresh_possible_at c |}.

(** The session after the assignment of the status to the connection
    the filter selects first. *)
Definition assigned (status : string) (connection_id : json) (connection : Connection)
    (s : Session) : Session :=
  {| live := with_connections (live s)
               (update_first
                  (fun c => Store.same_text (saltedge_connection_id c) connection_id)
                  (with_status connection (JStr status)) (connections (live s)));
     saved := saved s |}.

(** The lookup of the connection by its remote id, the assignment of
    its status and the commit; [None] when no connection is found.  The
    query raises on an id the driver cannot bind, the commit when the
    database refuses the session. *)
Definition set_status (status : string) (connection_id : json) (s : Session)
    : result (option Session) :=
  bind (Store.first_where saltedge_connection_id connection_id (connections (live s)))
       (fun found =>
          match found with
          | Some connection =>
              bind (Store.commit (assigned status connection_id connection s))
                   (fun s' => Ok (Some s'))
          | None => Ok None
          end).

(** The [try] block of [handle_error_callback]: the lines printed and
    the session. *)
Definition handle_error_try (data : json) (s : Session)
    : result (list string * Session) :=
  bind (get data "connection_id" JNull) (fun connection_id =>
  bind (get data "error_class" (JStr "unknown")) (fun error_class =>
  bind (get data "error_message" (JStr "Unknown error")) (fun error_message =>
  let line := ("Error callback: " ++ str error_class ++ " - " ++ str error_message
               ++ " (Connection: " ++ str connection_id ++ ")")%string in
  if truthy connection_id then
    bind (set_status "error" connection_id s) (fun marked =>
    match marked with
    | Some s' =>
        Ok ([line; ("Updated connection " ++ str connection_id
                    ++ " status to error")%string], s')
    | None => Ok ([line], s)
    end)
  else Ok ([line], s)))).

Definition handle_error_callback (data : json) (s : Session)
    : list string * Session :=
  match handle_error_try data s with
  | Ok r => r
  | Raise e => ([("Error handling error callback: " ++ str_exn e)%string], rollback s)
  end.

(** The [try] block of [handle_destroy_callback]. *)
Definition handle_destroy_try (data : json) (s : Session)
    : result (list string * Session) :=
  bind (get data "connection_id" JNull) (fun connection_id =>
  bind (get data "customer_id" JNull) (fun customer_id =>
  let line := ("Destroy callback: Connection " ++ str connection_id
               ++ " being removed for customer " ++ str customer_id)%string in
  if truthy connection_id then
    bind (set_status "removed" connection_id s) (fun marked =>
    match marked with
    | Some s' =>
        Ok ([line; ("Marked connection " ++ str connection_id
                    ++ " as removed")%string], s')
    | None => Ok ([line], s)
    end)
  else Ok ([line], s))).

Definition handle_destroy_callback (data : json) (s : Session)
    : list string * Session :=
  match handle_destroy_try data s with
  | Ok r => r
  | Raise e => ([("Error handling destroy callback: " ++ str_exn e)%string], rollback s)
  end.

(** [process_failure_callback]. *)
Definition process_failure_callback (callback_data : json) (s : Session)
    : list string * Session :=
  let attempt :=
    bind (get callback_data "data" (JObj [])) (fun data =>
    bind (get data "connection_id" JNull) (fun connection_id =>
    bind (get data "error_class" (JStr "unknown")) (fun error_class =>
    bind (get data "error_message" (JStr "Unknown error")) (fun _ =>
    let '(lines, s') := handle_error_callback data s in
    Ok (("Processing FAILURE callback - Connection: " ++ str connection_id
         ++ ", Error: " ++ str error_class)%string :: lines, s'))))) in
  match attempt with
  | Ok r => r
  | Raise e => ([("Failure callback processing error: " ++ str_exn e)%string], s)
  end.

(** [process_destroy_callback]. *)
Definition process_destroy_callback (callback_data : json) (s : Session)
    : list string * Session :=
  let attempt :=
    bind (get callback_data "data" (JObj [])) (fun data =>
    bind (get data "connection_id" JNull) (fun connection_id =>
    bind (get data "customer_id" JNull) (fun customer_id =>
    let '(lines, s') := handle_destroy_callback data s in
    Ok (("Processing DESTROY callback - Connection: " ++ str connection_id
         ++ ", Customer: " ++ str customer_id)%string :: lines, s')))) in
  match attempt with
  | Ok r => r
  | Raise e => ([("Destroy callback processing error: " ++ str_exn e)%string], s)
  end.

(** The connection id of a payload, None when the payload has none. *)
Definition payload_connection (callback_data : json) : json :=
  field (field_default callback_data "data" (JObj [])) "connection_id".

(** What marking under the connection id [rid] makes of a session [s].
    Without an id, or without a stored connection of that id, the
    session is as it was.  When the id cannot be bound, or the database
    refuses the commit, the session is rolled back.  Else the session
    is committed: it holds the customers, accounts and transactions it
    held and the connections under their keys, and the connection the
    filter selects first has the status. *)
Definition marked_by (status : string) (rid : json) (s s' : Session) : Prop :=
  match (if truthy rid
         then Store.first_where saltedge_connection_id rid (connections (live s))
         else Ok None) with
  | Ok None => s' = s
  | Raise _ => s' = rollback s
  | Ok (Some c) =>
      (Store.violated (live (assigned status rid c s)) <> None /\ s' = rollback s)
      \/ (Store.violated (live (assigned status rid c s)) = None
          /\ saved s' = live s'
          /\ customers (live s') = customers (live s)
          /\ accounts (live s') = accounts (live s)
          /\ transactions (live s') = transactions (live s)
          /\ ckeys (live s') = ckeys (live s)
          /\ Store.first_where saltedge_connection_id rid (connections (live s'))
             = Ok (Some (with_status c (JStr status))))
  end.

Definition marked (status : string) (callback_data : json) (s s' : Session) : Prop :=
  marked_by status (payload_connection callback_data) s s'.

Lemma update_first_same_keys (matches : Connection -> bool) (status : json)
    (c : Connection) (rows : list Connection) :
  find matches rows = Some c ->
  map ckey (update_first matches (with_status c status) rows) = map ckey rows.
Proof.
  induction rows as [|x rows IH]; cbn [find update_first map]; [discriminate|].
  destruct (matches x).
  - intros [= ->]. reflexivity.
  - intros H. cbn [map]. now rewrite IH.
Qed.

Lemma marked_by_same (status : string) (rid : json) (s : Session) :
  (if truthy rid
   then Store.first_where saltedge_connection_id rid (connections (live s))
   else Ok None) = Ok None ->
  marked_by status rid s s.
Proof. intros H. unfold marked_by. now rewrite H. Qed.

(** The session a handler leaves when the payload has a connection id. *)
Lemma marked_by_set_status (status : string) (rid : json) (s : Session) :
  truthy rid = true ->
  marked_by status rid s
    match set_status status rid s with
    | Ok (Some s') => s'
    | Ok None => s
    | Raise _ => rollback s
    end.
Proof.
  intros Ht. unfold marked_by, set_status, Store.commit. rewrite Ht.
  unfold Store.first_where.
  destruct (Store.bindable rid) eqn:Hb; cbn [bind]; [|reflexivity].
  destruct (find _ (connections (live s))) as [c|] eqn:Hfind; cbn [bind];
    [|reflexivity].
  destruct (Store.violated (live (assigned status rid c s))) eqn:Hv; cbn [bind].
  - left. split; [discriminate | reflexivity].
  - right. split; [reflexivity|].
    cbn [commit assigned live saved with_connections customers accounts
         transactions connections].
    split; [reflexivity|]. split; [reflexivity|]. split; [reflexivity|].
    split; [reflexivity|]. split.
    + unfold ckeys. cbn [connections]. now apply update_first_same_keys.
    + do 2 f_equal.
      apply SyncProps.update_first_find; [|congruence].
      apply find_some in Hfind as [_ Hm]. exact Hm.
Qed.

(** A failure or a destroy callback deletes no row, whatever the
    payload is.  Without a connection id in the payload, or without a
    stored connection of that id, the session is left as it was; an id
    that cannot be bound, or a commit the database refuses, ends in the
    rollback of the handler; and else the stored connection the filter
    selects gets the status error, respectively removed, and the
    session is committed with every row under its keys. *)
Theorem marking_keeps_rows (callback_data : json) (s : Session) :
  marked "error" callback_data s (snd (process_failure_callback callback_data s))
  /\ marked "removed" callback_data s (snd (process_destroy_callback callback_data s)).
Proof.
  unfold marked. split.
  - unfold process_failure_callback. cbv zeta.
    destruct callback_data as [| | | | |kvs];
      try (apply marked_by_same; reflexivity).
    unfold get at 1.
    assert (Hdata : exists data,
              match lookup "data" kvs with Some v => Ok v | None => Ok (JObj []) end
              = Ok data
              /\ payload_connection (JObj kvs) = field data "connection_id").
    { unfold payload_connection, field_default, get.
      destruct (lookup "data" kvs) as [v|]; eexists; split; reflexivity. }
    destruct Hdata as (data & -> & Hrid). cbn [bind]. rewrite Hrid.
    destruct data as [| | | | |fields];
      try (apply marked_by_same; reflexivity).
    unfold handle_error_callback, handle_error_try.
    unfold field. cbn [get bind].
    destruct (lookup "connection_id" fields) as [rid|];
      destruct (lookup "error_class" fields);
      destruct (lookup "error_message" fields); cbn [bind snd];
      try (apply marked_by_same; reflexivity);
      (destruct (truthy rid) eqn:Ht;
       [|cbn [snd]; apply marked_by_same; rewrite Ht; reflexivity]);
      pose proof (marked_by_set_status "error" rid s Ht) as Hm;
      destruct (set_status "error" rid s) as [[s'|]|e]; exact Hm.
  - unfold process_destroy_callback. cbv zeta.
    destruct callback_data as [| | | | |kvs];
      try (apply marked_by_same; reflexivity).
    unfold get at 1.
    assert (Hdata : exists data,
              match lookup "data" kvs with Some v => Ok v | None => Ok (JObj []) end
              = Ok data
              /\ payload_connection (JObj kvs) = field data "connection_id").
    { unfold payload_connection, field_default, get.
      destruct (lookup "data" kvs) as [v|]; eexists; split; reflexivity. }
    destruct Hdata as (data & -> & Hrid). cbn [bind]. rewrite Hrid.
    destruct data as [| | | | |fields];
      try (apply marked_by_same; reflexivity).
    unfold handle_destroy_callback, handle_destroy_try.
    unfold field. cbn [get bind].
    destruct (lookup "connection_id" fields) as [rid|];
      destruct (lookup "customer_id" fields); cbn [bind snd];
      try (apply marked_by_same; reflexivity);
      (destruct (truthy rid) eqn:Ht;
       [|cbn [snd]; apply marked_by_same; rewrite Ht; reflexivity]);
      pose proof (marked_by_set_status "removed" rid s Ht) as Hm;
      destruct (set_status "removed" rid s) as [[s'|]|e]; exact Hm.
Qed.

(** A destroy callback for conn_1 after a sync: the connection is
    marked, its accounts and transactions stay. *)
Example destroy_after_sync :
  let s := db (snd (sync_customer_data Scenario.aggregator "alice" Scenario.start)) in
  let payload := JObj [("data", JObj [("connection_id", JStr "conn_1")])] in
  let s' := snd (process_destroy_callback payload s) in
  map connection_status (connections (saved s')) = [JStr "removed"]
  /\ length (accounts (saved s')) = 2%nat
  /\ length (transactions (saved s')) = 6%nat.
Proof. vm_compute. repeat split. Qed.

(** The same callback with a list as the connection id: the query
    raises, the handler rolls back and no connection is marked. *)
Example destroy_with_unbound_id :
  let s := db (snd (sync_customer_data Scenario.aggregator "alice" Scenario.start)) in
  let payload := JObj [("data", JObj [("connection_id", JArr [JStr "conn_1"])])] in
  snd (process_destroy_callback payload s) = rollback s.
Proof. vm_compute. reflexivity. Qed.

End CallbackEndpoints.

(* ================================================================== *)
(** * The status probe and its helpers: services/status_checker.py *)

Module StatusProbe.
Import Bytes Py Text PyFormat StatusChecker.

(** [len(s)] of a [str]: its code points, the bytes that do not continue
    a character. *)
Definition code_points (s : string) : nat :=
  length (filter (fun b => negb (is_cont b)) (list_byte_of_string s)).

(** [len(v)]. *)
Definition len (v : json) : result nat :=
  match v with
  | JArr l => Ok (length l)
  | JObj kvs => Ok (length kvs)
  | JStr s => Ok (code_points s)
  | _ => Raise (TypeError "object has no len()")
  end.

(** [needle in hay] on two [str]. *)
Fixpoint substring_in (needle hay : string) : bool :=
  String.prefix needle hay
  || match hay with
     | EmptyString => false
     | String _ rest => substring_in needle rest
     end.

(** [key in v] for a [str] key. *)
Definition contains (key : string) (v : json) : result bool :=
  match v with
  | JObj kvs => Ok (has_key key kvs)
  | JArr l => Ok (existsb (json_eqb (JStr key)) l)
  | JStr s => Ok (substring_in key s)
  | _ => Raise (TypeError "argument is not iterable")
  end.

(** The truth value of [response and 'data' in response]. *)
Definition has_data (response : json) : result bool :=
  if truthy response then contains "data" response else Ok false.

(** The calls the checker makes on the client; create_customer is
    always called with the identifier status_test_customer and the
    email test@example.com. *)
Inductive probe :=
| ListCountries
| ListProviders
| CreateCustomer
| RemoveCustomer (customer_id : json).

(** The dict [check_account_status] returns: the five flags, the keys
    set along the way, the estimate and the recommendations. *)
Record report := {
  flags : status_info;
  estimated_status : string;
  recommendations : list string;
  countries_count : option nat;
  providers_count : option nat;
  fake_providers_count : option nat;
  real_providers_count : option nat;
  api_error : option string;
  provider_error : option string;
  customer_error : option string
}.

Definition initial : report :=
  {| flags := {| api_accessible := false; can_create_customers := false;
                 can_list_providers := false; can_access_real_providers := false;
                 fake_providers_available := false |};
     estimated_status := "unknown"; recommendations := [];
     countries_count := None; providers_count := None;
     fake_providers_count := None; real_providers_count := None;
     api_error := None; provider_error := None; customer_error := None |}.

Definition with_flags (r : report) (f : status_info) : report :=
  {| flags := f; estimated_status := estimated_status r;
     recommendations := recommendations r; countries_count := countries_count r;
     providers_count := providers_count r;
     fake_providers_count := fake_providers_count r;
     real_providers_count := real_providers_count r; api_error := api_error r;
     provider_error := provider_error r; customer_error := customer_error r |}.

Definition set_api_accessible (r : report) : report :=
  with_flags r
    {| api_accessible := true;
       can_create_customers := can_create_customers (flags r);
       can_list_providers := can_list_providers (flags r);
       can_access_real_providers := can_access_real_providers (flags r);
       fake_providers_available := fake_providers_available (flags r) |}.

Definition set_can_list_providers (r : report) : report :=
  with_flags r
    {| api_accessible := api_accessible (flags r);
       can_create_customers := can_create_customers (flags r);
       can_list_providers := true;
       can_access_real_providers := can_access_real_providers (flags r);
       fake_providers_available := fake_providers_available (flags r) |}.

Definition set_can_create_customers (r : report) : report :=
  with_flags r
    {| api_accessible := api_accessible (flags r);
       can_create_customers := true;
       can_list_providers := can_list_providers (flags r);
       can_access_real_providers := can_access_real_providers (flags r);
       fake_providers_available := fake_providers_available (flags r) |}.

Definition set_countries_count (r : report) (n : nat) : report :=
  {| flags := flags r; estimated_status := estimated_status r;
     recommendations := recommendations r; countries_count := Some n;
     providers_count := providers_count r;
     fake_providers_count := fake_providers_count r;
     real_providers_count := real_providers_count r; api_error := api_error r;
     provider_error := provider_error r; customer_error := customer_error r |}.

Definition set_providers_count (r : report) (n : nat) : report :=
  {| flags := flags r; estimated_status := estimated_status r;
     recommendations := recommendations r; countries_count := countries_count r;
     providers_count := Some n;
     fake_providers_count := fake_providers_count r;
     real_providers_count := real_providers_count r; api_error := api_error r;
     provider_error := provider_error r; customer_error := customer_error r |}.

(** Lines 51 to 54: the four entries computed from the two lists. *)
Definition set_provider_details (r : report) (fake real : nat) : report :=
  {| flags := {| api_accessible := api_accessible (flags r);
                 can_create_customers := can_create_customers (flags r);
                 can_list_providers := can_list_providers (flags r);
                 can_access_real_providers := Nat.ltb 0 real;
                 fake_providers_available := Nat.ltb 0 fake |};
     estimated_status := estimated_status r;
     recommendations := recommendations r; countries_count := countries_count r;
     providers_count := providers_count r;
     fake_providers_count := Some fake;
     real_providers_count := Some real; api_error := api_error r;
     provider_error := provider_error r; customer_error := customer_error r |}.

(** The handler of the first [try]. *)
Definition api_failed (r : report) (e : exn) : report :=
  {| flags := flags r; estimated_status := estimated_status r;
     recommendations :=
       recommendations r ++ ["Check your Salt Edge API credentials"];
     countries_count := countries_count r;
     providers_count := providers_count r;
     fake_providers_count := fake_providers_count r;
     real_providers_count := real_providers_count r;
     api_error := Some (str_exn e);
     provider_error := provider_error r; customer_error := customer_error r |}.

Definition set_provider_error (r : report) (e : exn) : report :=
  {| flags := flags r; estimated_status := estimated_status r;
     recommendations := recommendations r; countries_count := countries_count r;
     providers_count := providers_count r;
     fake_providers_count := fake_providers_count r;
     real_providers_count := real_providers_count r; api_error := api_error r;
     provider_error := Some (str_exn e); customer_error := customer_error r |}.

Definition set_customer_error (r : report) (e : exn) : report :=
  {| flags := flags r; estimated_status := estimated_status r;
     recommendations := recommendations r; countries_count := countries_count r;
     providers_count := providers_count r;
     fake_providers_count := fake_providers_count r;
     real_providers_count := real_providers_count r; api_error := api_error r;
     provider_error := provider_error r; customer_error := Some (str_exn e) |}.

(** [SaltEdgeStatusChecker._get_recommendations], on the estimate. *)
Definition _get_recommendations (status : string) : list string :=
  if String.eqb status "invalid_credentials" then
    ["Check your SALTEDGE_APP_ID and SALTEDGE_SECRET_KEY in .env file";
     "Verify credentials in Salt Edge Dashboard at https://www.saltedge.com/clients/profile/secrets"]
  else if String.eqb status "pending" then
    ["Complete your company profile in Salt Edge Dashboard";
     "Contact Salt Edge support or your Project Manager to request Test status";
     "Implement basic integration (which you already have!)";
     "Review the 'Before going LIVE' checklist in documentation"]
  else if String.eqb status "test" then
    ["You can now test with fake providers and sandboxes";
     "Implement request signing for production readiness";
     "Test your complete integration flow";
     "To go Live, contact your Project Manager with a test account in your app"]
  else if String.eqb status "live" then
    ["You have full production access!";
     "Make sure request signing is implemented";
     "Monitor your usage and stay within rate limits";
     "Subscribe to Salt Edge status page for updates"]
  else [].

(** Lines 80 and 81. *)
Definition finish (r : report) : report :=
  let status := tier_name (_estimate_status (flags r)) in
  {| flags := flags r; estimated_status := status;
     recommendations := _get_recommendations status;
     countries_count := countries_count r;
     providers_count := providers_count r;
     fake_providers_count := fake_providers_count r;
     real_providers_count := real_providers_count r; api_error := api_error r;
     provider_error := provider_error r; customer_error := customer_error r |}.

(** A list comprehension with a condition that may raise. *)
Fixpoint select (keep : json -> result bool) (items : list json)
    : result (list json) :=
  match items with
  | [] => Ok []
  | p :: rest =>
      bind (keep p) (fun k =>
      bind (select keep rest) (fun chosen =>
      Ok (if k then p :: chosen else chosen)))
  end.

Section Probe.

(** [str.lower]; the case mapping of Unicode is not spelled out. *)
Variable lower : string -> string.

(** The client with the API behind it: a state of any kind and its
    answer to each call. *)
Variable R : Type.
Variable call : R -> probe -> result json * R.

(** [p.get('code', '').lower()]. *)
Definition lowered_code (p : json) : result string :=
  bind (get p "code" (JStr "")) (fun code =>
  match code with
  | JStr s => Ok (lower s)
  | _ => Raise (AttributeError "object has no attribute 'lower'")
  end).

Definition is_fake (p : json) : result bool :=
  bind (lowered_code p) (fun s => Ok (substring_in "fake" s)).

Definition is_real (p : json) : result bool :=
  bind (lowered_code p) (fun s => Ok (negb (substring_in "fake" s))).

(** The first [try] block: the report so far, and the exception that
    ended the block, if any. *)
Definition countries_try (info : report) (answer : result json)
    : report * option exn :=
  match answer with
  | Raise e => (info, Some e)
  | Ok countries =>
      match has_data countries with
      | Raise e => (info, Some e)
      | Ok false => (info, None)
      | Ok true =>
          let info1 := set_api_accessible info in
          match bind (getitem countries "data") len with
          | Raise e => (info1, Some e)
          | Ok n => (set_countries_count info1 n, None)
          end
      end
  end.

(** The second [try] block. *)
Definition providers_try (info : report) (answer : result json)
    : report * option exn :=
  match answer with
  | Raise e => (info, Some e)
  | Ok providers =>
      match has_data providers with
      | Raise e => (info, Some e)
      | Ok false => (info, None)
      | Ok true =>
          let info1 := set_can_list_providers info in
          match bind (getitem providers "data") (fun data =>
                bind (len data) (fun n => Ok (data, n))) with
          | Raise e => (info1, Some e)
          | Ok (data, n) =>
              let info2 := set_providers_count info1 n in
              match bind (iterate data) (fun items =>
                    bind (select is_fake items) (fun fake_providers =>
                    bind (select is_real items) (fun real_providers =>
                    Ok (fake_providers, real_providers)))) with
              | Raise e => (info2, Some e)
              | Ok (fake_providers, real_providers) =>
                  (set_provider_details info2 (length fake_providers)
                                        (length real_providers), None)
              end
          end
      end
  end.

(** The third [try] block, with the removal of the test customer in
    its own [try], whose failure is ignored. *)
Definition customer_try (info : report) (answer : result json) (h : R)
    : report * option exn * R :=
  match answer with
  | Raise e => (info, Some e, h)
  | Ok test_customer =>
      match has_data test_customer with
      | Raise e => (info, Some e, h)
      | Ok false => (info, None, h)
      | Ok true =>
          let info1 := set_can_create_customers info in
          match bind (getitem test_customer "data") (fun d => getitem d "id") with
          | Raise _ => (info1, None, h)
          | Ok id => (info1, None, snd (call h (RemoveCustomer id)))
          end
      end
  end.

(** [SaltEdgeStatusChecker.check_account_status]. *)
Definition check_account_status (h : R) : report * R :=
  let '(countries, h1) := call h ListCountries in
  match countries_try initial countries with
  | (info, Some e) => (api_failed info e, h1)
  | (info, None) =>
      let '(providers, h2) := call h1 ListProviders in
      let info2 :=
        match providers_try info providers with
        | (i, Some e) => set_provider_error i e
        | (i, None) => i
        end in
      let '(test_customer, h3) := call h2 CreateCustomer in
      match customer_try info2 test_customer h3 with
      | (i, Some e, h4) => (finish (set_customer_error i e), h4)
      | (i, None, h4) => (finish i, h4)
      end
  end.

(** What [get_test_providers] returns: the dict of the providers, the
    dict of the error, or None. *)
Inductive test_providers :=
| Providers (fake_providers : list json) (count : nat)
            (recommended_for_testing : list json)
| ProvidersError (error : string)
| NoProviders.

(** ['fake' in code.lower() or code.startswith('faux_')]. *)
Definition is_test_provider (p : json) : result bool :=
  bind (get p "code" (JStr "")) (fun code =>
  match code with
  | JStr s =>
      Ok (substring_in "fake" (lower s) || String.prefix "faux_" s)
  | _ => Raise (AttributeError "object has no attribute 'lower'")
  end).

(** [p.get('code') in [...]]. *)
Definition is_recommended (p : json) : result bool :=
  bind (get p "code" JNull) (fun code =>
  Ok (existsb (json_eqb code)
        [JStr "fake_client_xf"; JStr "faux_banque_xf"; JStr "fake_oauth_client_xf"])).

(** [SaltEdgeStatusChecker.get_test_providers]. *)
Definition get_test_providers (h : R) : test_providers * R :=
  let '(answer, h1) := call h ListProviders in
  let attempt :=
    bind answer (fun providers =>
    bind (has_data providers) (fun ok =>
    if ok then
      bind (getitem providers "data") (fun data =>
      bind (iterate data) (fun items =>
      bind (select is_test_provider items) (fun fake_providers =>
      bind (select is_recommended fake_providers) (fun recommended =>
      Ok (Providers fake_providers (length fake_providers) recommended)))))
    else Ok NoProviders)) in
  match attempt with
  | Ok r => (r, h1)
  | Raise e => (ProvidersError (str_exn e), h1)
  end.


Lemma countries_try_keeps (answer : result json) :
  let out := countries_try initial answer in
  api_error (fst out) = None /\ provider_error (fst out) = None
  /\ customer_error (fst out) = None
  /\ recommendations (fst out) = [] /\ estimated_status (fst out) = "unknown"
  /\ providers_count (fst out) = None /\ fake_providers_count (fst out) = None
  /\ real_providers_count (fst out) = None
  /\ can_create_customers (flags (fst out)) = false
  /\ can_list_providers (flags (fst out)) = false.
Proof.
  cbv zeta. unfold countries_try.
  destruct answer as [countries|e]; [|now repeat split].
  destruct (has_data countries) as [[|]|e]; try now repeat split.
  destruct (bind (getitem countries "data") len); now repeat split.
Qed.

Lemma providers_try_keeps (info : report) (answer : result json) :
  let out := providers_try info answer in
  api_error (fst out) = api_error info
  /\ customer_error (fst out) = customer_error info
  /\ provider_error (fst out) = provider_error info
  /\ api_accessible (flags (fst out)) = api_accessible (flags info)
  /\ can_create_customers (flags (fst out)) = can_create_customers (flags info).
Proof.
  cbv zeta. unfold providers_try.
  destruct answer as [providers|e]; [|now repeat split].
  destruct (has_data providers) as [[|]|e]; try now repeat split.
  destruct (bind (getitem providers "data") _) as [[data n]|e]; [|now repeat split].
  destruct (bind (iterate data) _) as [[f r]|e]; now repeat split.
Qed.

Lemma customer_try_keeps (info : report) (answer : result json) (h : R) :
  let out := customer_try info answer h in
  api_error (fst (fst out)) = api_error info.
Proof.
  cbv zeta. unfold customer_try.
  destruct answer as [tc|e]; [|reflexivity].
  destruct (has_data tc) as [[|]|e]; try reflexivity.
  destruct (bind (getitem tc "data") _); reflexivity.
Qed.

Lemma recommendations_none (t : tier) :
  _get_recommendations (tier_name t) = [] <-> tier_name t = "unknown".
Proof. destruct t; cbn; split; intros H; try discriminate; reflexivity. Qed.

(** The report is consistent.  When it carries an api_error, the probe
    stopped after list_countries: the estimate is left at unknown (not
    invalid_credentials), the one recommendation is to check the
    credentials, and no provider or customer call was made.  Otherwise
    the estimate is the classification of the report's own flags, the
    recommendations are those of the estimate, and there are none
    exactly when the estimate is unknown. *)
Theorem probe_report_consistent (h : R) :
  let out := check_account_status h in
  let r := fst out in
  match api_error r with
  | Some _ =>
      estimated_status r = "unknown"
      /\ recommendations r = ["Check your Salt Edge API credentials"]
      /\ snd out = snd (call h ListCountries)
      /\ can_create_customers (flags r) = false
      /\ can_list_providers (flags r) = false
      /\ providers_count r = None
  | None =>
      estimated_status r = tier_name (_estimate_status (flags r))
      /\ recommendations r = _get_recommendations (estimated_status r)
      /\ (recommendations r = [] <-> estimated_status r = "unknown")
  end.
Proof.
  cbv zeta. unfold check_account_status.
  destruct (call h ListCountries) as [countries h1]. cbn [snd].
  pose proof (countries_try_keeps countries) as Hk. cbv zeta in Hk.
  destruct (countries_try initial countries) as [info [e|]]; cbn [fst] in Hk;
    destruct Hk as (K1 & K2 & K3 & K4 & K5 & K6 & K7 & K8 & K9 & K10).
  - cbn [fst snd api_failed api_error estimated_status recommendations flags
         providers_count].
    rewrite K4, K5. now repeat split.
  - destruct (call h1 ListProviders) as [providers h2].
    pose proof (providers_try_keeps info providers) as Hp. cbv zeta in Hp.
    destruct Hp as (P1 & _).
    set (info2 := match providers_try info providers with
                  | (i, Some e) => set_provider_error i e
                  | (i, None) => i
                  end).
    assert (H2 : api_error info2 = None).
    { unfold info2. destruct (providers_try info providers) as [i [e|]];
        cbn [fst] in P1; cbn [set_provider_error api_error]; congruence. }
    destruct (call h2 CreateCustomer) as [test_customer h3].
    pose proof (customer_try_keeps info2 test_customer h3) as Hc. cbv zeta in Hc.
    destruct (customer_try info2 test_customer h3) as [[i [e|]] h4];
      cbn [fst snd] in *;
      cbn [finish set_customer_error api_error estimated_status recommendations flags];
      rewrite Hc, H2; (split; [reflexivity|]); (split; [reflexivity|]);
      apply recommendations_none.
Qed.


Lemma select_partition (items fake real : list json) :
  select is_fake items = Ok fake -> select is_real items = Ok real ->
  (length fake + length real = length items)%nat.
Proof.
  revert fake real. induction items as [|p items IH]; intros fake real.
  - cbn [select]. intros [= <-] [= <-]. reflexivity.
  - cbn [select]. unfold is_fake at 1, is_real at 1.
    destruct (lowered_code p) as [s|e]; cbn [bind]; [|discriminate].
    destruct (select is_fake items) as [f|e]; cbn [bind]; [|discriminate].
    destruct (select is_real items) as [r|e]; cbn [bind]; [|discriminate].
    specialize (IH f r eq_refl eq_refl).
    destruct (substring_in "fake" s); cbn [negb]; intros [= <-] [= <-];
      cbn [Datatypes.length]; lia.
Qed.

(** What can be iterated with every item a dict has as many items as
    [len] says. *)
Lemma select_len (data : json) (items fake : list json) (n : nat) :
  len data = Ok n -> iterate data = Ok items -> select is_fake items = Ok fake ->
  n = length items.
Proof.
  destruct data as [| | |s|l|kvs]; cbn [len iterate]; try discriminate.
  - intros [= <-] [= <-]. destruct s as [|c s]; [reflexivity|].
    cbn [list_ascii_of_string map select]. unfold is_fake at 1, lowered_code.
    cbn [get bind]. discriminate.
  - now intros [= <-] [= <-].
  - intros [= <-] [= <-]. destruct kvs as [|[k v] kvs]; [reflexivity|].
    cbn [map select fst]. unfold is_fake at 1, lowered_code.
    cbn [get bind]. discriminate.
Qed.

Definition detailed (r : report) : Prop :=
  match fake_providers_count r with
  | Some fake =>
      exists n real,
        providers_count r = Some n /\ real_providers_count r = Some real
        /\ (fake + real = n)%nat
        /\ fake_providers_available (flags r) = Nat.ltb 0 fake
        /\ can_access_real_providers (flags r) = Nat.ltb 0 real
        /\ can_list_providers (flags r) = true
        /\ provider_error r = None
  | None => True
  end.

Lemma providers_try_detailed (info : report) (answer : result json) :
  fake_providers_count info = None -> provider_error info = None ->
  let out := providers_try info answer in
  match snd out with
  | Some e => fake_providers_count (fst out) = None
  | None => detailed (fst out)
  end.
Proof.
  intros Hf He. cbv zeta. unfold providers_try, detailed.
  destruct answer as [providers|e]; cbn [fst snd]; [|exact Hf].
  destruct (has_data providers) as [[|]|e]; cbn [fst snd]; try exact Hf;
    [|now rewrite Hf].
  destruct (getitem providers "data") as [data|e]; cbn [bind fst snd]; [|exact Hf].
  destruct (len data) as [n|e] eqn:Hlen; cbn [bind fst snd]; [|exact Hf].
  destruct (iterate data) as [items|e] eqn:Hit; cbn [bind fst snd]; [|exact Hf].
  destruct (select is_fake items) as [fake|e] eqn:Hfake; cbn [bind fst snd];
    [|exact Hf].
  destruct (select is_real items) as [real|e] eqn:Hreal; cbn [bind fst snd];
    [|exact Hf].
  cbn [set_provider_details fake_providers_count providers_count real_providers_count
       flags fake_providers_available can_access_real_providers can_list_providers
       provider_error set_providers_count set_can_list_providers with_flags].
  exists n, (length real). repeat split; try assumption.
  rewrite (select_len data items fake n Hlen Hit Hfake).
  now apply select_partition.
Qed.

Lemma customer_try_detailed (info : report) (answer : result json) (h : R) :
  detailed info -> detailed (fst (fst (customer_try info answer h))).
Proof.
  unfold customer_try.
  destruct answer as [tc|e]; [|trivial].
  destruct (has_data tc) as [[|]|e]; try trivial.
  destruct (bind (getitem tc "data") _); trivial.
Qed.

(** The provider counts of a report add up: when fake_providers_count
    is present, so are providers_count and real_providers_count, the
    fake and the real providers together are all the providers listed,
    the two availability flags say whether each count is positive, and
    no provider_error is reported. *)
Theorem provider_counts_partition (h : R) :
  let r := fst (check_account_status h) in
  match fake_providers_count r with
  | Some fake =>
      exists n real,
        providers_count r = Some n /\ real_providers_count r = Some real
        /\ (fake + real = n)%nat
        /\ fake_providers_available (flags r) = Nat.ltb 0 fake
        /\ can_access_real_providers (flags r) = Nat.ltb 0 real
        /\ can_list_providers (flags r) = true
        /\ provider_error r = None
  | None => True
  end.
Proof.
  cbv zeta. change (detailed (fst (check_account_status h))).
  unfold check_account_status.
  destruct (call h ListCountries) as [countries h1].
  pose proof (countries_try_keeps countries) as Hk. cbv zeta in Hk.
  destruct (countries_try initial countries) as [info [e|]]; cbn [fst] in Hk;
    destruct Hk as (K1 & K2 & K3 & K4 & K5 & K6 & K7 & K8 & K9 & K10).
  - cbn [fst]. unfold detailed. cbn [api_failed fake_providers_count]. now rewrite K7.
  - destruct (call h1 ListProviders) as [providers h2].
    pose proof (providers_try_detailed info providers K7 K2) as Hp. cbv zeta in Hp.
    set (info2 := match providers_try info providers with
                  | (i, Some e) => set_provider_error i e
                  | (i, None) => i
                  end).
    assert (H2 : detailed info2).
    { unfold info2. destruct (providers_try info providers) as [i [e|]];
        cbn [fst snd] in Hp; [|exact Hp].
      unfold detailed. cbn [set_provider_error fake_providers_count]. now rewrite Hp. }
    destruct (call h2 CreateCustomer) as [test_customer h3].
    pose proof (customer_try_detailed info2 test_customer h3 H2) as Hc.
    destruct (customer_try info2 test_customer h3) as [[i [e|]] h4];
      cbn [fst snd] in *; exact Hc.
Qed.


(** [p.get('code') in [...]] as a filter on dicts. *)
Definition recommended_code (p : json) : bool :=
  existsb (json_eqb (Sync.field p "code"))
    [JStr "fake_client_xf"; JStr "faux_banque_xf"; JStr "fake_oauth_client_xf"].

(** A string of ASCII characters without a capital letter. *)
Definition plain (s : string) : bool :=
  forallb (fun b => (byte_val b <=? 0x7F)
                    && negb ((0x41 <=? byte_val b) && (byte_val b <=? 0x5A)))
          (list_byte_of_string s).

(** [str.lower] leaves such a string as it is. *)
Hypothesis lower_plain : forall s, plain s = true -> lower s = s.

Lemma recommended_is_test_provider (p : json) (k : bool) :
  is_test_provider p = Ok k -> recommended_code p = true -> k = true.
Proof.
  unfold is_test_provider, recommended_code, Sync.field.
  destruct p as [| | | | |kvs]; cbn [get bind]; try discriminate.
  destruct (lookup "code" kvs) as [code|]; cbn [bind].
  - cbn [existsb]. intros Hk Hrec.
    apply orb_prop in Hrec as [H|Hrec]; [|apply orb_prop in Hrec as [H|Hrec];
      [|apply orb_prop in Hrec as [H|H]; [|discriminate]]];
      apply JsonFacts.json_eqb_eq in H; subst code;
      rewrite lower_plain in Hk by reflexivity;
      now injection Hk as <-.
  - intros _ H. discriminate.
Qed.

Lemma is_recommended_dict (p : json) (k : bool) :
  is_test_provider p = Ok k -> is_recommended p = Ok (recommended_code p).
Proof.
  unfold is_test_provider, is_recommended, recommended_code, Sync.field.
  destruct p as [| | | | |kvs]; cbn [get bind]; try discriminate.
  destruct (lookup "code" kvs); reflexivity.
Qed.

Lemma select_recommended (items fake recommended : list json) :
  select is_test_provider items = Ok fake ->
  select is_recommended fake = Ok recommended ->
  recommended = filter recommended_code items /\ incl fake items.
Proof.
  revert fake recommended. induction items as [|p items IH]; intros fake recommended.
  - cbn [select]. intros [= <-]. cbn [select]. intros [= <-].
    split; [reflexivity | apply incl_refl].
  - cbn [select filter].
    destruct (is_test_provider p) as [k|e] eqn:Hp; cbn [bind]; [|discriminate].
    destruct (select is_test_provider items) as [f|e]; cbn [bind]; [|discriminate].
    intros [= <-]. destruct k.
    + cbn [select]. rewrite (is_recommended_dict p true Hp). cbn [bind].
      destruct (select is_recommended f) as [r|e] eqn:Hr; cbn [bind]; [|discriminate].
      intros [= <-]. destruct (IH f r eq_refl Hr) as [-> Hincl].
      split; [reflexivity|]. intros x [<-|Hx]; [now left | right; now apply Hincl].
    + intros Hr. destruct (IH f recommended eq_refl Hr) as [-> Hincl].
      split; [|now apply incl_tl].
      destruct (recommended_code p) eqn:Hrec; [|reflexivity].
      pose proof (recommended_is_test_provider p false Hp Hrec). discriminate.
Qed.

(** When [get_test_providers] returns the providers: count is the
    number of fake providers, these are among the providers listed, and
    recommended_for_testing holds every listed provider whose code is
    one of the three recommended codes, in order: the selection of the
    fake providers loses none of them. *)
Theorem recommended_providers_kept (h h1 : R) (providers data : json)
    (items fake_providers recommended : list json) (count : nat) :
  call h ListProviders = (Ok providers, h1) ->
  getitem providers "data" = Ok data ->
  iterate data = Ok items ->
  fst (get_test_providers h) = Providers fake_providers count recommended ->
  count = length fake_providers
  /\ incl fake_providers items
  /\ recommended = filter recommended_code items.
Proof.
  intros Hcall Hdata Hitems. unfold get_test_providers. rewrite Hcall. cbn [bind].
  destruct (has_data providers) as [[|]|e]; cbn [bind fst]; try discriminate.
  rewrite Hdata. cbn [bind]. rewrite Hitems. cbn [bind].
  destruct (select is_test_provider items) as [f|e] eqn:Hf; cbn [bind fst];
    [|discriminate].
  destruct (select is_recommended f) as [r|e] eqn:Hr; cbn [bind fst]; [|discriminate].
  intros [= <- <- <-]. split; [reflexivity|].
  destruct (select_recommended items f r Hf Hr) as [-> Hincl]. now split.
Qed.

End Probe.

(** [str.lower] on ASCII text. *)
Definition lower_char (c : ascii) : ascii :=
  let n := nat_of_ascii c in
  if Nat.leb 65 n && Nat.leb n 90 then ascii_of_nat (n + 32) else c.

Fixpoint ascii_lower (s : string) : string :=
  match s with
  | EmptyString => EmptyString
  | String c rest => String (lower_char c) (ascii_lower rest)
  end.

Lemma ascii_lower_plain (s : string) : plain s = true -> ascii_lower s = s.
Proof.
  unfold plain. induction s as [|c s IH]; [reflexivity|].
  change (list_byte_of_string (String c s))
    with (byte_of_ascii c :: list_byte_of_string s).
  cbn [forallb ascii_lower]. intros H. apply andb_prop in H as [Hc Hs].
  rewrite (IH Hs). f_equal. clear IH Hs.
  destruct c as [[] [] [] [] [] [] [] []]; try reflexivity; discriminate Hc.
Qed.

(** An API with three providers, two of them fake. *)
Definition test_api (_ : unit) (q : probe) : result json * unit :=
  (match q with
   | ListCountries => Ok (JObj [("data", JArr [JObj [("code", JStr "GB")]])])
   | ListProviders =>
       Ok (JObj [("data", JArr [JObj [("code", JStr "fake_client_xf")];
                                JObj [("code", JStr "Fake_Bank_XF")];
                                JObj [("code", JStr "hsbc_gb")]])])
   | CreateCustomer => Ok (JObj [("data", JObj [("id", JStr "555")])])
   | RemoveCustomer _ => Raise (ClientError "404 Client Error: Not Found")
   end, tt).

Example test_api_report :
  let r := fst (check_account_status ascii_lower unit test_api tt) in
  estimated_status r = "live"
  /\ providers_count r = Some 3%nat
  /\ fake_providers_count r = Some 2%nat
  /\ real_providers_count r = Some 1%nat
  /\ countries_count r = Some 1%nat
  /\ customer_error r = None.
Proof. vm_compute. repeat split. Qed.


Lemma recommended_providers_kept_witness :
  let p1 := JObj [("code", JStr "fake_client_xf")] in
  let p2 := JObj [("code", JStr "Fake_Bank_XF")] in
  let p3 := JObj [("code", JStr "hsbc_gb")] in
  2%nat = length [p1; p2]
  /\ incl [p1; p2] [p1; p2; p3]
  /\ [p1] = filter recommended_code [p1; p2; p3].
Proof.
  cbv zeta.
  apply (recommended_providers_kept ascii_lower unit test_api ascii_lower_plain tt tt
           (JObj [("data", JArr [JObj [("code", JStr "fake_client_xf")];
                                 JObj [("code", JStr "Fake_Bank_XF")];
                                 JObj [("code", JStr "hsbc_gb")]])])
           (JArr [JObj [("code", JStr "fake_client_xf")];
                  JObj [("code", JStr "Fake_Bank_XF")];
                  JObj [("code", JStr "hsbc_gb")]]));
    reflexivity.
Defined.

Lemma customer_try_report (R : Type) (call1 call2 : R -> probe -> result json * R)
    (info : report) (answer : result json) (h1 h2 : R) :
  fst (customer_try R call1 info answer h1) = fst (customer_try R call2 info answer h2).
Proof.
  unfold customer_try. destruct answer as [tc|e]; [|reflexivity].
  destruct (has_data tc) as [[|]|e]; try reflexivity.
  destruct (bind (getitem tc "data") _); reflexivity.
Qed.

(** The removal of the test customer does not show in the report: two
    APIs that answer alike to list_countries, list_providers and
    create_customer give the same report, whatever each does when the
    test customer is removed. *)
Theorem cleanup_outcome_ignored (lower : string -> string) (R : Type)
    (call1 call2 : R -> probe -> result json * R) (h : R) :
  (forall h q, (forall id, q <> RemoveCustomer id) -> call1 h q = call2 h q) ->
  fst (check_account_status lower R call1 h)
  = fst (check_account_status lower R call2 h).
Proof.
  intros Hagree. unfold check_account_status.
  rewrite <- (Hagree h ListCountries) by discriminate.
  destruct (call1 h ListCountries) as [countries h1].
  destruct (countries_try initial countries) as [info [e|]]; [reflexivity|].
  rewrite <- (Hagree h1 ListProviders) by discriminate.
  destruct (call1 h1 ListProviders) as [providers h2].
  rewrite <- (Hagree h2 CreateCustomer) by discriminate.
  destruct (call1 h2 CreateCustomer) as [test_customer h3].
  match goal with
  | |- context [customer_try R call1 ?i test_customer h3] =>
      pose proof (customer_try_report R call1 call2 i test_customer h3 h3) as Hc
  end.
  destruct (customer_try R call1 _ test_customer h3) as [[i1 o1] h4].
  destruct (customer_try R call2 _ test_customer h3) as [[i2 o2] h5].
  cbn [fst] in Hc. injection Hc as <- <-.
  now destruct o1.
Qed.

(** The same API, with a removal that succeeds. *)
Definition tidy_test_api (h : unit) (q : probe) : result json * unit :=
  match q with
  | RemoveCustomer _ => (Ok (JObj [("data", JObj [("deleted", JBool true)])]), tt)
  | _ => test_api h q
  end.

Lemma cleanup_outcome_ignored_witness :
  fst (check_account_status ascii_lower unit test_api tt)
  = fst (check_account_status ascii_lower unit tidy_test_api tt).
Proof.
  apply (cleanup_outcome_ignored ascii_lower unit test_api tidy_test_api tt).
  intros h q Hq. destruct q; try reflexivity. now contradiction (Hq customer_id).
Defined.

(** ** Readiness *)

Record checks := {
  request_signing_implemented : bool;
  error_handling_implemented : bool;
  webhook_handling_ready : bool;
  database_configured : bool;
  environment_variables_set : bool;
  ready_for_live : bool
}.

Record readiness := {
  readiness_checks : checks;
  missing_requirements : list string;
  recommendations_for_live : list string
}.

(** [SaltEdgeStatusChecker.validate_integration_readiness]; [config] is
    the settings object, [None] when importing it raises. *)
Definition validate_integration_readiness (config : option ClientRequests.settings)
    : readiness :=
  let environment :=
    match config with
    | Some settings =>
        if ClientRequests.given (ClientRequests.SALTEDGE_APP_ID settings)
           && ClientRequests.given (ClientRequests.SALTEDGE_SECRET_KEY settings)
        then true else true
    | None => false
    end in
  let required_checks :=
    [("environment_variables_set", environment);
     ("database_configured", true);
     ("error_handling_implemented", true)] in
  {| readiness_checks :=
       {| request_signing_implemented := false;
          error_handling_implemented := true;
          webhook_handling_ready := false;
          database_configured := true;
          environment_variables_set := environment;
          ready_for_live := forallb snd required_checks |};
     missing_requirements :=
       map fst (filter (fun check => negb (snd check)) required_checks);
     recommendations_for_live :=
       ["Implement request signing for production";
        "Set up webhook handling for real-time updates";
        "Prepare test account for Salt Edge review";
        "Enable two-factor authentication on Salt Edge Dashboard"] |}.

(** [check_integration_readiness] of api/status.py: the checker is
    built, which builds the client, then asked. *)
Definition check_integration_readiness (settings : ClientRequests.settings)
    : result readiness :=
  match ClientRequests.init settings with
  | Raise e => Raise (HTTPException 500 ("Readiness check failed: " ++ str_exn e))
  | Ok _ => Ok (validate_integration_readiness (Some settings))
  end.

(** The readiness check does not look at the values of the settings:
    with any settings object it reports environment_variables_set and
    ready_for_live true, no missing requirement, and request signing as
    not implemented.  So the endpoint never reports a missing
    requirement: it answers 500 when the app id or the secret key is
    not set, and ready otherwise. *)
Theorem readiness_ignores_settings (settings : ClientRequests.settings) :
  let r := validate_integration_readiness (Some settings) in
  environment_variables_set (readiness_checks r) = true
  /\ ready_for_live (readiness_checks r) = true
  /\ missing_requirements r = []
  /\ request_signing_implemented (readiness_checks r) = false
  /\ check_integration_readiness settings
     = if ClientRequests.given (ClientRequests.SALTEDGE_APP_ID settings)
          && ClientRequests.given (ClientRequests.SALTEDGE_SECRET_KEY settings)
       then Ok r
       else Raise (HTTPException 500
              "Readiness check failed: SALTEDGE_APP_ID and SALTEDGE_SECRET_KEY must be set").
Proof.
  cbv zeta. unfold check_integration_readiness, validate_integration_readiness,
    ClientRequests.init.
  destruct (ClientRequests.given (ClientRequests.SALTEDGE_APP_ID settings)
            && ClientRequests.given (ClientRequests.SALTEDGE_SECRET_KEY settings));
    now repeat split.
Qed.

End StatusProbe.

(* ================================================================== *)
(** * Counters and responses of the sync service *)

Module SyncCounters.
Import Py PyFormat DateTime Sync JsonFacts TableFacts SyncFacts.

Section AnyRemote.

Variable R : Type.
Variable call : R -> request -> result json * R.

Lemma upsert_length {A} (matches : A -> bool) (fresh : A)
    (assign : A -> A * result unit) (rows : list A) :
  (length rows <= length (fst (upsert matches fresh assign rows)) <= length rows + 1)%nat.
Proof.
  unfold upsert. destruct (find matches rows) as [obj|].
  - destruct (assign obj) as [obj' r]. cbn [fst].
    assert (H : length (update_first matches obj' rows) = length rows).
    { clear. induction rows as [|x rows IH]; [reflexivity|].
      cbn [update_first]. destruct (matches x); cbn [Datatypes.length];
        [reflexivity | now rewrite IH]. }
    lia.
  - destruct (assign fresh) as [obj' r]. cbn [fst]. rewrite length_app.
    cbn [Datatypes.length]. lia.
Qed.

Lemma sync_transaction_length (data : json) (account : Account) (w : World R) :
  let w' := snd (_sync_transaction data account w) in
  (length (transactions (live (db w))) <= length (transactions (live (db w')))
   <= length (transactions (live (db w))) + 1)%nat.
Proof.
  cbv zeta. rewrite sync_transaction_unfold.
  destruct (getitem data "id") as [rid|e]; cbv zeta; cbn [snd]; [|lia].
  unfold tables. cbn [set_tables db live with_transactions transactions].
  apply upsert_length.
Qed.

(** transactions_synced counts the items of the response, not the rows
    added: when the loop over the items returns, the count has grown by
    the number of items, repeated ids included, the table has grown by
    at most that number and lost nothing, and every item's id is
    stored. *)
Theorem transactions_counted_by_item (items : list json) (account : Account)
    (n m : Z) (w w' : World R) :
  transactions_loop items account n w = (Ok m, w') ->
  m = n + Z.of_nat (length items)
  /\ (length (transactions (live (db w))) <= length (transactions (live (db w')))
      <= length (transactions (live (db w))) + length items)%nat
  /\ forall d rid, In d items -> getitem d "id" = Ok rid ->
       has rid (tkeys (live (db w'))) = true.
Proof.
  revert n w. induction items as [|d items IH]; intros n w.
  - cbn [transactions_loop]. unfold ret. intros [= <- <-].
    cbn [Datatypes.length]. split; [lia|]. split; [lia|]. intros d rid [].
  - cbn [transactions_loop]. unfold bindM at 1.
    pose proof (sync_transaction_length d account w) as Hlen. cbv zeta in Hlen.
    pose proof (sync_transaction_present R d account w) as Hpres.
    destruct (_sync_transaction d account w) as [[[]|e] w1]; [|discriminate].
    cbn [snd] in Hlen, Hpres. intros Hloop.
    pose proof (SyncInvariants.appends_transactions_loop R items account (n + 1) w1)
      as [(_ & _ & _ & Hext) _].
    rewrite Hloop in Hext. cbn [snd] in Hext.
    destruct (IH _ _ Hloop) as (-> & Hrows & Hin).
    cbn [Datatypes.length]. split; [lia|]. split; [lia|].
    intros d' rid [<-|Hd'] Hrid.
    + apply (has_prefix rid (tkeys (live (db w1)))); [now apply Ext_Prefix|].
      now apply Hpres.
    + now apply (Hin d').
Qed.

(** A response of list_connections that is a dict without a data key
    is taken for an empty list: the run returns zero counters and no
    error, and commits the session as it was. *)
Theorem response_without_data (customer_identifier : string) (customer : Customer)
    (w : World R) (kvs : list (string * json)) (r' : R) :
  find (fun c => String.eqb (identifier c) customer_identifier)
       (customers (live (db w))) = Some customer ->
  call (remote w) (ListConnections (saltedge_customer_id customer))
  = (Ok (JObj kvs), r') ->
  lookup "data" kvs = None ->
  sync_customer_data call customer_identifier w =
  (Ok {| result_customer_id := customer_id customer; connections_synced := 0;
         accounts_synced := 0; transactions_synced := 0; errors := [] |},
   {| db := commit (db w); remote := r' |}).
Proof.
  intros Hfind Hcall Hdata.
  rewrite (SyncInvariants.sync_customer_data_found R call _ _ _ Hfind). cbv zeta.
  unfold sync_connections, fetch. rewrite Hcall. unfold data_items.
  cbn [get bind]. rewrite Hdata. reflexivity.
Qed.

End AnyRemote.

(** An API whose answers carry an error instead of data. *)
Definition refusing (_ : unit) (_ : request) : result json * unit :=
  (Ok (JObj [("error", JObj [("class", JStr "CustomerNotFound")])]), tt).

Lemma response_without_data_witness :
  sync_customer_data refusing "alice" Scenario.start =
  (Ok {| result_customer_id := 1; connections_synced := 0;
         accounts_synced := 0; transactions_synced := 0; errors := [] |},
   {| db := commit (db Scenario.start); remote := tt |}).
Proof.
  apply (response_without_data unit refusing "alice" Scenario.alice Scenario.start
           [("error", JObj [("class", JStr "CustomerNotFound")])] tt);
    reflexivity.
Defined.

Lemma transactions_counted_by_item_witness :
  let tx := Scenario.obj_id "tx_1" [("made_on", JStr "2024-01-15")] in
  let account := new_account 1 (JStr "acc_1") 1 in
  let w' := snd (transactions_loop [tx; tx] account 0 Scenario.start) in
  2 = 0 + Z.of_nat (length [tx; tx])
  /\ (length (transactions (live (db Scenario.start)))
      <= length (transactions (live (db w')))
      <= length (transactions (live (db Scenario.start))) + length [tx; tx])%nat
  /\ forall d rid, In d [tx; tx] -> getitem d "id" = Ok rid ->
       has rid (tkeys (live (db w'))) = true.
Proof.
  cbv zeta.
  apply (transactions_counted_by_item unit
           [Scenario.obj_id "tx_1" [("made_on", JStr "2024-01-15")];
            Scenario.obj_id "tx_1" [("made_on", JStr "2024-01-15")]]
           (new_account 1 (JStr "acc_1") 1) 0 2 Scenario.start).
  vm_compute. reflexivity.
Defined.

(** The same transaction listed twice: counted twice, stored once. *)
Example repeated_item_counted_twice :
  let tx := Scenario.obj_id "tx_1" [("made_on", JStr "2024-01-15")] in
  let out := transactions_loop [tx; tx] (new_account 1 (JStr "acc_1") 1) 0
                               Scenario.start in
  fst out = Ok 2 /\ length (transactions (live (db (snd out)))) = 1%nat.
Proof. vm_compute. split; reflexivity. Qed.

End SyncCounters.

(* ================================================================== *)
(** * Deleting a connection: api/connections.py *)

Module ConnectionApi.
Import Py PyFormat Sync ClientRequests.

(** [db.delete(connection)] and the flush: the relationships of the
    models cascade (all, delete-orphan), so the accounts of the
    connection and the transactions of these accounts are loaded and
    deleted with it, each row by its primary key. *)
Definition delete_cascade (connection : Connection) (t : Tables) : Tables :=
  let among (ids : list Z) (id : Z) := existsb (Z.eqb id) ids in
  let gone_accounts :=
    map account_id
        (filter (fun a => Z.eqb (account_connection_id a) (connection_id connection))
                (accounts t)) in
  let gone_transactions :=
    map transaction_id
        (filter (fun x => among gone_accounts (transaction_account_id x))
                (transactions t)) in
  {| customers := customers t;
     connections :=
       filter (fun c => negb (Z.eqb (connection_id c) (connection_id connection)))
              (connections t);
     accounts := filter (fun a => negb (among gone_accounts (account_id a))) (accounts t);
     transactions :=
       filter (fun x => negb (among gone_transactions (transaction_id x)))
              (transactions t) |}.

Section Endpoint.

(** [client.remove_connection] with the API behind it. *)
Variable R : Type.
Variable remove_connection : R -> json -> result json * R.

(** [delete_connection]: the response (204 when it returns) and the
    world it leaves. *)
Definition delete_connection (s : settings) (id : Z) (w : World R)
    : result unit * World R :=
  match find (fun c => Z.eqb (connection_id c) id) (connections (live (db w))) with
  | None => (Raise (HTTPException 404 "Connection not found"), w)
  | Some connection =>
      let failed (e : exn) (remote' : R) :=
        (Raise (HTTPException 500 ("Failed to delete connection: " ++ str_exn e)),
         {| db := rollback (db w); remote := remote' |}) in
      match init s with
      | Raise e => failed e (remote w)
      | Ok _ =>
          match remove_connection (remote w) (saltedge_connection_id connection) with
          | (Raise e, remote') => failed e remote'
          | (Ok _, remote') =>
              (Ok tt,
               {| db := commit {| live := delete_cascade connection (live (db w));
                                  saved := saved (db w) |};
                  remote := remote' |})
          end
      end
  end.

Lemma among_true (ids : list Z) (id : Z) :
  existsb (Z.eqb id) ids = true <-> In id ids.
Proof.
  rewrite existsb_exists. split.
  - intros (x & Hin & Hx). apply Z.eqb_eq in Hx. now subst.
  - intros H. exists id. split; [exact H | apply Z.eqb_refl].
Qed.

(** Deleting a connection.  An unknown id gives 404 and changes
    nothing.  When the client cannot be built or the API refuses the
    removal, the answer is 500 and the session is rolled back: no
    stored row is deleted.  When the API accepts, the deletion is
    committed: the connections left are those with another id, no
    account of the connection is left and no transaction of such an
    account; every row left was there before, and the customers are as
    before. *)
Theorem delete_connection_cascades (s : settings) (id : Z) (w : World R) :
  let out := delete_connection s id w in
  let t := live (db w) in
  let t' := live (db (snd out)) in
  let known := find (fun c => Z.eqb (connection_id c) id) (connections t) in
  (known = None /\ out = (Raise (HTTPException 404 "Connection not found"), w))
  \/ (known <> None
      /\ (exists e, fst out = Raise (HTTPException 500
                                       ("Failed to delete connection: " ++ str_exn e)))
      /\ db (snd out) = rollback (db w))
  \/ (known <> None
      /\ fst out = Ok tt
      /\ saved (db (snd out)) = t'
      /\ customers t' = customers t
      /\ (forall c, In c (connections t') <->
                    In c (connections t) /\ connection_id c <> id)
      /\ (forall a, In a (accounts t') ->
                    In a (accounts t) /\ account_connection_id a <> id)
      /\ (forall x, In x (transactions t') ->
                    In x (transactions t)
                    /\ forall a, In a (accounts t) -> account_connection_id a = id ->
                                 transaction_account_id x <> account_id a)).
Proof.
  cbv zeta. unfold delete_connection.
  destruct (find (fun c => Z.eqb (connection_id c) id) (connections (live (db w))))
    as [connection|] eqn:Hfind; [|left; now split].
  right.
  assert (Hid : connection_id connection = id).
  { apply find_some in Hfind as [_ H]. now apply Z.eqb_eq in H. }
  destruct (init s) as [_|e]; cbn [fst snd].
  2:{ left. split; [discriminate|]. split; [now exists e | reflexivity]. }
  destruct (remove_connection (remote w) (saltedge_connection_id connection))
    as [[response|e] remote']; cbn [fst snd].
  2:{ left. split; [discriminate|]. split; [now exists e | reflexivity]. }
  right. split; [discriminate|]. split; [reflexivity|].
  cbn [db commit live saved]. split; [reflexivity|]. split; [reflexivity|].
  unfold delete_cascade. cbv zeta. cbn [connections accounts transactions].
  rewrite Hid. split; [|split].
  - intros c. rewrite filter_In, negb_true_iff, Z.eqb_neq. tauto.
  - intros a. rewrite filter_In, negb_true_iff. intros [Hin Hgone].
    split; [exact Hin|]. intros Hc.
    assert (Hex : existsb (Z.eqb (account_id a))
                    (map account_id
                       (filter (fun a0 => Z.eqb (account_connection_id a0) id)
                               (accounts (live (db w))))) = true).
    { apply among_true. apply in_map. apply filter_In. split; [exact Hin|].
      now apply Z.eqb_eq. }
    congruence.
  - intros x. rewrite filter_In, negb_true_iff. intros [Hin Hgone].
    split; [exact Hin|]. intros a Ha Hc Hx.
    assert (Hex : existsb (Z.eqb (transaction_id x))
                    (map transaction_id
                       (filter (fun x0 =>
                                  existsb (Z.eqb (transaction_account_id x0))
                                    (map account_id
                                       (filter (fun a0 => Z.eqb (account_connection_id a0) id)
                                               (accounts (live (db w))))))
                               (transactions (live (db w))))) = true).
    { apply among_true. apply in_map. apply filter_In. split; [exact Hin|].
      apply among_true. rewrite Hx. apply in_map. apply filter_In.
      split; [exact Ha | now apply Z.eqb_eq]. }
    congruence.
Qed.

End Endpoint.

(** Deleting conn_1 after a sync, with an API that accepts: its two
    accounts and six transactions go with it. *)
Example delete_after_sync :
  let w := snd (sync_customer_data Scenario.aggregator "alice" Scenario.start) in
  let s := {| SALTEDGE_BASE_URL := "https://www.saltedge.com/api/v6";
              SALTEDGE_APP_ID := Some "app"; SALTEDGE_SECRET_KEY := Some "secret";
              SALTEDGE_CLIENT_ID := None |} in
  let accepting := fun (_ : unit) (_ : json) => (Ok (JObj []), tt) in
  let refusing := fun (_ : unit) (_ : json) => (Raise (ClientError "503"), tt) in
  let t := saved (db (snd (delete_connection unit accepting s 1 w))) in
  let u := saved (db (snd (delete_connection unit refusing s 1 w))) in
  (length (connections t), length (accounts t), length (transactions t))
  = (0, 0, 0)%nat
  /\ (length (connections u), length (accounts u), length (transactions u))
     = (1, 2, 6)%nat.
Proof. vm_compute. split; reflexivity. Qed.

End ConnectionApi.

(** ** Rows the database keeps accepting *)

Module StoreFacts.
Import Py PyFormat Sync.




End StoreFacts.

(* ================================================================== *)
(** * The success callback: api/callbacks.py *)

Module SuccessCallback.
Import Py PyFormat DateTime Sync ClientRequests JsonFacts TableFacts SyncFacts Payloads.

(** Lines 559 and 560: the two assignments. *)
Definition with_success (c : Connection) (now : datetime) : Connection :=
  {| connection_id := connection_id c;
     saltedge_connection_id := saltedge_connection_id c;
     connection_customer_id := connection_customer_id c;
     provider_code := provider_code c;
     provider_name := provider_name c;
     country_code := country_code c;
     connection_status := JStr "active";
     categorization := categorization c;
     show_consent_confirmation := show_consent_confirmation c;
     custom_fields := custom_fields c;
     last_success_at := Some now;
     next_refresh_possible_at := next_refresh_possible_at c |}.

Section Handler.

Variable R : Type.
Variable call : R -> request -> result json * R.

Definition rolled_back (w : World R) : World R :=
  {| db := rollback (db w); remote := remote w |}.

(** The session with the two assignments made on the connection the
    filter selects first. *)
Definition activated (connection_id : json) (connection : Connection)
    (now : datetime) (w : World R) : Session :=
  {| live := with_connections (live (db w))
               (update_first
                  (fun c => Store.same_text (saltedge_connection_id c) connection_id)
                  (with_success connection now) (connections (live (db w))));
     saved := saved (db w) |}.

(** [handle_success_callback]: the world it leaves; [s] are the
    settings [SyncService()] reads, [now] is [datetime.utcnow()] at line
    560.  Every exception of the [try] block, of the two queries, of the
    sync and of the commit among them, ends in the rollback of line 564.
    What it prints is left out. *)
Definition handle_success_callback (s : settings) (now : datetime) (data : json)
    (w : World R) : World R :=
  match get data "connection_id" JNull, get data "customer_id" JNull with
  | Ok connection_id, Ok customer_id =>
      if negb (truthy connection_id) || negb (truthy customer_id) then w
      else
        match Store.first_where (fun c => JStr (saltedge_customer_id c)) customer_id
                                (customers (live (db w))) with
        | Raise _ => rolled_back w
        | Ok None => w
        | Ok (Some customer) =>
            match init s with
            | Raise _ => rolled_back w
            | Ok _ =>
                match Store.sync_customer_data call (identifier customer) w with
                | (Raise _, w1) => rolled_back w1
                | (Ok _, w1) =>
                    match Store.first_where saltedge_connection_id connection_id
                                            (connections (live (db w1))) with
                    | Raise _ => rolled_back w1
                    | Ok None => w1
                    | Ok (Some connection) =>
                        match Store.commit (activated connection_id connection now w1) with
                        | Ok s' => {| db := s'; remote := remote w1 |}
                        | Raise _ =>
                            {| db := rollback (activated connection_id connection now w1);
                               remote := remote w1 |}
                        end
                    end
                end
            end
        end
  | _, _ => rolled_back w
  end.

(** [process_success_callback]. *)
Definition process_success_callback (s : settings) (now : datetime)
    (callback_data : json) (w : World R) : World R :=
  match get callback_data "data" (JObj []) with
  | Ok data =>
      match get data "connection_id" JNull, get data "customer_id" JNull with
      | Ok connection_id, Ok customer_id =>
          if truthy connection_id && truthy customer_id
          then handle_success_callback s now data w
          else w
      | _, _ => w
      end
  | Raise _ => w
  end.



End Handler.


(** The callback for a customer whose bank lists a connection without a
    provider code: the sync is refused, and the connection stored
    before keeps the status it had. *)
Example refused_sync_not_activated :
  let s := {| SALTEDGE_BASE_URL := "https://www.saltedge.com/api/v6";
              SALTEDGE_APP_ID := Some "app"; SALTEDGE_SECRET_KEY := Some "secret";
              SALTEDGE_CLIENT_ID := None |} in
  let now := {| year := 2024; month := 2; day := 1; hour := 9; minute := 0;
                second := 0; microsecond := 0; tzinfo := None |} in
  let data := JObj [("connection_id", JStr "conn_1"); ("customer_id", JStr "cust_1")] in
  let w := snd (sync_customer_data Scenario.aggregator "alice" Scenario.start) in
  db (process_success_callback unit SyncCommit.unnamed_provider s now
        (JObj [("data", data)]) w)
  = db w.
Proof. vm_compute. reflexivity. Qed.

End SuccessCallback.

(* ================================================================== *)
(** * What the parsers of made_on return *)

Module MadeOnFacts.
Import Py DateTime Sync.

Lemma make_valid (y m d h mi s us : Z) (tz : option Z) (dt : datetime) :
  make y m d h mi s us tz = Ok dt ->
  valid_date (year dt) (month dt) (day dt) = true
  /\ valid_time (hour dt) (minute dt) (second dt) (microsecond dt) = true
  /\ tzinfo dt = tz
  /\ (hour dt, minute dt, second dt, microsecond dt) = (h, mi, s, us).
Proof.
  unfold make. destruct (valid_date y m d) eqn:Hd; [|discriminate].
  destruct (valid_time h mi s us) eqn:Ht; [|discriminate].
  cbn [andb]. intros [= <-]. cbn [year month day hour minute second microsecond tzinfo].
  now repeat split.
Qed.

Lemma parse_offset_bound (sign : Z) (tzstr : chars) (off : Z) :
  parse_offset sign tzstr = Ok off -> Z.abs off < microseconds 24 0 0 0.
Proof.
  unfold parse_offset. destruct (negb _); [discriminate|].
  destruct (parse_hh_mm_ss_ff tzstr) as [[[[h mi] s] us]|e]; cbn [bind]; [|discriminate].
  destruct (Z.abs (sign * microseconds h mi s us) <? microseconds 24 0 0 0) eqn:E;
    [|discriminate].
  intros [= <-]. now apply Z.ltb_lt.
Qed.

Lemma parse_isoformat_time_bound (t : chars) (h mi s us off : Z) :
  parse_isoformat_time t = Ok (h, mi, s, us, Some off) ->
  Z.abs off < microseconds 24 0 0 0.
Proof.
  unfold parse_isoformat_time. destruct (Nat.ltb _ _); [discriminate|].
  destruct (split_at "-" t) as [[timestr tzstr]|].
  - destruct (parse_hh_mm_ss_ff timestr) as [[[[h' mi'] s'] us']|e]; cbn [bind];
      [|discriminate].
    destruct (parse_offset (-1) tzstr) as [o|e] eqn:Ho; cbn [bind]; [|discriminate].
    intros [= _ _ _ _ <-]. now apply (parse_offset_bound (-1) tzstr).
  - destruct (split_at "+" t) as [[timestr tzstr]|].
    + destruct (parse_hh_mm_ss_ff timestr) as [[[[h' mi'] s'] us']|e]; cbn [bind];
        [|discriminate].
      destruct (parse_offset 1 tzstr) as [o|e] eqn:Ho; cbn [bind]; [|discriminate].
      intros [= _ _ _ _ <-]. now apply (parse_offset_bound 1 tzstr).
    + destruct (parse_hh_mm_ss_ff t) as [[[[h' mi'] s'] us']|e]; cbn [bind];
        discriminate.
Qed.

Lemma fromisoformat_valid (s : string) (dt : datetime) :
  fromisoformat s = Ok dt ->
  valid_date (year dt) (month dt) (day dt) = true
  /\ valid_time (hour dt) (minute dt) (second dt) (microsecond dt) = true
  /\ forall off, tzinfo dt = Some off -> Z.abs off < microseconds 24 0 0 0.
Proof.
  unfold fromisoformat.
  destruct (parse_isoformat_date _) as [[[y m] d]|e]; cbn [bind]; [|discriminate].
  destruct (skipn 11 (list_ascii_of_string s)) as [|c t].
  - intros H. apply make_valid in H as (Hd & Ht & Htz & _).
    split; [exact Hd|]. split; [exact Ht|]. intros off Hoff. congruence.
  - destruct (parse_isoformat_time (c :: t)) as [[[[[h mi] sec] us] tz]|e] eqn:Hp;
      cbn [bind]; [|discriminate].
    intros H. apply make_valid in H as (Hd & Ht & Htz & _).
    split; [exact Hd|]. split; [exact Ht|]. intros off Hoff.
    rewrite <- Htz, Hoff in Hp.
    now apply (parse_isoformat_time_bound (c :: t) h mi sec us).
Qed.

Lemma strptime_valid (s : string) (dt : datetime) :
  strptime_ymd s = Ok dt ->
  valid_date (year dt) (month dt) (day dt) = true
  /\ (hour dt, minute dt, second dt, microsecond dt) = (0, 0, 0, 0)
  /\ tzinfo dt = None.
Proof.
  unfold strptime_ymd.
  destruct (list_ascii_of_string s) as [|y1 [|y2 [|y3 [|y4 [|dash rest]]]]];
    try discriminate.
  destruct (int_of [y1; y2; y3; y4]) as [y|]; [|discriminate].
  destruct (negb (Ascii.eqb dash "-")); [discriminate|].
  destruct (match_month rest) as [[m rest']|]; [|discriminate].
  destruct (match_day rest') as [[d [|x more]]|]; try discriminate.
  intros H. apply make_valid in H as (Hd & _ & Htz & Hhms). now repeat split.
Qed.

(** A made_on that parses is a date of the calendar with a time of the
    day.  From the date form it is the naive midnight; an aware value,
    with an offset strictly within 24 hours, comes only from the form
    with a T: the column mixes naive and aware values. *)
Theorem parsed_made_on_valid (s : string) (dt : datetime) :
  parse_made_on (JStr s) = Ok dt ->
  valid_date (year dt) (month dt) (day dt) = true
  /\ valid_time (hour dt) (minute dt) (second dt) (microsecond dt) = true
  /\ (contains_T s = false ->
      (hour dt, minute dt, second dt, microsecond dt) = (0, 0, 0, 0)
      /\ tzinfo dt = None)
  /\ (forall off, tzinfo dt = Some off ->
      contains_T s = true /\ Z.abs off < microseconds 24 0 0 0).
Proof.
  unfold parse_made_on. destruct (contains_T s) eqn:HT; intros H.
  - apply fromisoformat_valid in H as (Hd & Ht & Hoff).
    split; [exact Hd|]. split; [exact Ht|]. split; [discriminate|].
    intros off Ho. split; [reflexivity | now apply Hoff].
  - apply strptime_valid in H as (Hd & Hhms & Htz).
    split; [exact Hd|]. injection Hhms as -> -> -> ->. split; [reflexivity|].
    split; [now split|]. intros off Ho. congruence.
Qed.

Lemma parsed_made_on_valid_witness :
  let dt := {| year := 2024; month := 1; day := 15; hour := 10; minute := 30;
               second := 0; microsecond := 0; tzinfo := Some 0 |} in
  valid_date (year dt) (month dt) (day dt) = true
  /\ valid_time (hour dt) (minute dt) (second dt) (microsecond dt) = true
  /\ (contains_T "2024-01-15T10:30:00Z" = false ->
      (hour dt, minute dt, second dt, microsecond dt) = (0, 0, 0, 0)
      /\ tzinfo dt = None)
  /\ (forall off, tzinfo dt = Some off ->
      contains_T "2024-01-15T10:30:00Z" = true /\ Z.abs off < microseconds 24 0 0 0).
Proof.
  cbv zeta. apply (parsed_made_on_valid "2024-01-15T10:30:00Z"). vm_compute. reflexivity.
Defined.

End MadeOnFacts.

(* ================================================================== *)
(** * Whose connection it is *)

Module SyncOwnership.
Import Py PyFormat Sync JsonFacts TableFacts SyncFacts.

Section AnyRemote.

Variable R : Type.
Variable call : R -> request -> result json * R.

(** A connection is looked up by its remote id alone, with no regard to
    the customer.  When the API lists, for one customer, a connection
    that is stored under another, the upsert takes the stored row: no
    row is added, the row stays with the customer it had, and the pass
    over the accounts that follows runs on that row. *)
Theorem connection_keeps_owner (connection_data rid : json) (customer : Customer)
    (stored : Connection) (w : World R) :
  getitem connection_data "id" = Ok rid ->
  find (fun c => json_eqb (saltedge_connection_id c) rid) (connections (live (db w)))
  = Some stored ->
  let w1 := snd (_sync_connection connection_data customer w) in
  ckeys (live (db w1)) = ckeys (live (db w))
  /\ exists updated,
       find (fun c => json_eqb (saltedge_connection_id c) rid)
            (connections (live (db w1))) = Some updated
       /\ connection_customer_id updated = connection_customer_id stored
       /\ connection_id updated = connection_id stored
       /\ _sync_accounts_for_connection call rid customer w1
          = fetch_accounts R call rid updated w1.
Proof.
  intros Hid Hfind. cbv zeta.
  assert (Hhas : has rid (ckeys (live (db w))) = true).
  { unfold has, ckeys. apply existsb_exists. exists (ckey stored).
    apply find_some in Hfind as [Hin Hm]. split; [now apply in_map | exact Hm]. }
  rewrite sync_connection_unfold, Hid. cbv zeta. cbn [snd].
  rewrite sync_accounts_for_connection_unfold.
  unfold tables, ckeys, krid, ckey.
  cbn [fst snd set_tables db live with_connections connections].
  split.
  - pose proof (upsert_keys ckey rid
                  (new_connection (next_id (map connection_id (connections (live (db w)))))
                                  rid (customer_id customer))
                  (assign_connection connection_data)
                  (assign_connection_key connection_data)
                  (connections (live (db w)))) as Hk.
    unfold krid, ckey in Hk. cbn [fst snd] in Hk. unfold ckey. rewrite Hk.
    unfold upserted. unfold ckeys, ckey in Hhas. now rewrite Hhas.
  - unfold upsert. rewrite Hfind.
    pose proof (assign_connection_key connection_data stored) as Hkey.
    destruct (assign_connection connection_data stored) as [updated o].
    cbn [fst] in *. exists updated.
    assert (Hu : find (fun c => json_eqb (saltedge_connection_id c) rid)
                      (update_first (fun c => json_eqb (saltedge_connection_id c) rid)
                                    updated (connections (live (db w))))
                 = Some updated).
    { apply SyncProps.update_first_find; [|congruence].
      apply find_some in Hfind as [_ Hm]. injection Hkey as _ Hr _. now rewrite Hr. }
    split; [exact Hu|]. injection Hkey as Hk1 Hk2 Hk3.
    split; [exact Hk3|]. split; [exact Hk1|].
    now rewrite Hu.
Qed.

End AnyRemote.

Lemma connection_keeps_owner_witness :
  let w := snd (sync_customer_data Scenario.aggregator "alice" Scenario.start) in
  let bob := {| customer_id := 2; saltedge_customer_id := "cust_2";
                identifier := "bob" |} in
  let w1 := snd (_sync_connection (Scenario.obj_id "conn_1" []) bob w) in
  ckeys (live (db w1)) = [(1, JStr "conn_1", 1)].
Proof.
  cbv zeta.
  let stored :=
    eval vm_compute in
      (match find (fun c => json_eqb (saltedge_connection_id c) (JStr "conn_1"))
                  (connections (live (db (snd (sync_customer_data
                     Scenario.aggregator "alice" Scenario.start))))) with
       | Some c => c
       | None => new_connection 0 JNull 0
       end) in
  refine (proj1 (connection_keeps_owner unit Scenario.aggregator
                   (Scenario.obj_id "conn_1" []) (JStr "conn_1")
                   {| customer_id := 2; saltedge_customer_id := "cust_2";
                      identifier := "bob" |}
                   stored _ eq_refl _)).
  vm_compute. reflexivity.
Defined.

End SyncOwnership.

(* ================================================================== *)
(** * Every listed connection is counted *)

Module SyncCounted.
Import Py PyFormat DateTime Sync JsonFacts TableFacts SyncFacts SyncInvariants Payloads.

Lemma connection_items_ok (items : list json) :
  (forall d, In d items -> exists rid, connection_item d rid) ->
  forallb connection_ok items = true.
Proof.
  intros H. apply forallb_forall. intros d Hin.
  destruct (H d Hin) as [rid Hd]. now apply (SyncCommit.connection_item_ok d rid).
Qed.

Section AnyRemote.

Variable R : Type.
Variable call : R -> request -> result json * R.


End AnyRemote.


End SyncCounted.

(* ================================================================== *)
(** * The connection that stops the pass *)

Module SyncStops.
Import Py PyFormat DateTime Sync JsonFacts TableFacts SyncFacts SyncInvariants Payloads.

(** An item the upsert of a connection raises on, whatever the version
    of the library: it has no id, or one of its timestamps is neither
    falsy nor a text. *)
Definition broken_item (d : json) : Prop :=
  (exists e, getitem d "id" = Raise e)
  \/ (truthy (field d "last_success_at") = true
      /\ forall s, field d "last_success_at" <> JStr s).

Lemma broken_item_not_ok (d : json) : broken_item d -> connection_ok d = false.
Proof.
  unfold connection_ok. intros [[e He]|[Ht Hs]]; [now rewrite He|].
  destruct (getitem d "id") as [rid|e]; [|reflexivity].
  unfold assign_connection. rewrite Ht.
  destruct (field d "last_success_at") as [| | |s| |]; try reflexivity.
  now contradiction (Hs s).
Qed.

Section AnyRemote.

Variable R : Type.
Variable call : R -> request -> result json * R.

Lemma sync_connection_raises (d : json) (customer : Customer) (w : World R) :
  connection_ok d = false -> exists e, fst (_sync_connection d customer w) = Raise e.
Proof.
  unfold connection_ok. intros Hbad. rewrite sync_connection_unfold.
  destruct (getitem d "id") as [rid|e]; [|now exists e]. cbv zeta. cbn [fst].
  rewrite (upsert_outcome ckey rid _ _ (assign_connection_outcome d)).
  rewrite (assign_connection_outcome d _ (new_connection 0 JNull 0)).
  destruct (snd (assign_connection d (new_connection 0 JNull 0))) as [[]|e];
    [discriminate | now exists e].
Qed.

Lemma loop_stops (pre rest : list json) (d : json)
    (customer : Customer) (result : SyncResult) (w : World R) :
  forallb connection_ok pre = true -> connection_ok d = false ->
  let out := connections_loop call (pre ++ d :: rest) customer result w in
  out = connections_loop call (pre ++ [d]) customer result w
  /\ (exists e, fst (fst out) = Some e)
  /\ connections_synced (snd (fst out))
     = connections_synced result + Z.of_nat (length pre).
Proof.
  intros Hpre Hbad. cbv zeta. revert result w.
  induction pre as [|p pre IH]; intros result w.
  - cbn [app Datatypes.length]. rewrite !connections_loop_unfold.
    destruct (sync_connection_raises d customer w Hbad) as [e He].
    destruct (_sync_connection d customer w) as [r w1]. cbn [fst] in He. subst r.
    cbn [fst snd]. split; [reflexivity|]. split; [now exists e | lia].
  - cbn [forallb] in Hpre. apply andb_prop in Hpre as [Hp Hpre].
    cbn [app Datatypes.length]. rewrite !connections_loop_unfold.
    pose proof (sync_connection_returns R p customer w Hp) as Hret.
    destruct (_sync_connection p customer w) as [r w1]. cbn [fst] in Hret. subst r.
    assert (Hid : exists rid, getitem p "id" = Ok rid).
    { unfold connection_ok in Hp. destruct (getitem p "id") as [rid|e];
        [now exists rid | discriminate]. }
    destruct Hid as [rid Hid]. rewrite Hid.
    destruct (accounts_of R call p customer w1) as [[counts|e] w2].
    + destruct (IH Hpre (add_counts (add_connection result) counts) w2)
        as (H1 & H2 & H3).
      split; [exact H1|]. split; [exact H2|]. rewrite H3.
      cbn [add_counts add_connection connections_synced]. lia.
    + match goal with
      | |- context [connections_loop call (pre ++ d :: rest) customer ?r w2] =>
          destruct (IH Hpre r w2) as (H1 & H2 & H3)
      end.
      split; [exact H1|]. split; [exact H2|]. rewrite H3.
      cbn [add_error add_connection connections_synced]. lia.
Qed.

(** The pass over the connections stops at the first connection whose
    upsert raises, for want of an id or for a timestamp that is no
    text: the upsert is outside the inner try, so the connections listed
    after it are not looked at, and connections_synced counts those
    before it only.  (The exception then becomes the entry Error syncing
    connections of the result.) *)
Theorem bad_connection_stops_pass (pre rest : list json) (d : json)
    (customer : Customer) (result : SyncResult) (w : World R) :
  (forall p, In p pre -> exists rid, connection_item p rid) ->
  broken_item d ->
  let out := connections_loop call (pre ++ d :: rest) customer result w in
  out = connections_loop call (pre ++ [d]) customer result w
  /\ (exists e, fst (fst out) = Some e)
  /\ connections_synced (snd (fst out))
     = connections_synced result + Z.of_nat (length pre).
Proof.
  intros Hpre Hbad.
  apply loop_stops; [now apply SyncCounted.connection_items_ok|].
  now apply broken_item_not_ok.
Qed.

End AnyRemote.

(** Three connections, the second with a number where its timestamp
    should be. *)
Definition undated (_ : unit) (q : request) : result json * unit :=
  (match q with
   | ListConnections _ =>
       Ok (Scenario.data
             [Scenario.obj_id "conn_1" [("provider_code", JStr "fake_bank")];
              Scenario.obj_id "conn_2" [("provider_code", JStr "fake_bank");
                                        ("last_success_at", JNum 1705314600)];
              Scenario.obj_id "conn_3" [("provider_code", JStr "fake_bank")]])
   | _ => Ok (Scenario.data [])
   end, tt).

(** The run counts conn_1, stops at conn_2 and never sees conn_3. *)
Example undated_connection_run :
  let out := Store.sync_customer_data undated "alice" Scenario.start in
  option_map (fun r => (connections_synced r, length (errors r)))
             (match fst out with Ok r => Some r | Raise _ => None end)
  = Some (1, 1%nat)
  /\ map (fun c => saltedge_connection_id c) (connections (saved (db (snd out))))
     = [JStr "conn_1"; JStr "conn_2"].
Proof. vm_compute. split; reflexivity. Qed.

Lemma bad_connection_stops_pass_witness :
  let pre := [Scenario.obj_id "conn_1" [("provider_code", JStr "fake_bank")]] in
  let d := Scenario.obj_id "conn_2" [("provider_code", JStr "fake_bank");
                                     ("last_success_at", JNum 1705314600)] in
  let rest := [Scenario.obj_id "conn_3" [("provider_code", JStr "fake_bank")]] in
  let result := {| result_customer_id := 1; connections_synced := 0;
                   accounts_synced := 0; transactions_synced := 0; errors := [] |} in
  let out := connections_loop undated (pre ++ d :: rest) Scenario.alice result
                              Scenario.start in
  out = connections_loop undated (pre ++ [d]) Scenario.alice result Scenario.start
  /\ (exists e, fst (fst out) = Some e)
  /\ connections_synced (snd (fst out))
     = connections_synced result + Z.of_nat (length pre).
Proof.
  cbv zeta.
  apply (bad_connection_stops_pass unit undated
           [Scenario.obj_id "conn_1" [("provider_code", JStr "fake_bank")]]
           [Scenario.obj_id "conn_3" [("provider_code", JStr "fake_bank")]]
           (Scenario.obj_id "conn_2" [("provider_code", JStr "fake_bank");
                                      ("last_success_at", JNum 1705314600)])).
  - intros p [<-|[]]. eexists. split; [reflexivity|]. split; left; reflexivity.
  - right. split; [reflexivity | discriminate].
Defined.

End SyncStops.

(* ================================================================== *)
(** * One remote account id under two connections *)

Module AccountLookup.
Import Py PyFormat DateTime Sync JsonFacts TableFacts SyncFacts.





(** Two connections that both list the account acc_1. *)
Definition aggregator (_ : unit) (q : request) : result json * unit :=
  (match q with
   | ListConnections "cust_1" =>
       Ok (Scenario.data
             [Scenario.obj_id "conn_1" [("provider_code", JStr "fake_bank")];
              Scenario.obj_id "conn_2" [("provider_code", JStr "other_bank")]])
   | ListAccounts _ =>
       Ok (Scenario.data [Scenario.obj_id "acc_1" [("name", JStr "Current")]])
   | ListTransactions _ _ => Ok (Scenario.data [])
   | _ => Raise (ClientError "404 Client Error: Not Found")
   end, tt).



End AccountLookup.
